(** * PRODIGY-LIG: a shallow embedding of [prodigy_lig.py]

    The development follows the layout of the script: the byte strings and
    exceptions of Python 2, the chain parser of [ProdigyLig._parse_chains],
    the contact classifier [calculate_contact_counts], the three linear
    models, the two contact detectors and the [ProdigyLig] session with its
    [predict] method.  Definitions come first, the properties after them. *)

From Stdlib Require Import ZArith NArith Bool List Ascii String Floats Lia.
From stdpp Require Import base option list strings pretty gmap fin_maps.

Set Warnings "-inexact-float,-clear-no-such-hyp".
Set Default Proof Using "Type".

Local Open Scope string_scope.
Local Open Scope list_scope.

(** ** Exceptions and fallible computations *)

(** The exception classes the script raises itself or lets escape from the
    built-ins it calls. *)
Inductive exn : Type :=
| RuntimeError
| RuntimeWarning
| IndexError
| KeyError
| ValueError
| OverflowError
| OSError
| IOError.

Global Instance exn_eq_dec : EqDecision exn.
Proof. solve_decision. Defined.

(** A Python expression either yields a value or raises. *)
Inductive result (A : Type) : Type :=
| Ok (a : A)
| Raise (e : exn).

Arguments Ok {A} a.
Arguments Raise {A} e.

Global Instance result_ret : MRet result := fun A a => Ok a.
Global Instance result_bind : MBind result := fun A B f m =>
  match m with
  | Ok a => f a
  | Raise e => Raise e
  end.
Global Instance result_fmap : FMap result := fun A B f m =>
  match m with
  | Ok a => Ok (f a)
  | Raise e => Raise e
  end.

Definition is_ok {A} (r : result A) : bool :=
  match r with
  | Ok _ => true
  | Raise _ => false
  end.

(** [l[i]] for a non-negative index: out of range raises [IndexError]. *)
Definition index {A} (l : list A) (i : nat) : result A :=
  match l !! i with
  | Some x => Ok x
  | None => Raise IndexError
  end.

(** ** Python 2 byte strings *)

Module PyStr.

Definition chars (s : string) : list ascii := list_ascii_of_string s.

(** [s.startswith(p)] *)
Definition startswith (s p : string) : bool := String.prefix p s.

(** [str.upper] in the C locale: only the bytes [a]..[z] change. *)
Definition upper_char (c : ascii) : ascii :=
  let n := N_of_ascii c in
  if ((97 <=? n) && (n <=? 122))%N then ascii_of_N (n - 32) else c.

Fixpoint upper (s : string) : string :=
  match s with
  | EmptyString => EmptyString
  | String c s' => String (upper_char c) (upper s')
  end.

(** [c in s] for a one-byte [c]. *)
Fixpoint char_in (c : ascii) (s : string) : bool :=
  match s with
  | EmptyString => false
  | String d s' => Ascii.eqb c d || char_in c s'
  end.

(** [sub in s]: [sub] occurs in [s] as a substring. *)
Fixpoint contains (s sub : string) : bool :=
  String.prefix sub s ||
  match s with
  | EmptyString => false
  | String _ s' => contains s' sub
  end.

(** [s.count(c)] for a one-byte [c]. *)
Fixpoint count (c : ascii) (s : string) : nat :=
  match s with
  | EmptyString => 0
  | String d s' => (if Ascii.eqb d c then 1 else 0) + count c s'
  end.

(** The pieces of [s] between the bytes that satisfy [sep]; there is always
    at least one piece, and pieces may be empty. *)
Fixpoint split_by (sep : ascii -> bool) (s : string) : list string :=
  match s with
  | EmptyString => [EmptyString]
  | String c s' =>
      if sep c then EmptyString :: split_by sep s'
      else match split_by sep s' with
           | w :: ws => String c w :: ws
           | [] => [String c EmptyString]
           end
  end.

(** [s.split(c)] for a one-byte separator [c]. *)
Definition split (c : ascii) (s : string) : list string :=
  split_by (Ascii.eqb c) s.

(** [isspace] in the C locale: space, and the bytes 9 to 13. *)
Definition isspace (c : ascii) : bool :=
  let n := N_of_ascii c in
  ((n =? 32) || ((9 <=? n) && (n <=? 13)))%N.

Definition nonempty (s : string) : bool :=
  match s with
  | EmptyString => false
  | String _ _ => true
  end.

(** [s.split()]: the maximal runs of bytes that are not white space. *)
Definition split_ws (s : string) : list string :=
  List.filter nonempty (split_by isspace s).

(** ["sep".join(l)] *)
Definition join (sep : string) (l : list string) : string :=
  String.concat sep l.

(** [s[a:b]] for [0 <= a <= b]; a slice never raises. *)
Definition slice (a b : nat) (s : string) : string :=
  String.substring a (b - a) s.

Fixpoint lstrip (s : string) : string :=
  match s with
  | EmptyString => EmptyString
  | String c s' => if isspace c then lstrip s' else s
  end.

Fixpoint rstrip (s : string) : string :=
  match s with
  | EmptyString => EmptyString
  | String c s' =>
      match rstrip s' with
      | EmptyString => if isspace c then EmptyString else String c EmptyString
      | r => String c r
      end
  end.

(** [s.strip()] *)
Definition strip (s : string) : string := rstrip (lstrip s).

(** [s[i]] as a one-byte string. *)
Definition at_index (s : string) (i : nat) : result string :=
  match String.get i s with
  | Some c => Ok (String c EmptyString)
  | None => Raise IndexError
  end.

(** [s.decode("ascii")] succeeds when every byte is below 128. *)
Definition is_ascii (s : string) : bool :=
  forallb (fun c => (N_of_ascii c <? 128)%N) (chars s).

End PyStr.

(** [string.uppercase] in the C locale. *)
Definition uppercase : string := "ABCDEFGHIJKLMNOPQRSTUVWXYZ".

(** ** ProdigyLig._parse_chains *)

(** The [for char in chain_string] loop of [validate_chain_string]. *)
Fixpoint check_chain_chars (s : string) : result unit :=
  match s with
  | EmptyString => Ok tt
  | String char s' =>
      if negb (PyStr.char_in char uppercase) && negb (Ascii.eqb char ",")
      then Raise RuntimeError
      else check_chain_chars s'
  end.

(** [len(set(chain_string).intersection(string.uppercase))] *)
Definition chain_count (chain_string : string) : nat :=
  size ((list_to_set (PyStr.chars chain_string) : gset ascii)
          ∩ list_to_set (PyStr.chars uppercase)).

Definition validate_chain_string (chain_string : string) : result string :=
  let chain_string := PyStr.upper chain_string in
  if negb (PyStr.is_ascii chain_string) then Raise RuntimeError
  else if (String.length chain_string =? 1)%nat then
    if negb (PyStr.contains uppercase chain_string) then Raise RuntimeError
    else Ok chain_string
  else
    _ ← check_chain_chars chain_string;
    let comma_count := Z.of_nat (PyStr.count "," chain_string) in
    let chain_count := Z.of_nat (chain_count chain_string) in
    if negb (comma_count =? chain_count - 1)%Z then Raise RuntimeError
    else Ok chain_string.

Definition _parse_chains (chains : list string) : result (list (list string)) :=
  mapM (fun chain =>
          chain ← validate_chain_string chain;
          mret (PyStr.split "," chain)) chains.

(** ** calculate_contact_counts *)

(** An atom class is one of the strings ["C"], ["N"], ["O"], ["X"], or
    Python's [None]. *)
Definition _classify_atom (atom : string) : option string :=
  if PyStr.startswith atom "C" && negb (PyStr.startswith atom "CL") then Some "C"
  else if PyStr.startswith atom "O" then Some "O"
  else if PyStr.startswith atom "N" then Some "N"
  else if negb (PyStr.startswith atom "C"
                || PyStr.startswith atom "N"
                || PyStr.startswith atom "O")
          || PyStr.startswith atom "CL" then Some "X"
  else None.

(** [atom == 'C'] for a value that may be [None]. *)
Definition is_class (atom : option string) (k : string) : bool :=
  bool_decide (atom = Some k).

Definition _classify_contact (atom_1 atom_2 : option string) : option string :=
  if is_class atom_1 "C" && is_class atom_2 "C" then Some "CC"
  else if (is_class atom_1 "C" && is_class atom_2 "N")
          || (is_class atom_1 "N" && is_class atom_2 "C") then Some "CN"
  else if (is_class atom_1 "C" && is_class atom_2 "O")
          || (is_class atom_1 "O" && is_class atom_2 "C") then Some "CO"
  else if (is_class atom_1 "C" && is_class atom_2 "X")
          || (is_class atom_1 "X" && is_class atom_2 "C") then Some "CX"
  else if (is_class atom_1 "N" && is_class atom_2 "N")
          || (is_class atom_1 "N" && is_class atom_2 "N") then Some "NN"
  else if (is_class atom_1 "N" && is_class atom_2 "O")
          || (is_class atom_1 "O" && is_class atom_2 "N") then Some "NO"
  else if (is_class atom_1 "N" && is_class atom_2 "X")
          || (is_class atom_1 "X" && is_class atom_2 "N") then Some "NX"
  else if (is_class atom_1 "O" && is_class atom_2 "O")
          || (is_class atom_1 "O" && is_class atom_2 "O") then Some "OO"
  else if (is_class atom_1 "O" && is_class atom_2 "X")
          || (is_class atom_1 "X" && is_class atom_2 "O") then Some "OX"
  else if (is_class atom_1 "X" && is_class atom_2 "X")
          || (is_class atom_1 "X" && is_class atom_2 "X") then Some "XX"
  else None.

(** The ten categories, in the order of the dictionary literal. *)
Definition categories : list string :=
  ["CC"; "NN"; "OO"; "XX"; "CN"; "CO"; "CX"; "NO"; "NX"; "OX"].

(** The dictionary [counts] before the loop. *)
Definition initial_counts : gmap string Z :=
  list_to_map ((fun k => (k, 0%Z)) <$> categories).

(** [d[k]] for a key that may be [None], which is never a key of [d]. *)
Definition getitem (d : gmap string Z) (k : option string) : result Z :=
  match k with
  | Some k =>
      match d !! k with
      | Some v => Ok v
      | None => Raise KeyError
      end
  | None => Raise KeyError
  end.

(** [counts[contact_class] += 1] *)
Definition increment (counts : gmap string Z) (contact_class : option string)
  : result (gmap string Z) :=
  v ← getitem counts contact_class;
  match contact_class with
  | Some k => Ok (<[k := (v + 1)%Z]> counts)
  | None => Raise KeyError
  end.

(** One turn of the loop [for line in contacts]. *)
Definition count_line (counts : gmap string Z) (line : string)
  : result (gmap string Z) :=
  if (String.length line =? 0)%nat then Ok counts
  else
    let words := PyStr.split_ws line in
    atom_name_1 ← index words 3;
    atom_name_2 ← index words 7;
    let atom_class_1 := _classify_atom atom_name_1 in
    let atom_class_2 := _classify_atom atom_name_2 in
    let contact_class := _classify_contact atom_class_1 atom_class_2 in
    increment counts contact_class.

Fixpoint count_lines (counts : gmap string Z) (contacts : list string)
  : result (gmap string Z) :=
  match contacts with
  | [] => Ok counts
  | line :: rest =>
      counts ← count_line counts line;
      count_lines counts rest
  end.

Definition calculate_contact_counts (contacts : list string)
  : result (gmap string Z) :=
  count_lines initial_counts contacts.

(** ** The three linear models *)

(** An [int] operand of a float product is converted to the nearest double
    (ties to even), as C does for a [long].  This is the conversion of the
    ints that have a finite nearest double.  A Python [long] beyond them
    makes the product raise [OverflowError]; the counts of a contact list,
    which are at most its length, are far from there, and the properties of
    the three models are stated for counts within the range. *)
Definition float_of_int (n : Z) : float :=
  SF2Prim (SpecFloat.binary_normalize prec emax n 0 false).

Definition calculate_score (contact_counts : gmap string Z)
    (electrostatics_energy : float) : result float :=
  let elec_weight := 0.343794%float in
  let cc_weight := (- 0.037597)%float in
  let nn_weight := 0.138738%float in
  let oo_weight := 0.160043%float in
  let xx_weight := (- 3.088861)%float in
  let intercept := 187.011384%float in
  cc ← getitem contact_counts (Some "CC");
  nn ← getitem contact_counts (Some "NN");
  oo ← getitem contact_counts (Some "OO");
  xx ← getitem contact_counts (Some "XX");
  mret ((elec_weight * electrostatics_energy) +
        (cc_weight * float_of_int cc) +
        (nn_weight * float_of_int nn) +
        (oo_weight * float_of_int oo) +
        (xx_weight * float_of_int xx) +
        intercept)%float.

Definition calculate_DG (contact_counts : gmap string Z) : result float :=
  let nn_weight := 0.0354707%float in
  let xx_weight := (- 0.1277895)%float in
  let cn_weight := (- 0.0072166)%float in
  let intercept := (- 5.1923181)%float in
  nn ← getitem contact_counts (Some "NN");
  xx ← getitem contact_counts (Some "XX");
  cn ← getitem contact_counts (Some "CN");
  mret ((nn_weight * float_of_int nn) +
        (xx_weight * float_of_int xx) +
        (cn_weight * float_of_int cn) +
        intercept)%float.

Definition calculate_DG_electrostatics (contact_counts : gmap string Z)
    (electrostatics_energy : float) : result float :=
  let elec_weight := 0.0115148%float in
  let cc_weight := (- 0.0014852)%float in
  let nn_weight := 0.0057097%float in
  let xx_weight := (- 0.1301806)%float in
  let intercept := (- 5.1002233)%float in
  cc ← getitem contact_counts (Some "CC");
  nn ← getitem contact_counts (Some "NN");
  xx ← getitem contact_counts (Some "XX");
  mret ((elec_weight * electrostatics_energy) +
        (cc_weight * float_of_int cc) +
        (nn_weight * float_of_int nn) +
        (xx_weight * float_of_int xx) +
        intercept)%float.

(** ** The platform: built-ins and the external contact program

    Four things the script calls are not its own code: the built-in
    [float(str)], which raises [ValueError] on text that is no number;
    [float.__pow__], which hands over to the C library's [pow] and raises
    [OverflowError] when that reports a range error; [str(float)]; and the
    external all-atom contact program, which is given the cut-off as its
    argument and the saved structure on its standard input, and whose
    standard output is read line by line ([OSError] when it cannot be
    started or written to).  The detectors are stated over any such
    platform. *)
Class Platform : Type := {
  float_of_str : string -> result float;
  float_pow : float -> float -> result float;
  str_of_float : float -> string;
  run_executable : string -> string -> list string -> result (list string)
}.

(** The value of [cutoff].  The default of the class and of the detectors
    is the float [10.5], and the docstring of the external detector asks for
    a float; [main] hands over [args.distance_cutoff], and the option [-d]
    has no [type=float], so that a cut-off given on the command line arrives
    as the text of the argument. *)
Inductive cutoff_value : Type :=
| CutoffFloat (x : float)
| CutoffStr (s : string).

(** [dist <= cutoff] for a float [dist].  Two floats compare as numbers.
    A float and a str have no common order: Python 2 then orders the two
    objects by type, a number before every other object, so that the test
    holds whatever the float and the text are. *)
Definition dist_le (dist : float) (cutoff : cutoff_value) : bool :=
  match cutoff with
  | CutoffFloat x => (dist <=? x)%float
  | CutoffStr _ => true
  end.

(** A Biopython structure, as far as the script looks at it: its [id], and
    the lines [PDBIO.save] writes for it. *)
Record Structure : Type := {
  id : string;
  saved_lines : list string
}.

(** The dictionary built by [_process_coord_line]. *)
Record coord_line : Type := {
  cl_chain : string;
  cl_resid : string;
  cl_name : string;
  cl_resname : string;
  cl_x : float;
  cl_y : float;
  cl_z : float
}.

(** The named tuple [atom] of [calc_atomic_contacts_python]. *)
Record coord_object : Type := {
  fullname : string;
  coords_x : float;
  coords_y : float;
  coords_z : float
}.

Section Detectors.
Context `{Platform}.

(** [str(cutoff)], the argument of the external program. *)
Definition str_of_cutoff (cutoff : cutoff_value) : string :=
  match cutoff with
  | CutoffFloat x => str_of_float x
  | CutoffStr s => s
  end.

Definition _process_coord_line (line : string) : result (option coord_line) :=
  let coord_line :=
    PyStr.startswith line "ATOM" || PyStr.startswith line "HETATM" in
  if coord_line then
    chain ← PyStr.at_index line 21;
    let resid := PyStr.strip (PyStr.slice 22 26 line) in
    let name := PyStr.strip (PyStr.slice 12 16 line) in
    let resname := PyStr.strip (PyStr.slice 17 20 line) in
    x ← float_of_str (PyStr.slice 30 38 line);
    y ← float_of_str (PyStr.slice 38 46 line);
    z ← float_of_str (PyStr.slice 46 54 line);
    mret (Some {| cl_chain := chain; cl_resid := resid; cl_name := name;
                  cl_resname := resname; cl_x := x; cl_y := y; cl_z := z |})
  else mret None.

Definition _calc_dist (coords_1 coords_2 : coord_object) : result float :=
  dx2 ← float_pow (coords_x coords_1 - coords_x coords_2)%float 2%float;
  dy2 ← float_pow (coords_y coords_1 - coords_y coords_2)%float 2%float;
  dz2 ← float_pow (coords_z coords_1 - coords_z coords_2)%float 2%float;
  float_pow (dx2 + dy2 + dz2)%float 0.5%float.

(** [l.index(True)] *)
Fixpoint index_of_true (l : list bool) : result nat :=
  match l with
  | [] => Raise ValueError
  | b :: l' => if b then Ok 0 else S <$> index_of_true l'
  end.

(** [chain in group], for a list of strings [group]. *)
Definition in_group (chain : string) (group : list string) : bool :=
  bool_decide (chain ∈ group).

(** ["{}_{}_{}_{}".format(resname, resid, name, chain)] *)
Definition format_fullname (c : coord_line) : string :=
  cl_resname c +:+ "_" +:+ cl_resid c +:+ "_" +:+ cl_name c +:+ "_" +:+ cl_chain c.

(** [coordinates[chain_index].append(atom)] on [coordinates = [[], []]]. *)
Definition append_at (coordinates : list coord_object * list coord_object)
    (chain_index : nat) (atom : coord_object)
  : result (list coord_object * list coord_object) :=
  match chain_index with
  | 0 => Ok (coordinates.1 ++ [atom], coordinates.2)
  | 1 => Ok (coordinates.1, coordinates.2 ++ [atom])
  | _ => Raise IndexError
  end.

(** One turn of the loop [for line in io_stream]. *)
Definition read_line (chains : list (list string))
    (coordinates : list coord_object * list coord_object) (line : string)
  : result (list coord_object * list coord_object) :=
  let flattened_chains := concat chains in
  coord_line ← _process_coord_line line;
  match coord_line with
  | Some coord_line =>
      let chain := cl_chain coord_line in
      let full_name := format_fullname coord_line in
      if in_group chain flattened_chains then
        chain_index ← index_of_true (in_group chain <$> chains);
        append_at coordinates chain_index
          {| fullname := full_name; coords_x := cl_x coord_line;
             coords_y := cl_y coord_line; coords_z := cl_z coord_line |}
      else Ok coordinates
  | None => Ok coordinates
  end.

Fixpoint read_lines (chains : list (list string))
    (coordinates : list coord_object * list coord_object)
    (lines : list string)
  : result (list coord_object * list coord_object) :=
  match lines with
  | [] => Ok coordinates
  | line :: rest =>
      coordinates ← read_line chains coordinates line;
      read_lines chains coordinates rest
  end.

(** The tab-separated line appended for a pair in contact. *)
Definition contact_line (ref_atom mob_atom : coord_object) (dist : float)
  : result string :=
  let ref := PyStr.split "_" (fullname ref_atom) in
  let mob := PyStr.split "_" (fullname mob_atom) in
  r0 ← index ref 0; r3 ← index ref 3; r1 ← index ref 1; r2 ← index ref 2;
  m0 ← index mob 0; m3 ← index mob 3; m1 ← index mob 1; m2 ← index mob 2;
  mret (PyStr.join (String "009" EmptyString)
          [r0; r3; r1; r2; m0; m3; m1; m2; str_of_float dist]).

(** The inner loop [for mob_atom in coordinates[1]]. *)
Fixpoint contacts_with (ref_atom : coord_object) (mobs : list coord_object)
    (cutoff : cutoff_value) : result (list string) :=
  match mobs with
  | [] => Ok []
  | mob_atom :: rest =>
      dist ← _calc_dist ref_atom mob_atom;
      new ← (if dist_le dist cutoff
             then line ← contact_line ref_atom mob_atom dist; mret [line]
             else mret []);
      more ← contacts_with ref_atom rest cutoff;
      mret (new ++ more)
  end.

(** The outer loop [for ref_atom in coordinates[0]]. *)
Fixpoint contacts_between (refs mobs : list coord_object)
    (cutoff : cutoff_value) : result (list string) :=
  match refs with
  | [] => Ok []
  | ref_atom :: rest =>
      here ← contacts_with ref_atom mobs cutoff;
      more ← contacts_between rest mobs cutoff;
      mret (here ++ more)
  end.

Definition calc_atomic_contacts_python (structure : Structure)
    (chains : list (list string)) (cutoff : cutoff_value)
  : result (list string) :=
  coordinates ← read_lines chains ([], []) (saved_lines structure);
  contacts_between coordinates.1 coordinates.2 cutoff.

(** The test [chains_are_acceptable], with Python's short-circuit order. *)
Definition chains_are_acceptable (chains : list (list string))
    (chain1 chain2 : string) : result bool :=
  let second :=
    g1 ← index chains 1;
    if in_group chain1 g1 then
      g0 ← index chains 0; mret (in_group chain2 g0)
    else mret false in
  g0 ← index chains 0;
  if in_group chain1 g0 then
    g1 ← index chains 1;
    if in_group chain2 g1 then mret true else second
  else second.

Fixpoint _filter_contacts_by_chain (contacts : list string)
    (chains : list (list string)) : result (list string) :=
  match contacts with
  | [] => Ok []
  | contact :: rest =>
      let words := PyStr.split_ws contact in
      chain1 ← PyStr.upper <$> index words 1;
      chain2 ← PyStr.upper <$> index words 5;
      ok ← chains_are_acceptable chains chain1 chain2;
      filtered ← _filter_contacts_by_chain rest chains;
      mret (if (ok : bool) then contact :: filtered else filtered)
  end.

(** [del l[-1]] *)
Definition del_last {A} (l : list A) : result (list A) :=
  match l with
  | [] => Raise IndexError
  | _ => Ok (removelast l)
  end.

Definition calc_atomic_contacts_cpp (contact_executable : string)
    (pdb_file : Structure) (chains : list (list string))
    (cutoff : cutoff_value) : result (list string) :=
  atomic_contacts ←
    run_executable contact_executable (str_of_cutoff cutoff)
      (saved_lines pdb_file);
  atomic_contacts ← del_last atomic_contacts;
  _filter_contacts_by_chain atomic_contacts chains.

End Detectors.

(** ** The session: class ProdigyLig *)

(** The value held by [self.cpp_contacts] when it is not [None]: the
    one-element list the command line hands over, or, once [predict] has
    unwrapped it, a path. *)
Inductive cpp_value : Type :=
| CppList (l : list string)
| CppStr (s : string).

(** [v[0]] *)
Definition item0 (v : cpp_value) : result string :=
  match v with
  | CppList l => index l 0
  | CppStr s => PyStr.at_index s 0
  end.

Module ProdigyLig.

Record t : Type := Build {
  structure : Structure;
  chains : list (list string);
  electrostatics : option float;
  cpp_contacts : option cpp_value;
  cutoff : cutoff_value;
  dg_score : option float;
  dg_elec : option float;
  dg : option float;
  contact_counts : option (gmap string Z)
}.

Definition set_cpp_contacts (v : option cpp_value) (self : t) : t :=
  Build (structure self) (chains self) (electrostatics self) v (cutoff self)
    (dg_score self) (dg_elec self) (dg self) (contact_counts self).

Definition set_dg_score (v : option float) (self : t) : t :=
  Build (structure self) (chains self) (electrostatics self)
    (cpp_contacts self) (cutoff self) v (dg_elec self) (dg self)
    (contact_counts self).

Definition set_dg_elec (v : option float) (self : t) : t :=
  Build (structure self) (chains self) (electrostatics self)
    (cpp_contacts self) (cutoff self) (dg_score self) v (dg self)
    (contact_counts self).

Definition set_dg (v : option float) (self : t) : t :=
  Build (structure self) (chains self) (electrostatics self)
    (cpp_contacts self) (cutoff self) (dg_score self) (dg_elec self) v
    (contact_counts self).

Definition set_contact_counts (v : option (gmap string Z)) (self : t) : t :=
  Build (structure self) (chains self) (electrostatics self)
    (cpp_contacts self) (cutoff self) (dg_score self) (dg_elec self)
    (dg self) v.

(** [ProdigyLig(structure, chains, electrostatics, cpp_contacts, cutoff)] *)
Definition __init__ (structure : Structure) (chains : list string)
    (electrostatics : option float) (cpp_contacts : option cpp_value)
    (cutoff : cutoff_value) : result t :=
  chains ← _parse_chains chains;
  mret (Build structure chains electrostatics cpp_contacts cutoff
          None None None None).

(** A method body: it runs on the object, may assign to its fields, and
    either returns or raises; the object keeps the assignments made before
    a raise. *)
Definition method (A : Type) : Type := t -> result A * t.

Definition ret {A} (a : A) : method A := fun self => (Ok a, self).

Definition bind {A B} (m : method A) (f : A -> method B) : method B :=
  fun self =>
    match m self with
    | (Ok a, self') => f a self'
    | (Raise e, self') => (Raise e, self')
    end.

Definition lift {A} (r : result A) : method A := fun self => (r, self).
Definition raise {A} (e : exn) : method A := fun self => (Raise e, self).
Definition read {A} (field : t -> A) : method A := fun self => (Ok (field self), self).
Definition assign (set : t -> t) : method unit := fun self => (Ok tt, set self).

Declare Scope method_scope.
Delimit Scope method_scope with method.
Notation "x <- m ;; k" := (bind m (fun x => k))
  (at level 100, m at next level, right associativity) : method_scope.
Notation "m ;; k" := (bind m (fun _ => k))
  (at level 100, right associativity) : method_scope.

Section Predict.
Context `{Platform}.

(** The first statement of [predict]: choose the detector and run it. *)
Definition detect : method (list string) :=
  (cpp <- read cpp_contacts ;;
   match cpp with
   | Some v =>
       exe <- lift (item0 v) ;;
       assign (set_cpp_contacts (Some (CppStr exe))) ;;
       pdb <- read structure ;;
       groups <- read chains ;;
       cut <- read cutoff ;;
       lift (calc_atomic_contacts_cpp exe pdb groups cut)
   | None =>
       pdb <- read structure ;;
       groups <- read chains ;;
       cut <- read cutoff ;;
       lift (calc_atomic_contacts_python pdb groups cut)
   end)%method.

Definition predict : method unit :=
  (atomic_contacts <- detect ;;
   if (length atomic_contacts =? 0)%nat then raise RuntimeWarning
   else
     counts <- lift (calculate_contact_counts atomic_contacts) ;;
     assign (set_contact_counts (Some counts)) ;;
     elec <- read electrostatics ;;
     match elec with
     | Some e =>
         score <- lift (calculate_score counts e) ;;
         assign (set_dg_score (Some score)) ;;
         dge <- lift (calculate_DG_electrostatics counts e) ;;
         assign (set_dg_elec (Some dge)) ;;
         ret tt
     | None => ret tt
     end ;;
     dg <- lift (calculate_DG counts) ;;
     assign (set_dg (Some dg)))%method.

End Predict.

End ProdigyLig.

(** ** extract_electrostatics, and its use in main *)

Module PyStrMore.

(** The loop of [s.replace(old, new)] for a non-empty [old]: [skip] bytes
    of a match just replaced are still to be passed over. *)
Fixpoint replace_go (old new : string) (skip : nat) (s : string) : string :=
  match s with
  | EmptyString => EmptyString
  | String c s' =>
      match skip with
      | S k => replace_go old new k s'
      | O =>
          if String.prefix old s
          then new +:+ replace_go old new (String.length old - 1) s'
          else String c (replace_go old new 0 s')
      end
  end.

(** [s.replace(old, new)], every occurrence from left to right, for a
    non-empty [old]. *)
Definition replace (old new s : string) : string := replace_go old new 0 s.

End PyStrMore.

Section Electrostatics.
Context `{Platform}.

(** The file is the list of its lines.  The scan stops at the first line
    that starts with [REMARK energies], whose seventh comma-separated field
    is the energy, or at the first line that starts with [ATOM]; the file
    position is set back to the start afterwards. *)
Fixpoint extract_electrostatics (pdb_file : list string)
  : result (option float) :=
  match pdb_file with
  | [] => Ok None
  | line :: rest =>
      if PyStr.startswith line "REMARK energies" then
        let line := PyStr.rstrip line in
        let line := PyStrMore.replace "REMARK energies: " "" line in
        field ← index (PyStr.split "," line) 6;
        electrostatics ← float_of_str field;
        mret (Some electrostatics)
      else if PyStr.startswith line "ATOM" then Ok None
      else extract_electrostatics rest
  end.

(** The truth value of [args.electrostatics]: [None] and zero are false. *)
Definition truthy (x : option float) : bool :=
  match x with
  | Some v => negb (v =? 0)%float
  | None => false
  end.

(** The conditional expression of [main] that chooses the energy handed to
    the session: the one of the command line, or the one of the file. *)
Definition main_electrostatics (args_electrostatics : option float)
    (s_ext : string) (in_file : list string) : result (option float) :=
  if truthy args_electrostatics || String.eqb s_ext ".cif"
  then Ok args_electrostatics
  else extract_electrostatics in_file.

End Electrostatics.

(** ** The cut-off handed to the session *)

(** [args.distance_cutoff] as [_parse_arguments] returns it: the default
    when [-d] is absent, else the text that follows [-d]. *)
Definition distance_cutoff (d : option string) : cutoff_value :=
  match d with
  | Some text => CutoffStr text
  | None => CutoffFloat 10.5
  end.

(** ** ProdigyLig.print_prediction *)

(** ['{:.2f}'.format(x)] for a float [x]. *)
Class Formatting : Type := {
  format_2f : float -> string
}.

Definition newline : string := String "010" EmptyString.

(** The files of the platform.  [open(outfile, 'w')] raises [IOError]
    when the file cannot be created or truncated; a [write] on a handle,
    the file just opened or the standard output ([None]), can fail, and so
    can the [close] of the file.  The outcome of a write or of a close may
    depend on what has been written to the handle before. *)
Class Files : Type := {
  open_w : string -> result unit;
  write : option string -> list string -> string -> result unit;
  close : string -> list string -> result unit
}.

Section Report.
Context `{Formatting} `{Files}.

(** A statement [handle.write(text)] in a run that has written [run.1] and
    stands at [run.2]: nothing happens once a statement has raised;
    otherwise the argument is evaluated, and written when that succeeds. *)
Definition write_next (handle : option string) (text : result string)
    (run : list string * result unit) : list string * result unit :=
  match run.2, text with
  | Raise e, _ => run
  | Ok _, Raise e => (run.1, Raise e)
  | Ok _, Ok text =>
      match write handle run.1 text with
      | Ok _ => (run.1 ++ [text], Ok tt)
      | Raise e => (run.1, Raise e)
      end
  end.

(** The statement [if handle is not sys.stdout: handle.close()]. *)
Definition close_next (handle : option string)
    (run : list string * result unit) : list string * result unit :=
  match run.2, handle with
  | Ok _, Some outfile => (run.1, close outfile run.1)
  | _, _ => run
  end.

(** What a call does: the handle it writes to (the file [outfile], or the
    standard output when [outfile] is empty), the strings written in order,
    and how the call ends.  Formatting [None] with [.2f] raises
    [ValueError], after the header has been written. *)
Definition print_prediction (self : ProdigyLig.t) (outfile : string)
  : option string * list string * result unit :=
  let handle := if PyStr.nonempty outfile then Some outfile else None in
  let opened :=
    if PyStr.nonempty outfile then open_w outfile else Ok tt in
  let sep := String "009" EmptyString in
  let run :=
    match ProdigyLig.electrostatics self with
    | Some _ =>
        let header :=
          "Job name" +:+ sep +:+ "DGprediction (Kcal/mol)" +:+ sep
            +:+ "DGscore" +:+ newline in
        let row :=
          match ProdigyLig.dg_elec self, ProdigyLig.dg_score self with
          | Some dg_elec, Some dg_score =>
              Ok (id (ProdigyLig.structure self) +:+ sep
                    +:+ format_2f dg_elec +:+ sep +:+ format_2f dg_score
                    +:+ newline)
          | _, _ => Raise ValueError
          end in
        write_next handle row (write_next handle (Ok header) ([], opened))
    | None =>
        let header :=
          "Job name" +:+ sep
            +:+ "DGprediction (low refinement) (Kcal/mol)" +:+ newline in
        let row :=
          match ProdigyLig.dg self with
          | Some dg =>
              Ok (id (ProdigyLig.structure self) +:+ sep +:+ format_2f dg
                    +:+ newline)
          | None => Raise ValueError
          end in
        write_next handle row (write_next handle (Ok header) ([], opened))
    end in
  (handle, (close_next handle run).1, (close_next handle run).2).

End Report.

(** ** Words of the specification

    The definitions below restate, in the specification's own terms, what
    the properties compare the code with. *)

(** An uppercase ASCII letter [A]..[Z]. *)
Definition is_upper_letter (c : ascii) : bool :=
  ((65 <=? N_of_ascii c) && (N_of_ascii c <=? 90))%N.

Definition letter_or_comma (c : ascii) : bool :=
  is_upper_letter c || Ascii.eqb c ",".

(** The number of distinct letters of a chain string. *)
Definition distinct_letters (s : string) : nat :=
  length (remove_dups (List.filter is_upper_letter (PyStr.chars s))).

(** A chain identifier: exactly one uppercase letter. *)
Definition is_chain_identifier (s : string) : bool :=
  match s with
  | String c EmptyString => is_upper_letter c
  | _ => false
  end.

(** The four atom classes. *)
Definition atom_classes : list string := ["C"; "N"; "O"; "X"].

(** The pair category of two atom classes: the two letters in alphabetical
    order, so that the order of the atoms does not matter. *)
Definition pair_category (a b : string) : string :=
  if String.leb a b then a +:+ b else b +:+ a.

(** [sum(histogram.values())] *)
Definition sum_counts (h : gmap string Z) : Z :=
  map_fold (fun _ v acc => (v + acc)%Z) 0%Z h.

(** Both atom names of a contact line get one of the four classes. *)
Definition classified (atom : string) : bool :=
  match _classify_atom atom with
  | Some c => bool_decide (c ∈ atom_classes)
  | None => false
  end.

Definition both_atoms_classify (line : string) : bool :=
  match index (PyStr.split_ws line) 3, index (PyStr.split_ws line) 7 with
  | Ok name_1, Ok name_2 => classified name_1 && classified name_2
  | _, _ => false
  end.

(** A line the classifier can read: empty, or of at least eight words. *)
Definition readable (line : string) : Prop :=
  line = EmptyString \/ (8 <= length (PyStr.split_ws line))%nat.

(** The ints within the range of the doubles: those whose nearest double
    is finite, the largest double being [2 ^ 1024 - 2 ^ 971] and half a unit
    in its last place [2 ^ 970]. *)
Definition fits_double (n : Z) : Prop := (Z.abs n < 2 ^ 1024 - 2 ^ 970)%Z.

(** Every count of the histogram is within the range of the doubles. *)
Definition counts_fit (h : gmap string Z) : Prop :=
  map_Forall (fun _ v => fits_double v) h.

(** An input of a model: the electrostatics energy, or one count. *)
Inductive model_input : Type :=
| Elec
| Count (key : string).

Definition input_value (h : gmap string Z) (e : float) (i : model_input)
  : result float :=
  match i with
  | Elec => Ok e
  | Count k => float_of_int <$> getitem h (Some k)
  end.

(** A fixed-weight dot product plus intercept: the products
    [weight * input] added from left to right, then the intercept. *)
Definition linear_model (weights : list (model_input * float))
    (intercept : float) (h : gmap string Z) (e : float) : result float :=
  products ← mapM (fun wi => x ← input_value h e wi.1; mret (wi.2 * x)%float)
                  weights;
  match products with
  | [] => Ok intercept
  | p :: ps => Ok (fold_left PrimFloat.add ps p + intercept)%float
  end.

Definition score_weights : list (model_input * float) :=
  [(Elec, 0.343794%float); (Count "CC", (- 0.037597)%float);
   (Count "NN", 0.138738%float); (Count "OO", 0.160043%float);
   (Count "XX", (- 3.088861)%float)].

Definition dg_weights : list (model_input * float) :=
  [(Count "NN", 0.0354707%float); (Count "XX", (- 0.1277895)%float);
   (Count "CN", (- 0.0072166)%float)].

Definition dg_elec_weights : list (model_input * float) :=
  [(Elec, 0.0115148%float); (Count "CC", (- 0.0014852)%float);
   (Count "NN", 0.0057097%float); (Count "XX", (- 0.1301806)%float)].

(** The Euclidean distance of two atoms in double precision: the square
    root of the sum of the squares of the three coordinate differences. *)
Definition euclidean (a b : coord_object) : float :=
  let dx := (coords_x a - coords_x b)%float in
  let dy := (coords_y a - coords_y b)%float in
  let dz := (coords_z a - coords_z b)%float in
  PrimFloat.sqrt (dx * dx + dy * dy + dz * dz).

(** The square of a finite [x] is beyond the doubles: the C library's
    [pow] then reports a range error. *)
Definition square_overflows (x : float) : bool :=
  is_infinity (x * x) && negb (is_infinity x).

(** None of the three squares of [_calc_dist] overflows. *)
Definition squares_in_range (a b : coord_object) : bool :=
  negb (square_overflows (coords_x a - coords_x b))
  && negb (square_overflows (coords_y a - coords_y b))
  && negb (square_overflows (coords_z a - coords_z b)).

(** The sign bit of [x] is clear, or [x] is not a number. *)
Definition not_negative (x : float) : bool :=
  match Prim2SF x with
  | SpecFloat.S754_zero s
  | SpecFloat.S754_infinity s
  | SpecFloat.S754_finite s _ _ => negb s
  | SpecFloat.S754_nan => true
  end.

Section DetectorWords.
Context `{Platform}.

(** A platform whose [pow] is exact at the two exponents of [_calc_dist]:
    the power 2 is the correctly rounded product, with [OverflowError] for
    a range error, and the power 0.5 of a number that is not negative is
    the correctly rounded square root. *)
Definition exact_pow : Prop :=
  (forall x, float_pow x 2
             = if square_overflows x then Raise OverflowError
               else Ok (x * x)%float)
  /\ (forall s, not_negative s = true ->
                float_pow s 0.5 = Ok (PrimFloat.sqrt s)).

(** The line written for a pair of atoms, with their Euclidean distance. *)
Definition pair_line (p : coord_object * coord_object) : result string :=
  contact_line p.1 p.2 (euclidean p.1 p.2).

End DetectorWords.

(** The pair is within the cut-off [x], the boundary included. *)
Definition within_cutoff (x : float) (p : coord_object * coord_object)
  : bool :=
  (euclidean p.1 p.2 <=? x)%float.


(** A session is scored once [predict] has made its last assignment, the
    one to [self.dg]. *)
Definition scored (self : ProdigyLig.t) : bool :=
  match ProdigyLig.dg self with
  | Some _ => true
  | None => false
  end.

(** The state [predict] leaves when it returns: the histogram, the two
    electrostatics scores when there is an energy, and [dg]. *)
Definition scored_state (self : ProdigyLig.t) (h : gmap string Z)
    (scores : option (float * float)) (dg : float) : ProdigyLig.t :=
  ProdigyLig.set_dg (Some dg)
    (match scores with
     | Some (score, dge) =>
         ProdigyLig.set_dg_elec (Some dge)
           (ProdigyLig.set_dg_score (Some score)
              (ProdigyLig.set_contact_counts (Some h) self))
     | None => ProdigyLig.set_contact_counts (Some h) self
     end).

(** The pair category of a contact line, from its fourth and eighth
    words; [None] when the line has no such words. *)
Definition category_of (line : string) : option string :=
  match index (PyStr.split_ws line) 3, index (PyStr.split_ws line) 7 with
  | Ok name_1, Ok name_2 =>
      _classify_contact (_classify_atom name_1) (_classify_atom name_2)
  | _, _ => None
  end.

(** The number of non-empty lines of category [k]. *)
Definition lines_of_category (k : string) (contacts : list string) : nat :=
  length (List.filter
            (fun line => PyStr.nonempty line
                         && bool_decide (category_of line = Some k))
            contacts).

(** An atom class the pair classifier knows: one of the four strings. *)
Definition known_class (atom : option string) : Prop :=
  exists c, atom = Some c /\ c ∈ atom_classes.

(** The buckets each model reads. *)
Definition score_keys : list string := ["CC"; "NN"; "OO"; "XX"].
Definition dg_keys : list string := ["NN"; "XX"; "CN"].
Definition dg_elec_keys : list string := ["CC"; "NN"; "XX"].

(** Two histograms with the same entries at [keys]. *)
Definition agree_on (keys : list string) (h h' : gmap string Z) : Prop :=
  forall k, k ∈ keys -> h !! k = h' !! k.

Definition has_keys (keys : list string) (h : gmap string Z) : Prop :=
  forall k, k ∈ keys -> is_Some (h !! k).

(** The atom the in-process detector stores for a coordinate line. *)
Definition atom_of (c : coord_line) : coord_object :=
  {| fullname := format_fullname c; coords_x := cl_x c;
     coords_y := cl_y c; coords_z := cl_z c |}.

(** The coordinate lines of group 0, and those of group 1 that are not of
    group 0 as well. *)
Definition bucket_0 (g0 : list string) (cls : list (option coord_line))
  : list coord_object :=
  atom_of <$> List.filter (fun c => in_group (cl_chain c) g0) (omap (fun c => c) cls).

Definition bucket_1 (g0 g1 : list string) (cls : list (option coord_line))
  : list coord_object :=
  atom_of <$> List.filter (fun c => negb (in_group (cl_chain c) g0)
                                    && in_group (cl_chain c) g1)
                (omap (fun c => c) cls).

(** No byte of [s] satisfies [p]. *)
Definition free_of (p : ascii -> bool) (s : string) : bool :=
  forallb (fun ch => negb (p ch)) (PyStr.chars s).

(** The four fields of a coordinate line that go into the atom's name. *)
Definition name_fields (c : coord_line) : list string :=
  [cl_resname c; cl_resid c; cl_name c; cl_chain c].

(** A field that survives both the [split("_")] of the detector and the
    [split()] of the classifier: not empty, no underscore, no white
    space. *)
Definition clean_field (s : string) : bool :=
  PyStr.nonempty s && free_of (Ascii.eqb "_") s && free_of PyStr.isspace s.

(** The nine fields of the contact line of two atoms at distance [d]. *)
Definition contact_fields `{Platform} (r m : coord_line) (d : float)
  : list string :=
  [cl_resname r; cl_chain r; cl_resid r; cl_name r;
   cl_resname m; cl_chain m; cl_resid m; cl_name m; str_of_float d].

(** A line of the external program that has the two chain words, the
    second and the sixth. *)
Definition has_chain_words (line : string) : bool :=
  (6 <=? length (PyStr.split_ws line))%nat.

(** The two chains of a line, uppercased, are one in each group, in either
    orientation. *)
Definition acceptable (g0 g1 : list string) (line : string) : bool :=
  match index (PyStr.split_ws line) 1, index (PyStr.split_ws line) 5 with
  | Ok w1, Ok w5 =>
      (in_group (PyStr.upper w1) g0 && in_group (PyStr.upper w5) g1)
      || (in_group (PyStr.upper w1) g1 && in_group (PyStr.upper w5) g0)
  | _, _ => false
  end.

(** The two kinds of line that end the scan for the energy, and the
    lines the scan passes over. *)
Definition energies_line (line : string) : bool :=
  PyStr.startswith line "REMARK energies".

Definition atom_line (line : string) : bool := PyStr.startswith line "ATOM".

Definition passed_over (line : string) : bool :=
  negb (energies_line line) && negb (atom_line line).

(** The tab character that separates the fields of a contact line and
    the columns of the report. *)
Definition tab : string := String "009" EmptyString.

(** The two shapes of the report: the columns with an electrostatics
    energy and without one, and a row of tab-separated fields. *)
Definition report_columns (electrostatics : option float) : list string :=
  match electrostatics with
  | Some _ => ["Job name"; "DGprediction (Kcal/mol)"; "DGscore"]
  | None => ["Job name"; "DGprediction (low refinement) (Kcal/mol)"]
  end.

Definition table_row (fields : list string) : string :=
  PyStr.join tab fields +:+ newline.

(** The scores a report shows, in the order of its columns. *)
Definition report_scores (self : ProdigyLig.t) : list (option float) :=
  match ProdigyLig.electrostatics self with
  | Some _ => [ProdigyLig.dg_elec self; ProdigyLig.dg_score self]
  | None => [ProdigyLig.dg self]
  end.

Section ReportWords.
Context `{Files}.

(** Writing [strings] to [handle] in order, after [written], up to the
    first write that fails. *)
Fixpoint write_all (handle : option string) (written strings : list string)
  : list string * result unit :=
  match strings with
  | [] => (written, Ok tt)
  | text :: rest =>
      match write handle written text with
      | Ok _ => write_all handle (written ++ [text]) rest
      | Raise e => (written, Raise e)
      end
  end.

(** Sending [strings] to the file [outfile], which is opened, written and
    closed, or to the standard output when [outfile] is empty. *)
Definition deliver (outfile : string) (strings : list string)
  : option string * list string * result unit :=
  if PyStr.nonempty outfile then
    match open_w outfile with
    | Ok _ =>
        let run := write_all (Some outfile) [] strings in
        (Some outfile, run.1,
         match run.2 with
         | Ok _ => close outfile run.1
         | Raise e => Raise e
         end)
    | Raise e => (Some outfile, [], Raise e)
    end
  else
    let run := write_all None [] strings in (None, run.1, run.2).

(** The file [outfile], when one is named, can be opened, and the handle
    takes a first string. *)
Definition takes_header (outfile : string) : Prop :=
  (PyStr.nonempty outfile = true -> open_w outfile = Ok tt)
  /\ forall text,
       write (if PyStr.nonempty outfile then Some outfile else None) [] text
       = Ok tt.

End ReportWords.

(** The identifiers of a group that are one byte long. *)
Definition one_byte_ids (group : list string) : list string :=
  List.filter (fun ident => (String.length ident =? 1)%nat) group.

(** ** Examples *)

(** Three lines as the in-process detector writes them: a carbon against a
    chlorine, an empty line, and a carbon against a nitrogen. *)
Definition example_contacts : list string :=
  [PyStr.join tab ["ALA"; "A"; "1"; "CA"; "LIG"; "B"; "2"; "CL1"; "3.0"];
   EmptyString;
   PyStr.join tab ["ALA"; "A"; "1"; "CB"; "LIG"; "B"; "2"; "N1"; "4.5"]].

(** The histogram of the specification's regression test. *)
Definition example_histogram : gmap string Z :=
  <["CC" := 1%Z]> (<["NN" := 2%Z]> (<["CN" := 3%Z]> initial_counts)).

(** An example platform, for running the detectors on concrete input.  It
    reads fixed-point decimals, for which the quotient of the digits by the
    power of ten is the correctly rounded double; it raises to the powers 2
    and 0.5, the two exponents the script uses, by the correctly rounded
    product and square root, and refuses any other exponent; it prints a
    number as [str] does in Python 2, with twelve significant digits; and
    its external program prints the same given lines whatever it is fed. *)
Module ExamplePlatform.

Definition digit (c : ascii) : option Z :=
  let n := N_of_ascii c in
  if ((48 <=? n) && (n <=? 57))%N then Some (Z.of_N (n - 48)) else None.

(** The digits of [s] as a number, with the count of those after the
    point; [None] when [s] is not of the form [ddd], [ddd.ddd] or [.ddd]. *)
Fixpoint read_digits (s : string) (m : Z) (point : bool) (frac : nat)
    (any : bool) : option (Z * nat) :=
  match s with
  | EmptyString => if any then Some (m, frac) else None
  | String c s' =>
      if Ascii.eqb c "." then
        if point then None else read_digits s' m true frac any
      else
        match digit c with
        | Some d =>
            read_digits s' (10 * m + d)%Z point
              (if point then S frac else frac) true
        | None => None
        end
  end.

Definition parse_float (s : string) : result float :=
  let s := PyStr.strip s in
  let signed :=
    match s with
    | String "-" r => (true, r)
    | String "+" r => (false, r)
    | _ => (false, s)
    end in
  match read_digits signed.2 0 false 0 false with
  | Some (m, k) =>
      if (m <? 2 ^ 53)%Z && (k <=? 22)%nat then
        let x := (float_of_int m / float_of_int (10 ^ Z.of_nat k))%float in
        Ok (if signed.1 then (- x)%float else x)
      else Raise ValueError
  | None => Raise ValueError
  end.

Definition power (x y : float) : result float :=
  if (y =? 2)%float then
    let r := (x * x)%float in
    if is_infinity r && negb (is_infinity x) then Raise OverflowError
    else Ok r
  else if (y =? 0.5)%float then
    if (x <? 0)%float then Raise ValueError else Ok (PrimFloat.sqrt x)
  else Raise ValueError.

(** [|x| < 10 ^ k] for [|x| = num / den]. *)
Definition below_power (num den k : Z) : bool :=
  if (0 <=? k)%Z then (num <? den * 10 ^ k)%Z
  else (num * 10 ^ (- k) <? den)%Z.

(** The least [k] from [k] on with [|x| < 10 ^ k]. *)
Fixpoint decimal_point (fuel : nat) (num den k : Z) : Z :=
  match fuel with
  | O => k
  | S fuel' =>
      if below_power num den k then k
      else decimal_point fuel' num den (k + 1)%Z
  end.

(** [num / den] rounded to the nearest integer, ties to even. *)
Definition round_half_even (num den : Z) : Z :=
  let q := (num / den)%Z in
  let r := (num mod den)%Z in
  if (den <? 2 * r)%Z then (q + 1)%Z
  else if (2 * r =? den)%Z then (q + q mod 2)%Z
  else q.

(** A number of [nd] digits without its trailing zeros. *)
Fixpoint strip_zeros (fuel : nat) (n : Z) (nd : nat) : Z * nat :=
  match fuel with
  | O => (n, nd)
  | S fuel' =>
      if ((n mod 10 =? 0)%Z && (1 <? nd)%nat)
      then strip_zeros fuel' (n / 10)%Z (nd - 1)
      else (n, nd)
  end.

Fixpoint zeros (n : nat) : string :=
  match n with
  | O => ""
  | S n' => String "0" (zeros n')
  end.

(** The twelve significant digits of [num / den > 0] as ["%.12g"] writes
    them, with [.0] added to a number written without point or exponent. *)
Definition show_positive (num den : Z) : string :=
  let k := decimal_point 700 num den (- 340) in
  let scale := (12 - k)%Z in
  let n :=
    if (0 <=? scale)%Z then round_half_even (num * 10 ^ scale) den
    else round_half_even num (den * 10 ^ (- scale)) in
  let '(n, k) := if (n =? 10 ^ 12)%Z then (10 ^ 11, k + 1)%Z else (n, k) in
  let '(n, nd) := strip_zeros 12 n 12 in
  let digits := pretty n in
  if ((k <=? -4) || (12 <? k))%Z then
    let x := (k - 1)%Z in
    String.substring 0 1 digits
      +:+ (if (1 <? nd)%nat then "." +:+ String.substring 1 (nd - 1) digits
           else "")
      +:+ "e" +:+ (if (x <? 0)%Z then "-" else "+")
      +:+ (if (Z.abs x <? 10)%Z then "0" else "") +:+ pretty (Z.abs x)
  else if (k <=? 0)%Z then "0." +:+ zeros (Z.to_nat (- k)) +:+ digits
  else if (Z.of_nat nd <=? k)%Z
  then digits +:+ zeros (Z.to_nat k - nd) +:+ ".0"
  else String.substring 0 (Z.to_nat k) digits +:+ "."
         +:+ String.substring (Z.to_nat k) (nd - Z.to_nat k) digits.

(** [str(x)] of Python 2, from the exact value of the double. *)
Definition show_float (x : float) : string :=
  match Prim2SF x with
  | SpecFloat.S754_nan => "nan"
  | SpecFloat.S754_infinity s => if s then "-inf" else "inf"
  | SpecFloat.S754_zero s => if s then "-0.0" else "0.0"
  | SpecFloat.S754_finite s m e =>
      (if s then "-" else "")
        +:+ (if (0 <=? e)%Z then show_positive (Z.pos m * 2 ^ e) 1
             else show_positive (Z.pos m) (2 ^ (- e)))
  end.

Definition platform (program_output : result (list string)) : Platform := {|
  float_of_str := parse_float;
  float_pow := power;
  str_of_float := show_float;
  run_executable := fun _ _ _ => program_output
|}.

End ExamplePlatform.

(** Two atoms at distance 10.5, one in chain X and one in chain Y, and a
    third in a chain of neither group. *)
Definition example_structure : Structure := {|
  id := "complex";
  saved_lines :=
    ["ATOM      1  CA  ALA X   1       0.000   0.000   0.000  1.00  0.00           C";
     "HETATM    2  N1  LIG Y   2       0.000   0.000  10.500  1.00  0.00           N";
     "ATOM      3  O   GLY Z   3       1.000   1.000   1.000  1.00  0.00           O";
     "END"]
|}.

Definition example_ref : coord_object :=
  {| fullname := "ALA_1_CA_X"; coords_x := 0; coords_y := 0; coords_z := 0 |}.

Definition example_mob : coord_object :=
  {| fullname := "LIG_2_N1_Y"; coords_x := 0; coords_y := 0; coords_z := 10.5 |}.

Definition example_line : string :=
  PyStr.join tab ["ALA"; "X"; "1"; "CA"; "LIG"; "Y"; "2"; "N1"; "10.5"].

(** The platform of the examples, with an external program that prints
    nothing but its closing summary line. *)
Definition summary_only : Platform :=
  ExamplePlatform.platform (Ok ["Total contacts: 0"]).

(** One carbon-carbon pair at 3.0 between chain A and chain B. *)
Definition pair_structure : Structure := {|
  id := "pair";
  saved_lines :=
    ["ATOM      1  CA  ALA A   1       0.000   0.000   0.000  1.00  0.00           C";
     "HETATM    2  C1  LIG B   2       0.000   0.000   3.000  1.00  0.00           C";
     "END"]
|}.

(** [ProdigyLig(pair, ["A", "B"], -30.5, None)] *)
Definition near_session : ProdigyLig.t :=
  ProdigyLig.Build pair_structure [["A"]; ["B"]] (Some (- 30.5)%float) None
    (CutoffFloat 10.5) None None None None.

(** [ProdigyLig(complex, ["X", "Y"], -30.5, None, 5.0)]: the two chains
    are 10.5 apart. *)
Definition far_session : ProdigyLig.t :=
  ProdigyLig.Build example_structure [["X"]; ["Y"]] (Some (- 30.5)%float) None
    (CutoffFloat 5) None None None None.

(** [ProdigyLig(complex, ["X", "Y"], None, ["contacts"])] *)
Definition cpp_session : ProdigyLig.t :=
  ProdigyLig.Build example_structure [["X"]; ["Y"]] None
    (Some (CppList ["contacts"])) (CutoffFloat 10.5) None None None None.

(** The coordinate lines of the two atoms of the example structure that
    are in contact. *)
Definition example_coord_ref : coord_line :=
  {| cl_chain := "X"; cl_resid := "1"; cl_name := "CA"; cl_resname := "ALA";
     cl_x := 0; cl_y := 0; cl_z := 0 |}.

Definition example_coord_mob : coord_line :=
  {| cl_chain := "Y"; cl_resid := "2"; cl_name := "N1"; cl_resname := "LIG";
     cl_x := 0; cl_y := 0; cl_z := 10.5 |}.

(** An energies remark as HADDOCK writes it, and a file that has it
    before its first atom. *)
Definition example_remark : string :=
  "REMARK energies: -283.961, -225.764, -32.0, 0.0, 0.0, 0.0, -30.5, 12.25"
    +:+ newline.

Definition example_file : list string :=
  ["REMARK FILENAME=complex_1w.pdb" +:+ newline; example_remark;
   "ATOM      1  CA  ALA X   1       0.000   0.000   0.000  1.00  0.00"].

(** A formatter for the examples: the exact value of the double, rounded
    to two decimals with ties to even, as the C library prints it. *)
Definition fixed_2 (x : float) : string :=
  match Prim2SF x with
  | SpecFloat.S754_nan => "nan"
  | SpecFloat.S754_infinity s => if s then "-inf" else "inf"
  | SpecFloat.S754_zero s => if s then "-0.00" else "0.00"
  | SpecFloat.S754_finite s m e =>
      let num := (Z.pos m * 100)%Z in
      let q :=
        if (0 <=? e)%Z then (num * 2 ^ e)%Z
        else
          let den := (2 ^ (- e))%Z in
          let q0 := (num / den)%Z in
          let r := (num mod den)%Z in
          if (den <? 2 * r)%Z then (q0 + 1)%Z
          else if (2 * r =? den)%Z then (q0 + q0 mod 2)%Z
          else q0 in
      (if s then "-" else "") +:+ pretty (q / 100)%Z +:+ "."
        +:+ pretty (q mod 100 / 10)%Z +:+ pretty (q mod 10)%Z
  end.

Definition two_decimals : Formatting := {| format_2f := fixed_2 |}.

(** Files for the examples: every name can be opened for writing but that
    of the root directory, and no write or close fails. *)
Definition plain_files : Files := {|
  open_w := fun name => if String.eqb name "/" then Raise IOError else Ok tt;
  write := fun _ _ _ => Ok tt;
  close := fun _ _ => Ok tt
|}.

(** * Properties *)

(** ** Chain parsing *)

Lemma char_in_uppercase (c : ascii) :
  PyStr.char_in c uppercase = is_upper_letter c.
Proof. destruct c as [[] [] [] [] [] [] [] []]; reflexivity. Qed.

Lemma char_in_elem_of (c : ascii) (s : string) :
  PyStr.char_in c s = true <-> c ∈ PyStr.chars s.
Proof.
  induction s as [|d s IH]; simpl.
  - split; [discriminate | intros Hin; inversion Hin].
  - rewrite orb_true_iff, IH, elem_of_cons, Ascii.eqb_eq. reflexivity.
Qed.

Lemma check_chain_chars_spec (s : string) :
  check_chain_chars s =
    if forallb letter_or_comma (PyStr.chars s) then Ok tt
    else Raise RuntimeError.
Proof.
  induction s as [|c s IH]; [reflexivity|].
  cbn [check_chain_chars]. rewrite char_in_uppercase.
  change (PyStr.chars (String c s)) with (c :: PyStr.chars s).
  cbn [forallb]. unfold letter_or_comma at 1.
  destruct (is_upper_letter c); cbn [negb andb orb]; [exact IH|].
  destruct (Ascii.eqb c ","); cbn [negb]; [exact IH | reflexivity].
Qed.

Lemma chain_count_distinct_letters (s : string) :
  chain_count s = distinct_letters s.
Proof.
  unfold chain_count, distinct_letters.
  rewrite <- (size_list_to_set (C := gset ascii)) by apply NoDup_remove_dups.
  f_equal. apply set_eq. intros c.
  rewrite elem_of_intersection, !elem_of_list_to_set, elem_of_remove_dups.
  rewrite <- (char_in_elem_of c uppercase), char_in_uppercase.
  split.
  - intros [Hc Hu]. apply list_elem_of_In, filter_In.
    split; [apply list_elem_of_In, Hc | exact Hu].
  - intros Hf. apply list_elem_of_In, filter_In in Hf.
    destruct Hf as [Hc Hu]. split; [apply list_elem_of_In, Hc | exact Hu].
Qed.

Lemma letter_or_comma_is_ascii (s : string) :
  forallb letter_or_comma (PyStr.chars s) = true -> PyStr.is_ascii s = true.
Proof.
  unfold PyStr.is_ascii. rewrite !forallb_forall. intros Hall c Hc.
  specialize (Hall c Hc). revert Hall. clear.
  destruct c as [[] [] [] [] [] [] [] []]; vm_compute; congruence.
Qed.

Lemma validate_chain_string_long (raw : string) :
  (1 < String.length (PyStr.upper raw))%nat ->
  validate_chain_string raw =
    if forallb letter_or_comma (PyStr.chars (PyStr.upper raw))
       && (Z.of_nat (PyStr.count "," (PyStr.upper raw))
           =? Z.of_nat (distinct_letters (PyStr.upper raw)) - 1)%Z
    then Ok (PyStr.upper raw)
    else Raise RuntimeError.
Proof.
  intros Hlen. unfold validate_chain_string.
  set (s := PyStr.upper raw) in *.
  destruct (forallb letter_or_comma (PyStr.chars s)) eqn:Hall; simpl.
  - rewrite (letter_or_comma_is_ascii s Hall); simpl.
    destruct (Nat.eqb_spec (String.length s) 1) as [Heq|_]; [lia|].
    rewrite check_chain_chars_spec, Hall; simpl.
    rewrite chain_count_distinct_letters.
    destruct (_ =? _)%Z; reflexivity.
  - destruct (PyStr.is_ascii s); simpl; [|reflexivity].
    destruct (Nat.eqb_spec (String.length s) 1) as [Heq|_]; [lia|].
    rewrite check_chain_chars_spec, Hall. reflexivity.
Qed.

(** C3 (chain specifications longer than one character).  Let [s] be the
    uppercased specification, of length greater than 1.  If some character
    of [s] is neither an uppercase letter nor a comma, or if the number of
    commas differs from the number of distinct letters minus one,
    validation and parsing fail with the parser's [RuntimeError]
    (InvalidChainSpec); otherwise validation returns [s] and parsing
    returns the pieces of [s] between its commas, in order. *)
Theorem C3_long_chain_spec (raw : string) :
  (1 < String.length (PyStr.upper raw))%nat ->
  ((exists c, c ∈ PyStr.chars (PyStr.upper raw) /\ letter_or_comma c = false)
   \/ Z.of_nat (PyStr.count "," (PyStr.upper raw))
      <> (Z.of_nat (distinct_letters (PyStr.upper raw)) - 1)%Z ->
   validate_chain_string raw = Raise RuntimeError
   /\ _parse_chains [raw] = Raise RuntimeError)
  /\
  ((forall c, c ∈ PyStr.chars (PyStr.upper raw) -> letter_or_comma c = true)
   /\ Z.of_nat (PyStr.count "," (PyStr.upper raw))
      = (Z.of_nat (distinct_letters (PyStr.upper raw)) - 1)%Z ->
   validate_chain_string raw = Ok (PyStr.upper raw)
   /\ _parse_chains [raw] = Ok [PyStr.split "," (PyStr.upper raw)]).
Proof.
  intros Hlen. pose proof (validate_chain_string_long raw Hlen) as Hv.
  set (s := PyStr.upper raw) in *.
  split.
  - intros Hbad.
    assert (validate_chain_string raw = Raise RuntimeError) as Hr.
    { rewrite Hv. destruct Hbad as [(c & Hc & Hno)|Hcount].
      - destruct (forallb letter_or_comma (PyStr.chars s)) eqn:Hall;
          [|reflexivity].
        rewrite forallb_forall in Hall.
        apply list_elem_of_In in Hc. rewrite (Hall c Hc) in Hno. discriminate.
      - destruct (Z.eqb_spec (Z.of_nat (PyStr.count "," s))
                    (Z.of_nat (distinct_letters s) - 1)) as [Heq|_];
          [contradiction|].
        rewrite andb_false_r. reflexivity. }
    split; [exact Hr|]. unfold _parse_chains; simpl. rewrite Hr. reflexivity.
  - intros [Hall Hcount].
    assert (validate_chain_string raw = Ok s) as Hr.
    { rewrite Hv.
      assert (forallb letter_or_comma (PyStr.chars s) = true) as ->.
      { apply forallb_forall. intros c Hc. apply Hall, list_elem_of_In, Hc. }
      rewrite Hcount, Z.eqb_refl. reflexivity. }
    split; [exact Hr|]. unfold _parse_chains; simpl. rewrite Hr. reflexivity.
Qed.

Ltac all_letters_or_commas :=
  let c := fresh "c" in
  let Hc := fresh "Hc" in
  intros c Hc; apply list_elem_of_In in Hc; revert c Hc;
  apply forallb_forall; reflexivity.

Lemma C3_long_chain_spec_witness :
  _parse_chains ["A,"] = Raise RuntimeError
  /\ _parse_chains [",A"] = Raise RuntimeError
  /\ _parse_chains ["A,,B"] = Raise RuntimeError
  /\ _parse_chains ["A1"] = Raise RuntimeError
  /\ _parse_chains ["A,B,C"] = Ok [["A"; "B"; "C"]]
  /\ _parse_chains ["a,b"] = Ok [["A"; "B"]].
Proof.
  split; [|split; [|split; [|split; [|split]]]].
  - apply (C3_long_chain_spec "A,"); [vm_compute; lia|].
    right. vm_compute. discriminate.
  - apply (C3_long_chain_spec ",A"); [vm_compute; lia|].
    right. vm_compute. discriminate.
  - apply (C3_long_chain_spec "A,,B"); [vm_compute; lia|].
    right. vm_compute. discriminate.
  - apply (C3_long_chain_spec "A1"); [vm_compute; lia|].
    left. exists "1"%char. split; [|reflexivity].
    apply list_elem_of_In. simpl. auto.
  - apply (C3_long_chain_spec "A,B,C"); [vm_compute; lia|].
    split; [all_letters_or_commas | reflexivity].
  - apply (C3_long_chain_spec "a,b"); [vm_compute; lia|].
    split; [all_letters_or_commas | reflexivity].
Defined.

(** One group per input string, in order: parsing a list parses each
    string on its own and fails as soon as one of them is refused. *)
Lemma _parse_chains_cons (chain : string) (chains : list string) :
  _parse_chains (chain :: chains) =
    match validate_chain_string chain with
    | Ok s =>
        match _parse_chains chains with
        | Ok parsed => Ok (PyStr.split "," s :: parsed)
        | Raise e => Raise e
        end
    | Raise e => Raise e
    end.
Proof.
  unfold _parse_chains. cbn [mapM].
  destruct (validate_chain_string chain) as [s|e]; reflexivity.
Qed.

(** C4 (every parsed identifier is one uppercase letter): the count of
    commas against distinct letters lets ["AB,"] through, and the parser
    returns the group [["AB"; ""]]: a two-letter identifier and an empty
    one.  A doubled letter is let through in the same way. *)
Theorem C4_accepted_group_with_bad_identifiers :
  _parse_chains ["AB,"; "C"] = Ok [["AB"; ""]; ["C"]]
  /\ is_chain_identifier "AB" = false
  /\ is_chain_identifier "" = false
  /\ _parse_chains ["AA"; "C"] = Ok [["AA"]; ["C"]].
Proof. repeat split; reflexivity. Qed.

(** ** Contact classification *)

Lemma startswith_nil (p : string) (a : ascii) :
  PyStr.startswith EmptyString (String a p) = false.
Proof. reflexivity. Qed.

Lemma startswith_cons (atom p : string) (c a : ascii) :
  PyStr.startswith (String c atom) (String a p) =
    if ascii_dec a c then PyStr.startswith atom p else false.
Proof. reflexivity. Qed.

Lemma startswith_empty (atom : string) :
  PyStr.startswith atom EmptyString = true.
Proof. destruct atom; reflexivity. Qed.

Lemma startswith_CL_C (atom : string) :
  PyStr.startswith atom "CL" = true -> PyStr.startswith atom "C" = true.
Proof.
  destruct atom as [|c atom]; [discriminate|].
  rewrite !startswith_cons, startswith_empty.
  destruct (ascii_dec "C" c); [reflexivity | discriminate].
Qed.

Lemma startswith_first (atom p : string) (a b : ascii) :
  a <> b ->
  PyStr.startswith atom (String a p) = true ->
  PyStr.startswith atom (String b EmptyString) = false.
Proof.
  intros Hab. destruct atom as [|c atom]; [discriminate|].
  rewrite !startswith_cons.
  destruct (ascii_dec a c) as [<-|]; [|discriminate].
  destruct (ascii_dec b a) as [->|]; [contradiction | reflexivity].
Qed.

Lemma startswith_one (atom : string) (c a : ascii) :
  PyStr.startswith (String c atom) (String a EmptyString) = true <-> a = c.
Proof.
  rewrite startswith_cons, startswith_empty.
  destruct (ascii_dec a c); split; congruence.
Qed.

(** Every atom name gets one of the four classes: the rules leave no gap,
    and the final [return None] of [_classify_atom] is never reached. *)
Lemma _classify_atom_total (atom : string) :
  exists c, _classify_atom atom = Some c /\ c ∈ atom_classes.
Proof.
  unfold _classify_atom, atom_classes.
  destruct (PyStr.startswith atom "CL") eqn:HCL.
  - rewrite (startswith_CL_C atom HCL).
    rewrite (startswith_first atom "L" "C" "O") by (discriminate || exact HCL).
    rewrite (startswith_first atom "L" "C" "N") by (discriminate || exact HCL).
    simpl. exists "X". split; [reflexivity | set_solver].
  - destruct (PyStr.startswith atom "C") eqn:HC; simpl.
    + exists "C". split; [reflexivity | set_solver].
    + destruct (PyStr.startswith atom "O") eqn:HO; simpl.
      * exists "O". split; [reflexivity | set_solver].
      * destruct (PyStr.startswith atom "N") eqn:HN; simpl.
        -- exists "N". split; [reflexivity | set_solver].
        -- exists "X". split; [reflexivity | set_solver].
Qed.

Lemma _classify_contact_sym (atom_1 atom_2 : option string) :
  _classify_contact atom_1 atom_2 = _classify_contact atom_2 atom_1.
Proof.
  unfold _classify_contact, is_class.
  repeat case_bool_decide; simplify_eq; reflexivity.
Qed.

Lemma _classify_contact_classes (a b : string) :
  a ∈ atom_classes -> b ∈ atom_classes ->
  _classify_contact (Some a) (Some b) = Some (pair_category a b)
  /\ pair_category a b ∈ categories.
Proof.
  unfold atom_classes, categories. intros Ha Hb.
  repeat (apply elem_of_cons in Ha as [->|Ha]);
    try (by apply elem_of_nil in Ha);
    repeat (apply elem_of_cons in Hb as [->|Hb]);
    try (by apply elem_of_nil in Hb);
    (split; [reflexivity | vm_compute; set_solver]).
Qed.

Lemma count_line_words (counts : gmap string Z) (line a1 a2 : string) :
  line <> EmptyString ->
  index (PyStr.split_ws line) 3 = Ok a1 ->
  index (PyStr.split_ws line) 7 = Ok a2 ->
  count_line counts line =
    increment counts (_classify_contact (_classify_atom a1) (_classify_atom a2)).
Proof.
  intros Hne H3 H7. unfold count_line.
  destruct line as [|c line]; [contradiction|]. cbn [String.length Nat.eqb].
  rewrite H3, H7. reflexivity.
Qed.

(** C2 (classification by atom name).  An atom is classified from its name
    only: a name that starts with ["C"] but not with ["CL"] is of class C,
    one that starts with ["O"] of class O, one that starts with ["N"] of
    class N, and one that starts with ["CL"], or with none of C, N and O, of
    class X.  The pair category of two classes is the same in either order
    (the two letters in alphabetical order), and the bucket a contact line
    increments is the pair category of the classes of its two atom names,
    the fourth and the eighth word of the line. *)
Theorem C2_classification_by_name (atom : string) :
  (PyStr.startswith atom "C" = true -> PyStr.startswith atom "CL" = false ->
   _classify_atom atom = Some "C")
  /\ (PyStr.startswith atom "O" = true -> _classify_atom atom = Some "O")
  /\ (PyStr.startswith atom "N" = true -> _classify_atom atom = Some "N")
  /\ (PyStr.startswith atom "CL" = true
      \/ (PyStr.startswith atom "C" = false
          /\ PyStr.startswith atom "N" = false
          /\ PyStr.startswith atom "O" = false) ->
      _classify_atom atom = Some "X")
  /\ (forall a b : option string,
        _classify_contact a b = _classify_contact b a)
  /\ (forall a b : string, a ∈ atom_classes -> b ∈ atom_classes ->
        _classify_contact (Some a) (Some b) = Some (pair_category a b)
        /\ _classify_contact (Some b) (Some a) = Some (pair_category a b))
  /\ (forall (counts : gmap string Z) (line name_1 name_2 : string),
        line <> EmptyString ->
        index (PyStr.split_ws line) 3 = Ok name_1 ->
        index (PyStr.split_ws line) 7 = Ok name_2 ->
        count_line counts line =
          increment counts
            (_classify_contact (_classify_atom name_1) (_classify_atom name_2))).
Proof.
  repeat apply conj.
  - intros HC HCL. unfold _classify_atom. rewrite HC, HCL. reflexivity.
  - intros HO. unfold _classify_atom.
    rewrite (startswith_first atom "" "O" "C") by (discriminate || exact HO).
    rewrite HO. reflexivity.
  - intros HN. unfold _classify_atom.
    rewrite (startswith_first atom "" "N" "C") by (discriminate || exact HN).
    rewrite (startswith_first atom "" "N" "O") by (discriminate || exact HN).
    rewrite HN. reflexivity.
  - intros [HCL|(HC & HN & HO)]; unfold _classify_atom.
    + rewrite HCL, (startswith_CL_C atom HCL).
      rewrite (startswith_first atom "L" "C" "O") by (discriminate || exact HCL).
      rewrite (startswith_first atom "L" "C" "N") by (discriminate || exact HCL).
      reflexivity.
    + rewrite HC, HN, HO. simpl.
      destruct (PyStr.startswith atom "CL"); reflexivity.
  - exact _classify_contact_sym.
  - intros a b Ha Hb. split.
    + apply _classify_contact_classes; assumption.
    + rewrite _classify_contact_sym. apply _classify_contact_classes; assumption.
  - intros counts line name_1 name_2. apply count_line_words.
Qed.

Lemma C2_classification_by_name_witness :
  _classify_atom "CA" = Some "C"
  /\ _classify_atom "OXT" = Some "O"
  /\ _classify_atom "NE2" = Some "N"
  /\ _classify_atom "CL1" = Some "X"
  /\ _classify_atom "FE" = Some "X"
  /\ _classify_contact (Some "C") (Some "N") = Some "CN"
  /\ _classify_contact (Some "N") (Some "C") = Some "CN".
Proof.
  split; [|split; [|split; [|split; [|split]]]].
  - apply (C2_classification_by_name "CA"); reflexivity.
  - apply (C2_classification_by_name "OXT"); reflexivity.
  - apply (C2_classification_by_name "NE2"); reflexivity.
  - apply (C2_classification_by_name "CL1"). left. reflexivity.
  - apply (C2_classification_by_name "FE"). right. repeat split.
  - destruct (C2_classification_by_name "CA") as (_ & _ & _ & _ & _ & Hpair & _).
    apply (Hpair "C" "N"); unfold atom_classes; repeat constructor.
Defined.

(** ** The histogram *)

Lemma classified_true (atom : string) : classified atom = true.
Proof.
  unfold classified. destruct (_classify_atom_total atom) as (c & -> & Hc).
  apply bool_decide_eq_true, Hc.
Qed.

Lemma sum_counts_insert (h : gmap string Z) (k : string) (v w : Z) :
  h !! k = Some v ->
  sum_counts (<[k := w]> h) = (sum_counts h - v + w)%Z.
Proof.
  intros Hk. unfold sum_counts.
  rewrite <- insert_delete_eq.
  rewrite map_fold_insert_L; [|intros; lia | apply lookup_delete_eq].
  rewrite (map_fold_delete_L _ _ k v h); [lia | intros; lia | exact Hk].
Qed.

Lemma initial_counts_lookup (k : string) :
  k ∈ categories -> initial_counts !! k = Some 0%Z.
Proof.
  unfold categories. intros Hk.
  repeat (apply elem_of_cons in Hk as [->|Hk]); try reflexivity.
  by apply elem_of_nil in Hk.
Qed.

Lemma initial_counts_dom : dom initial_counts = list_to_set categories.
Proof.
  unfold initial_counts. rewrite dom_list_to_map_L.
  rewrite <- list_fmap_compose. f_equal.
Qed.

Lemma sum_initial_counts : sum_counts initial_counts = 0%Z.
Proof. reflexivity. Qed.

(** What one successful turn of the loop does to [counts]. *)
Lemma count_line_ok (counts counts' : gmap string Z) (line : string) :
  count_line counts line = Ok counts' ->
  (line = EmptyString /\ counts' = counts)
  \/ (line <> EmptyString /\ both_atoms_classify line = true
      /\ exists k v, k ∈ categories /\ counts !! k = Some v
                     /\ counts' = <[k := (v + 1)%Z]> counts).
Proof.
  unfold count_line, both_atoms_classify.
  destruct line as [|c line]; [intros [= <-]; left; split; reflexivity|].
  cbn [String.length Nat.eqb]. intros Hrun. right. split; [discriminate|].
  destruct (index (PyStr.split_ws (String c line)) 3) as [name_1|e];
    [|discriminate Hrun].
  destruct (index (PyStr.split_ws (String c line)) 7) as [name_2|e];
    [|discriminate Hrun].
  cbn in Hrun. rewrite !classified_true. split; [reflexivity|].
  destruct (_classify_atom_total name_1) as (a & Ha & Hain).
  destruct (_classify_atom_total name_2) as (b & Hb & Hbin).
  rewrite Ha, Hb in Hrun.
  destruct (_classify_contact_classes a b Hain Hbin) as [Hcls Hcat].
  rewrite Hcls in Hrun. unfold increment, getitem in Hrun.
  destruct (counts !! pair_category a b) as [v|] eqn:Hv;
    [|discriminate Hrun].
  cbn in Hrun. injection Hrun as <-.
  exists (pair_category a b), v. repeat split; assumption.
Qed.

(** A readable line never makes a turn of the loop raise, as long as the
    ten keys are there. *)
Lemma count_line_readable (counts : gmap string Z) (line : string) :
  dom counts = list_to_set categories -> readable line ->
  exists counts', count_line counts line = Ok counts'.
Proof.
  intros Hdom [->|Hlen]; [exists counts; reflexivity|].
  unfold count_line.
  destruct line as [|c line]; [exists counts; reflexivity|].
  cbn [String.length Nat.eqb]. unfold index.
  destruct (lookup_lt_is_Some_2 (PyStr.split_ws (String c line)) 3)
    as [name_1 ->]; [lia|].
  destruct (lookup_lt_is_Some_2 (PyStr.split_ws (String c line)) 7)
    as [name_2 ->]; [lia|].
  cbn.
  destruct (_classify_atom_total name_1) as (a & -> & Hain).
  destruct (_classify_atom_total name_2) as (b & -> & Hbin).
  destruct (_classify_contact_classes a b Hain Hbin) as [-> Hcat].
  assert (is_Some (counts !! pair_category a b)) as [v Hv].
  { apply elem_of_dom. rewrite Hdom. apply elem_of_list_to_set, Hcat. }
  unfold increment, getitem. rewrite Hv. cbn. eauto.
Qed.

Lemma count_lines_ok (contacts : list string) :
  forall counts h : gmap string Z,
    count_lines counts contacts = Ok h ->
    dom h = dom counts
    /\ sum_counts h =
         (sum_counts counts
          + Z.of_nat (length (List.filter both_atoms_classify contacts)))%Z
    /\ (forall k v, h !! k = Some v ->
          exists v0, counts !! k = Some v0 /\ (v0 <= v)%Z).
Proof.
  induction contacts as [|line rest IH]; intros counts h Hrun.
  - injection Hrun as <-. repeat split; [cbn; lia|].
    intros k v Hk. exists v. split; [exact Hk | lia].
  - cbn [count_lines] in Hrun.
    destruct (count_line counts line) as [counts'|e] eqn:Hline;
      [|discriminate Hrun].
    cbn in Hrun. destruct (IH counts' h Hrun) as (Hdom & Hsum & Hmono).
    destruct (count_line_ok _ _ _ Hline)
      as [[-> ->]|(Hne & Hboth & k & v & Hcat & Hk & ->)].
    + repeat split; assumption.
    + cbn [List.filter]. rewrite Hboth. cbn [length].
      rewrite (sum_counts_insert counts k v _ Hk) in Hsum.
      split; [|split].
      * rewrite Hdom, dom_insert_L.
        assert (k ∈ dom counts) by (apply elem_of_dom; eauto). set_solver.
      * lia.
      * intros j w Hj. destruct (Hmono j w Hj) as (w0 & Hw0 & Hle).
        destruct (decide (k = j)) as [<-|Hkj].
        -- rewrite lookup_insert_eq in Hw0. injection Hw0 as <-.
           exists v. split; [exact Hk | lia].
        -- rewrite lookup_insert_ne in Hw0 by exact Hkj.
           exists w0. split; [exact Hw0 | exact Hle].
Qed.

Lemma count_lines_readable (contacts : list string) :
  forall counts : gmap string Z,
    dom counts = list_to_set categories -> Forall readable contacts ->
    exists h, count_lines counts contacts = Ok h.
Proof.
  induction contacts as [|line rest IH]; intros counts Hdom Hall.
  - exists counts. reflexivity.
  - apply Forall_cons in Hall as [Hline Hrest].
    destruct (count_line_readable counts line Hdom Hline) as [counts' Hrun].
    cbn [count_lines]. rewrite Hrun. cbn.
    apply IH; [|exact Hrest].
    destruct (count_lines_ok [line] counts counts') as (Hd & _).
    { cbn [count_lines]. rewrite Hrun. reflexivity. }
    rewrite Hd. exact Hdom.
Qed.

(** C7 (the histogram).  When classification returns, the histogram has
    exactly the ten keys CC, NN, OO, XX, CN, CO, CX, NO, NX, OX, every count
    starts at 0 and is a non-negative integer, and the counts add up to the
    number of contacts whose two atoms both get one of the classes C, N, O,
    X.  It does return on every list of readable lines. *)
Theorem C7_histogram_keys_and_total (contacts : list string) :
  (forall k, k ∈ categories -> initial_counts !! k = Some 0%Z)
  /\ (Forall readable contacts ->
      exists h, calculate_contact_counts contacts = Ok h)
  /\ (forall h : gmap string Z,
        calculate_contact_counts contacts = Ok h ->
        dom h = list_to_set categories
        /\ size (dom h) = 10%nat
        /\ (forall k, k ∈ categories -> exists v, h !! k = Some v /\ (0 <= v)%Z)
        /\ sum_counts h =
             Z.of_nat (length (List.filter both_atoms_classify contacts))).
Proof.
  split; [exact initial_counts_lookup|]. split.
  - apply count_lines_readable, initial_counts_dom.
  - intros h Hrun. unfold calculate_contact_counts in Hrun.
    destruct (count_lines_ok contacts initial_counts h Hrun)
      as (Hdom & Hsum & Hmono).
    rewrite initial_counts_dom in Hdom.
    split; [exact Hdom|]. split; [rewrite Hdom; reflexivity|]. split.
    + intros k Hk.
      assert (is_Some (h !! k)) as [v Hv].
      { apply elem_of_dom. rewrite Hdom. apply elem_of_list_to_set, Hk. }
      exists v. split; [exact Hv|].
      destruct (Hmono k v Hv) as (v0 & Hv0 & Hle).
      rewrite (initial_counts_lookup k Hk) in Hv0. injection Hv0 as <-.
      exact Hle.
    + rewrite Hsum, sum_initial_counts. lia.
Qed.

Lemma C7_histogram_keys_and_total_witness :
  exists h, calculate_contact_counts example_contacts = Ok h
            /\ dom h = list_to_set categories
            /\ sum_counts h = 2%Z.
Proof.
  destruct (C7_histogram_keys_and_total example_contacts) as (_ & Hret & Hinv).
  destruct Hret as [h Hh].
  { unfold example_contacts, readable.
    apply Forall_cons; split; [right; vm_compute; lia|].
    apply Forall_cons; split; [left; reflexivity|].
    apply Forall_cons; split; [right; vm_compute; lia | constructor]. }
  exists h. destruct (Hinv h Hh) as (Hdom & _ & _ & Hsum).
  split; [exact Hh|]. split; [exact Hdom | exact Hsum].
Defined.

(** The loop body has no branch that passes a contact over: were a class
    missing, the pair would get the category [None] and the update
    [counts[None] += 1] would raise [KeyError].  No atom name leads there,
    as [_classify_atom_total] shows. *)
Lemma pair_without_class_raises :
  _classify_contact None (Some "C") = None
  /\ increment initial_counts (_classify_contact None (Some "C"))
     = Raise KeyError
  /\ increment initial_counts (_classify_contact None (Some "C"))
     <> Ok initial_counts.
Proof. split; [reflexivity|]. split; [reflexivity | discriminate]. Qed.



(** ** The linear models *)

(** The three functions are the linear models of their weight tables, on
    every histogram: also where a key is missing, both raise [KeyError]. *)
Lemma scores_are_linear_models (h : gmap string Z) (e : float) :
  calculate_score h e = linear_model score_weights 187.011384%float h e
  /\ calculate_DG h = linear_model dg_weights (- 5.1923181)%float h e
  /\ calculate_DG_electrostatics h e
     = linear_model dg_elec_weights (- 5.1002233)%float h e.
Proof.
  unfold calculate_score, calculate_DG, calculate_DG_electrostatics,
    linear_model, score_weights, dg_weights, dg_elec_weights.
  cbn [mapM input_value fst snd getitem].
  destruct (h !! "CC") as [cc|]; destruct (h !! "NN") as [nn|];
    destruct (h !! "OO") as [oo|]; destruct (h !! "XX") as [xx|];
    destruct (h !! "CN") as [cn|]; repeat split; reflexivity.
Qed.

(** The range of [fits_double] is the exact one: the largest int in it
    converts to the largest double, the next one to an infinity. *)
Example float_of_int_boundary :
  float_of_int (2 ^ 1024 - 2 ^ 970 - 1) = 0x1.fffffffffffffp+1023%float
  /\ is_infinity (float_of_int (2 ^ 1024 - 2 ^ 970)) = true.
Proof. split; vm_compute; reflexivity. Qed.

(** C1 (the scoring formulas).  On a histogram that has the counts the
    formulas read, each within the range of the doubles, each of the three
    functions returns its fixed linear formula, the products added from left
    to right in double precision, a count entering as the double nearest to
    it. *)
Theorem C1_scoring_formulas (h : gmap string Z) (e : float)
    (cc nn oo xx cn : Z) :
  h !! "CC" = Some cc -> h !! "NN" = Some nn -> h !! "OO" = Some oo ->
  h !! "XX" = Some xx -> h !! "CN" = Some cn ->
  fits_double cc -> fits_double nn -> fits_double oo -> fits_double xx ->
  fits_double cn ->
  calculate_score h e
    = Ok (0.343794 * e + (- 0.037597) * float_of_int cc
          + 0.138738 * float_of_int nn + 0.160043 * float_of_int oo
          + (- 3.088861) * float_of_int xx + 187.011384)%float
  /\ calculate_DG h
    = Ok (0.0354707 * float_of_int nn + (- 0.1277895) * float_of_int xx
          + (- 0.0072166) * float_of_int cn + (- 5.1923181))%float
  /\ calculate_DG_electrostatics h e
    = Ok (0.0115148 * e + (- 0.0014852) * float_of_int cc
          + 0.0057097 * float_of_int nn
          + (- 0.1301806) * float_of_int xx + (- 5.1002233))%float.
Proof.
  intros Hcc Hnn Hoo Hxx Hcn _ _ _ _ _.
  unfold calculate_score, calculate_DG, calculate_DG_electrostatics, getitem.
  rewrite Hcc, Hnn, Hoo, Hxx, Hcn. repeat split; reflexivity.
Qed.

Lemma C1_scoring_formulas_witness :
  calculate_score example_histogram (- 50)%float = Ok 170.06156299999998%float
  /\ calculate_DG example_histogram = Ok (- 5.1430264999999995)%float
  /\ calculate_DG_electrostatics example_histogram (- 50)%float
     = Ok (- 5.6660290999999994)%float.
Proof.
  apply (C1_scoring_formulas example_histogram (- 50)%float 1 2 0 0 3);
    reflexivity.
Defined.

(** ** Contact detection *)

(** In double precision, equal numbers are in the order [<=]. *)
Lemma float_eqb_leb (x y : float) :
  (x =? y)%float = true -> (x <=? y)%float = true.
Proof.
  rewrite FloatAxioms.eqb_spec, FloatAxioms.leb_spec.
  unfold SpecFloat.SFeqb, SpecFloat.SFleb.
  destruct (SpecFloat.SFcompare (Prim2SF x) (Prim2SF y)) as [[]|];
    congruence.
Qed.

(** A square is not negative, and neither is a sum of numbers that are
    not negative. *)
Lemma square_not_negative (x : float) : not_negative (x * x) = true.
Proof.
  unfold not_negative. rewrite FloatAxioms.mul_spec.
  unfold SF64mul, SpecFloat.SFmul.
  destruct (Prim2SF x) as [s|s| |s m e]; try reflexivity;
    try (destruct s; reflexivity).
  rewrite xorb_nilpotent. unfold SpecFloat.binary_round_aux.
  destruct (SpecFloat.shr_fexp _ _ _ _ _) as [mrs e1].
  destruct (SpecFloat.shr_fexp _ _ _ _ _) as [mrs' e2].
  destruct (SpecFloat.shr_m mrs'); try reflexivity.
  destruct (_ <=? _)%Z; reflexivity.
Qed.

Lemma add_not_negative (x y : float) :
  not_negative x = true -> not_negative y = true ->
  not_negative (x + y) = true.
Proof.
  unfold not_negative. rewrite FloatAxioms.add_spec.
  unfold SF64add, SpecFloat.SFadd.
  destruct (Prim2SF x) as [sx|sx| |sx mx ex];
    destruct (Prim2SF y) as [sy|sy| |sy my ey];
    try reflexivity; try discriminate;
    try (destruct sx; (reflexivity || discriminate));
    try (destruct sy; (reflexivity || discriminate));
    try (destruct sx; destruct sy; (reflexivity || discriminate)).
  destruct sx; [discriminate|]. destruct sy; [discriminate|]. intros _ _.
  cbn [SpecFloat.cond_Zopp]. rewrite <- Pos2Z.inj_add.
  unfold SpecFloat.binary_normalize, SpecFloat.binary_round.
  destruct (SpecFloat.shl_align (_ + _)%positive _ _) as [mz ez].
  unfold SpecFloat.binary_round_aux.
  destruct (SpecFloat.shr_fexp _ _ _ _ _) as [mrs e1].
  destruct (SpecFloat.shr_fexp _ _ _ _ _) as [mrs' e2].
  destruct (SpecFloat.shr_m mrs'); try reflexivity.
  destruct (_ <=? _)%Z; reflexivity.
Qed.

Lemma not_negative_ltb (s : float) :
  not_negative s = true -> (s <? 0)%float = false.
Proof.
  unfold not_negative. rewrite FloatAxioms.ltb_spec.
  change (Prim2SF 0) with (SpecFloat.S754_zero false).
  destruct (Prim2SF s) as [sg|sg| |sg m e]; try reflexivity;
    destruct sg; (reflexivity || discriminate).
Qed.

(** The example platform raises to the powers 2 and 0.5 exactly. *)
Lemma example_exact_pow (program_output : result (list string)) :
  exact_pow (H := ExamplePlatform.platform program_output).
Proof.
  split.
  - intros x. reflexivity.
  - intros s Hs. cbn [float_pow ExamplePlatform.platform].
    unfold ExamplePlatform.power.
    change (0.5 =? 2)%float with false. change (0.5 =? 0.5)%float with true.
    cbv iota. rewrite (not_negative_ltb s Hs). reflexivity.
Qed.

(** [mapM] over two lists in a row. *)
Lemma mapM_app_result {A B} (f : A -> result B) (l1 l2 : list A) :
  mapM f (l1 ++ l2) = xs ← mapM f l1; ys ← mapM f l2; mret (xs ++ ys).
Proof.
  induction l1 as [|x l1 IH]; cbn [app mapM].
  - cbn. destruct (mapM f l2); reflexivity.
  - destruct (f x) as [y|e]; [|reflexivity]. cbn. rewrite IH.
    destruct (mapM f l1) as [xs|e]; [|reflexivity]. cbn.
    destruct (mapM f l2); reflexivity.
Qed.

Section DetectorProperties.
Context `{Platform}.

(** On such a platform [_calc_dist] is the Euclidean distance, unless a
    square overflows. *)
Lemma _calc_dist_euclidean (Hpow : exact_pow) (a b : coord_object) :
  _calc_dist a b
  = if squares_in_range a b then Ok (euclidean a b) else Raise OverflowError.
Proof.
  destruct Hpow as [Hsquare Hroot].
  unfold _calc_dist, squares_in_range, euclidean. rewrite !Hsquare.
  destruct (square_overflows (coords_x a - coords_x b)); [reflexivity|].
  destruct (square_overflows (coords_y a - coords_y b)); [reflexivity|].
  destruct (square_overflows (coords_z a - coords_z b)); [reflexivity|].
  cbn. apply Hroot.
  repeat apply add_not_negative; apply square_not_negative.
Qed.

(** The inner loop writes the lines of the pairs it keeps, in the order of
    the bucket. *)
Lemma contacts_with_pairs (Hpow : exact_pow) (ref_atom : coord_object)
    (cutoff : cutoff_value) (mobs : list coord_object) :
  (forall m, m ∈ mobs -> squares_in_range ref_atom m = true) ->
  contacts_with ref_atom mobs cutoff
  = mapM pair_line
      (List.filter (fun p => dist_le (euclidean p.1 p.2) cutoff)
         (pair ref_atom <$> mobs)).
Proof.
  induction mobs as [|mob_atom rest IH]; intros Hrange; [reflexivity|].
  cbn [contacts_with fmap list_fmap List.filter fst snd].
  rewrite (_calc_dist_euclidean Hpow), (Hrange mob_atom) by left.
  rewrite IH by (intros m Hm; apply Hrange; right; exact Hm).
  cbn [mbind result_bind].
  destruct (dist_le (euclidean ref_atom mob_atom) cutoff).
  - cbn [mapM].
    change (pair_line (ref_atom, mob_atom))
      with (contact_line ref_atom mob_atom (euclidean ref_atom mob_atom)).
    destruct (contact_line ref_atom mob_atom (euclidean ref_atom mob_atom))
      as [line|e]; [|reflexivity].
    cbn. destruct (mapM _ _); reflexivity.
  - cbn. destruct (mapM _ _); reflexivity.
Qed.

(** The two loops visit the pairs of [list_prod], a bucket-0 atom with
    every bucket-1 atom in turn. *)
Lemma contacts_between_pairs (Hpow : exact_pow) (mobs : list coord_object)
    (cutoff : cutoff_value) (refs : list coord_object) :
  (forall r m, r ∈ refs -> m ∈ mobs -> squares_in_range r m = true) ->
  contacts_between refs mobs cutoff
  = mapM pair_line
      (List.filter (fun p => dist_le (euclidean p.1 p.2) cutoff)
         (list_prod refs mobs)).
Proof.
  induction refs as [|ref_atom rest IH]; intros Hrange; [reflexivity|].
  cbn [contacts_between list_prod].
  rewrite List.filter_app, mapM_app_result.
  rewrite (contacts_with_pairs Hpow)
    by (intros m Hm; apply Hrange; [left | exact Hm]).
  rewrite IH by (intros r m Hr Hm; apply Hrange; [right; exact Hr | exact Hm]).
  reflexivity.
Qed.

End DetectorProperties.

Lemma filter_all {A} (l : list A) : List.filter (fun _ => true) l = l.
Proof.
  induction l as [|x l IH]; [reflexivity|]. cbn. rewrite IH. reflexivity.
Qed.

(** C5 (the distance test of the in-process detector).  Let the two
    buckets be the atoms the detector reads from the saved structure for
    group 0 and for group 1, on a platform whose [pow] is exact and for
    coordinates whose squared differences are within the doubles.  With a
    float cut-off the detector writes one line for each pair of a bucket-0
    atom and a bucket-1 atom whose Euclidean distance is less than or equal
    to the cut-off, in the order of the two loops and for no other pair; a
    pair whose distance equals the cut-off is kept.  With the text that
    [main] hands over for [-d] the test holds for every pair, and the
    detector writes a line for each of them, whatever its distance and
    whatever number the text denotes. *)
Theorem C5_text_cutoff_keeps_every_pair `{Platform} (structure : Structure)
    (chains : list (list string))
    (buckets : list coord_object * list coord_object) :
  exact_pow ->
  read_lines chains ([], []) (saved_lines structure) = Ok buckets ->
  (forall r m, r ∈ buckets.1 -> m ∈ buckets.2 ->
               squares_in_range r m = true) ->
  (forall r m, r ∈ buckets.1 -> m ∈ buckets.2 ->
               _calc_dist r m = Ok (euclidean r m))
  /\ (forall x,
        calc_atomic_contacts_python structure chains (CutoffFloat x)
        = mapM pair_line
            (List.filter (within_cutoff x) (list_prod buckets.1 buckets.2)))
  /\ (forall x p, (euclidean p.1 p.2 =? x)%float = true ->
                  within_cutoff x p = true)
  /\ (forall text,
        calc_atomic_contacts_python structure chains
          (distance_cutoff (Some text))
        = mapM pair_line (list_prod buckets.1 buckets.2)).
Proof.
  intros Hpow Hread Hrange. split; [|split; [|split]].
  - intros r m Hr Hm.
    rewrite (_calc_dist_euclidean Hpow), (Hrange r m Hr Hm). reflexivity.
  - intros x. unfold calc_atomic_contacts_python. rewrite Hread.
    exact (contacts_between_pairs Hpow _ _ _ Hrange).
  - intros x p. apply float_eqb_leb.
  - intros text. unfold calc_atomic_contacts_python. rewrite Hread.
    cbn [mbind result_bind distance_cutoff].
    rewrite (contacts_between_pairs Hpow _ _ _ Hrange).
    cbn [dist_le]. rewrite filter_all. reflexivity.
Qed.

(** The example platform prints a distance as [str] does in Python 2. *)
Example show_float_examples :
  ExamplePlatform.show_float 10.5 = "10.5"
  /\ ExamplePlatform.show_float 3 = "3.0"
  /\ ExamplePlatform.show_float (1 / 3) = "0.333333333333"
  /\ ExamplePlatform.show_float 7.0710678118654755 = "7.07106781187"
  /\ ExamplePlatform.show_float 1e16 = "1e+16"
  /\ ExamplePlatform.show_float 0.00001 = "1e-05"
  /\ ExamplePlatform.show_float (- 0) = "-0.0".
Proof. repeat split; vm_compute; reflexivity. Qed.

(** The boundary is inclusive: at cut-off 10.5 the pair is a contact, at
    10.4999 it is not. *)
Example detect_at_the_cutoff :
  calc_atomic_contacts_python (H := ExamplePlatform.platform (Ok []))
    example_structure [["X"]; ["Y"]] (CutoffFloat 10.5)
    = Ok [example_line]
  /\ calc_atomic_contacts_python (H := ExamplePlatform.platform (Ok []))
       example_structure [["X"]; ["Y"]] (CutoffFloat 10.4999)
     = Ok [].
Proof. split; vm_compute; reflexivity. Qed.

(** The command line [-c X Y -d 5.0] on the two atoms that are 10.5 apart:
    the text denotes 5.0 and the distance is beyond it, as the run with the
    float 5.0 has it, yet the pair is written as a contact. *)
Lemma C5_text_cutoff_keeps_every_pair_witness :
  euclidean example_ref example_mob = 10.5%float
  /\ float_of_str (Platform := ExamplePlatform.platform (Ok [])) "5.0"
     = Ok 5%float
  /\ within_cutoff 5 (example_ref, example_mob) = false
  /\ calc_atomic_contacts_python (H := ExamplePlatform.platform (Ok []))
       example_structure [["X"]; ["Y"]] (CutoffFloat 5) = Ok []
  /\ calc_atomic_contacts_python (H := ExamplePlatform.platform (Ok []))
       example_structure [["X"]; ["Y"]] (distance_cutoff (Some "5.0"))
     = Ok [example_line].
Proof.
  destruct (C5_text_cutoff_keeps_every_pair
              (H := ExamplePlatform.platform (Ok []))
              example_structure [["X"]; ["Y"]] ([example_ref], [example_mob]))
    as (_ & Hfloat & _ & Htext).
  - apply example_exact_pow.
  - vm_compute. reflexivity.
  - intros r m Hr Hm. apply list_elem_of_In in Hr, Hm.
    destruct Hr as [<-|[]]. destruct Hm as [<-|[]]. vm_compute. reflexivity.
  - split; [vm_compute; reflexivity|]. split; [vm_compute; reflexivity|].
    split; [vm_compute; reflexivity|].
    rewrite Hfloat, Htext. split; vm_compute; reflexivity.
Defined.

(** ** The session *)

(** On a histogram with the ten keys the three models return. *)
Lemma scores_return (h : gmap string Z) (e : float) :
  dom h = list_to_set categories ->
  exists score dge dg,
    calculate_score h e = Ok score
    /\ calculate_DG_electrostatics h e = Ok dge
    /\ calculate_DG h = Ok dg.
Proof.
  intros Hdom.
  assert (forall k, k ∈ categories -> is_Some (h !! k)) as Hkey.
  { intros k Hk. apply elem_of_dom. rewrite Hdom.
    apply elem_of_list_to_set, Hk. }
  destruct (Hkey "CC") as [cc Hcc]; [unfold categories; set_solver|].
  destruct (Hkey "NN") as [nn Hnn]; [unfold categories; set_solver|].
  destruct (Hkey "OO") as [oo Hoo]; [unfold categories; set_solver|].
  destruct (Hkey "XX") as [xx Hxx]; [unfold categories; set_solver|].
  destruct (Hkey "CN") as [cn Hcn]; [unfold categories; set_solver|].
  unfold calculate_score, calculate_DG_electrostatics, calculate_DG, getitem.
  rewrite Hcc, Hnn, Hoo, Hxx, Hcn. cbn.
  do 3 eexists. repeat split; reflexivity.
Qed.

Section SessionProperties.
Context `{Platform}.

(** [detect] assigns to no field but [cpp_contacts], and to that one only
    when it holds a value. *)
Lemma detect_frame (self self1 : ProdigyLig.t) (r : result (list string)) :
  ProdigyLig.detect self = (r, self1) ->
  self1 = self
  \/ exists v exe, ProdigyLig.cpp_contacts self = Some v
                   /\ item0 v = Ok exe
                   /\ self1 = ProdigyLig.set_cpp_contacts (Some (CppStr exe)) self.
Proof.
  unfold ProdigyLig.detect, ProdigyLig.bind, ProdigyLig.read, ProdigyLig.lift,
    ProdigyLig.assign.
  destruct (ProdigyLig.cpp_contacts self) as [v|] eqn:Hcpp.
  - destruct (item0 v) as [exe|e] eqn:Hexe.
    + intros [= <- <-]. right. exists v, exe. auto.
    + intros [= <- <-]. left. reflexivity.
  - intros [= <- <-]. left. reflexivity.
Qed.

(** [predict], one outcome of [detect] at a time. *)
Lemma predict_run (self self1 : ProdigyLig.t) (r : result (list string)) :
  ProdigyLig.detect self = (r, self1) ->
  match r with
  | Raise e => ProdigyLig.predict self = (Raise e, self1)
  | Ok [] => ProdigyLig.predict self = (Raise RuntimeWarning, self1)
  | Ok contacts =>
      match calculate_contact_counts contacts with
      | Raise e => ProdigyLig.predict self = (Raise e, self1)
      | Ok h =>
          exists dg, calculate_DG h = Ok dg /\
            match ProdigyLig.electrostatics self1 with
            | Some e =>
                exists score dge,
                  calculate_score h e = Ok score
                  /\ calculate_DG_electrostatics h e = Ok dge
                  /\ ProdigyLig.predict self
                     = (Ok tt, scored_state self1 h (Some (score, dge)) dg)
            | None =>
                ProdigyLig.predict self = (Ok tt, scored_state self1 h None dg)
            end
      end
  end.
Proof.
  intros Hdetect.
  cbv [ProdigyLig.predict ProdigyLig.bind ProdigyLig.lift ProdigyLig.assign
       ProdigyLig.read ProdigyLig.ret ProdigyLig.raise].
  rewrite Hdetect. destruct r as [contacts|e]; [|reflexivity].
  destruct contacts as [|line rest]; [reflexivity|].
  cbn [length Nat.eqb].
  destruct (calculate_contact_counts (line :: rest)) as [h|e] eqn:Hcounts;
    [|reflexivity].
  destruct (count_lines_ok _ _ _ Hcounts) as (Hdom & _).
  rewrite initial_counts_dom in Hdom.
  cbn [ProdigyLig.electrostatics ProdigyLig.set_contact_counts].
  destruct (ProdigyLig.electrostatics self1) as [e|].
  - destruct (scores_return h e Hdom) as (score & dge & dg & Hs & Hde & Hdg).
    exists dg. split; [exact Hdg|]. exists score, dge.
    split; [exact Hs|]. split; [exact Hde|].
    rewrite Hs, Hde, Hdg. reflexivity.
  - destruct (scores_return h 0%float Hdom) as (_ & _ & dg & _ & _ & Hdg).
    exists dg. split; [exact Hdg|]. rewrite Hdg. reflexivity.
Qed.

(** A session as the constructor leaves it. *)
Lemma init_fields (structure : Structure) (chains : list string)
    (electrostatics : option float) (cpp_contacts : option cpp_value)
    (cutoff : cutoff_value) (self : ProdigyLig.t) :
  ProdigyLig.__init__ structure chains electrostatics cpp_contacts cutoff
    = Ok self ->
  ProdigyLig.electrostatics self = electrostatics
  /\ ProdigyLig.cpp_contacts self = cpp_contacts
  /\ ProdigyLig.dg_score self = None
  /\ ProdigyLig.dg_elec self = None
  /\ ProdigyLig.dg self = None
  /\ ProdigyLig.contact_counts self = None.
Proof.
  unfold ProdigyLig.__init__.
  destruct (_parse_chains chains) as [parsed|e]; [|discriminate].
  intros [= <-]. repeat split; reflexivity.
Qed.

End SessionProperties.

Section SessionClaims.
Context `{Platform}.

(** What [detect] returns does not depend on the electrostatics energy. *)
Lemma detect_result_same (self self0 : ProdigyLig.t) :
  ProdigyLig.structure self = ProdigyLig.structure self0 ->
  ProdigyLig.chains self = ProdigyLig.chains self0 ->
  ProdigyLig.cpp_contacts self = ProdigyLig.cpp_contacts self0 ->
  ProdigyLig.cutoff self = ProdigyLig.cutoff self0 ->
  (ProdigyLig.detect self).1 = (ProdigyLig.detect self0).1.
Proof.
  intros Hs Hc Hp Hcut.
  cbv [ProdigyLig.detect ProdigyLig.bind ProdigyLig.lift ProdigyLig.assign
       ProdigyLig.read].
  rewrite <- Hp. destruct (ProdigyLig.cpp_contacts self) as [v|].
  - destruct (item0 v) as [exe|e]; [|reflexivity].
    cbn [ProdigyLig.structure ProdigyLig.chains ProdigyLig.cutoff
         ProdigyLig.set_cpp_contacts fst].
    rewrite Hs, Hc, Hcut. reflexivity.
  - cbn [fst]. rewrite Hs, Hc, Hcut. reflexivity.
Qed.

(** The fields a run of [detect] leaves alone. *)
Lemma detect_keeps (self self1 : ProdigyLig.t) (r : result (list string)) :
  ProdigyLig.detect self = (r, self1) ->
  ProdigyLig.structure self1 = ProdigyLig.structure self
  /\ ProdigyLig.chains self1 = ProdigyLig.chains self
  /\ ProdigyLig.electrostatics self1 = ProdigyLig.electrostatics self
  /\ ProdigyLig.cutoff self1 = ProdigyLig.cutoff self
  /\ ProdigyLig.dg_score self1 = ProdigyLig.dg_score self
  /\ ProdigyLig.dg_elec self1 = ProdigyLig.dg_elec self
  /\ ProdigyLig.dg self1 = ProdigyLig.dg self
  /\ ProdigyLig.contact_counts self1 = ProdigyLig.contact_counts self
  /\ (ProdigyLig.cpp_contacts self = None -> self1 = self).
Proof.
  intros Hdetect.
  destruct (detect_frame _ _ _ Hdetect) as [->|(v & exe & Hv & _ & ->)].
  - repeat split; reflexivity.
  - repeat split; try reflexivity. rewrite Hv. discriminate.
Qed.

(** When [predict] raises, the object is as [detect] left it. *)
Lemma predict_raise (self self' : ProdigyLig.t) (e : exn) :
  ProdigyLig.predict self = (Raise e, self') ->
  exists r, ProdigyLig.detect self = (r, self').
Proof.
  intros Hrun. destruct (ProdigyLig.detect self) as [r self1] eqn:Hdetect.
  pose proof (predict_run self self1 r Hdetect) as Hcases.
  destruct r as [[|line rest]|e1].
  - rewrite Hcases in Hrun. injection Hrun as _ <-. eauto.
  - destruct (calculate_contact_counts (line :: rest)) as [h|e2].
    + destruct Hcases as (dg & _ & Hcases).
      destruct (ProdigyLig.electrostatics self1).
      * destruct Hcases as (score & dge & _ & _ & Hcases).
        rewrite Hcases in Hrun. discriminate Hrun.
      * rewrite Hcases in Hrun. discriminate Hrun.
    + rewrite Hcases in Hrun. injection Hrun as _ <-. eauto.
  - rewrite Hcases in Hrun. injection Hrun as _ <-. eauto.
Qed.

(** When [predict] returns, [detect] found contacts, the classifier gave a
    histogram, and the object is the scored state over it. *)
Lemma predict_return (self self' : ProdigyLig.t) :
  ProdigyLig.predict self = (Ok tt, self') ->
  exists contacts self1 h dg,
    ProdigyLig.detect self = (Ok contacts, self1)
    /\ contacts <> []
    /\ calculate_contact_counts contacts = Ok h
    /\ calculate_DG h = Ok dg
    /\ match ProdigyLig.electrostatics self1 with
       | Some e =>
           exists score dge,
             calculate_score h e = Ok score
             /\ calculate_DG_electrostatics h e = Ok dge
             /\ self' = scored_state self1 h (Some (score, dge)) dg
       | None => self' = scored_state self1 h None dg
       end.
Proof.
  intros Hrun. destruct (ProdigyLig.detect self) as [r self1] eqn:Hdetect.
  pose proof (predict_run self self1 r Hdetect) as Hcases.
  destruct r as [[|line rest]|e1];
    [rewrite Hcases in Hrun; discriminate Hrun | |
     rewrite Hcases in Hrun; discriminate Hrun].
  destruct (calculate_contact_counts (line :: rest)) as [h|e2] eqn:Hcounts;
    [|rewrite Hcases in Hrun; discriminate Hrun].
  destruct Hcases as (dg & Hdg & Hcases).
  exists (line :: rest), self1, h, dg.
  split; [reflexivity|]. split; [discriminate|]. split; [exact Hcounts|].
  split; [exact Hdg|].
  destruct (ProdigyLig.electrostatics self1) as [e|].
  - destruct Hcases as (score & dge & Hs & Hde & Hcases).
    exists score, dge. split; [exact Hs|]. split; [exact Hde|].
    rewrite Hcases in Hrun. injection Hrun as <-. reflexivity.
  - rewrite Hcases in Hrun. injection Hrun as <-. reflexivity.
Qed.

(** C6 (no contacts).  On a session as the constructor leaves it, when
    contact detection returns the empty list, [predict] raises the
    no-contacts warning and computes no score: the session is not scored,
    and [dg], [dg_score], [dg_elec] and the histogram are still absent. *)
Theorem C6_no_contacts_no_scores (structure : Structure)
    (chains : list string) (electrostatics : option float)
    (cpp_contacts : option cpp_value) (cutoff : cutoff_value)
    (self self1 : ProdigyLig.t) :
  ProdigyLig.__init__ structure chains electrostatics cpp_contacts cutoff
    = Ok self ->
  ProdigyLig.detect self = (Ok [], self1) ->
  ProdigyLig.predict self = (Raise RuntimeWarning, self1)
  /\ scored self1 = false
  /\ ProdigyLig.dg self1 = None
  /\ ProdigyLig.dg_score self1 = None
  /\ ProdigyLig.dg_elec self1 = None
  /\ ProdigyLig.contact_counts self1 = None.
Proof.
  intros Hinit Hdetect.
  destruct (init_fields _ _ _ _ _ _ Hinit) as (_ & _ & Hsc & Hel & Hdg & Hcc).
  destruct (detect_keeps _ _ _ Hdetect)
    as (_ & _ & _ & _ & Hsc1 & Hel1 & Hdg1 & Hcc1 & _).
  split; [exact (predict_run self self1 (Ok []) Hdetect)|].
  unfold scored. rewrite Hdg1, Hsc1, Hel1, Hcc1, Hdg, Hsc, Hel, Hcc.
  repeat split; reflexivity.
Qed.

(** C8 (which scores are defined).  On a session as the constructor
    leaves it, after [predict] has returned, [dg] is defined, and
    [dg_score] and [dg_elec] are defined if and only if an electrostatics
    energy was given.  The energy is no condition of success: the same
    session without an energy returns as well, with [dg] defined and the two
    other scores absent. *)
Theorem C8_scores_after_predict (structure : Structure)
    (chains : list string) (electrostatics : option float)
    (cpp_contacts : option cpp_value) (cutoff : cutoff_value)
    (self self' : ProdigyLig.t) :
  ProdigyLig.__init__ structure chains electrostatics cpp_contacts cutoff
    = Ok self ->
  ProdigyLig.predict self = (Ok tt, self') ->
  (is_Some (ProdigyLig.dg self')
   /\ (is_Some (ProdigyLig.dg_score self') <-> is_Some electrostatics)
   /\ (is_Some (ProdigyLig.dg_elec self') <-> is_Some electrostatics))
  /\ exists self0 self0',
       ProdigyLig.__init__ structure chains None cpp_contacts cutoff = Ok self0
       /\ ProdigyLig.predict self0 = (Ok tt, self0')
       /\ is_Some (ProdigyLig.dg self0')
       /\ ProdigyLig.dg_score self0' = None
       /\ ProdigyLig.dg_elec self0' = None.
Proof.
  intros Hinit Hrun.
  destruct (init_fields _ _ _ _ _ _ Hinit) as (He & _ & Hsc & Hel & _ & _).
  destruct (predict_return _ _ Hrun)
    as (contacts & self1 & h & dg & Hdetect & Hne & Hcounts & Hdg & Hstate).
  destruct (detect_keeps _ _ _ Hdetect)
    as (_ & _ & He1 & _ & Hsc1 & Hel1 & _ & _ & _).
  rewrite He1, He in Hstate. split.
  - destruct electrostatics as [e|].
    + destruct Hstate as (score & dge & _ & _ & ->). cbn.
      repeat split; eauto.
    + subst self'. cbn. rewrite Hsc1, Hel1, Hsc, Hel.
      repeat split; eauto; intros []; discriminate.
  - unfold ProdigyLig.__init__ in Hinit |- *.
    destruct (_parse_chains chains) as [parsed|e]; [|discriminate Hinit].
    cbn in Hinit. injection Hinit as <-. cbn.
    eexists. destruct (ProdigyLig.detect
                (ProdigyLig.Build structure parsed None cpp_contacts cutoff
                   None None None None)) as [r0 self01] eqn:Hdetect0.
    pose proof (detect_result_same
                  (ProdigyLig.Build structure parsed electrostatics
                     cpp_contacts cutoff None None None None)
                  (ProdigyLig.Build structure parsed None cpp_contacts cutoff
                     None None None None)
                  eq_refl eq_refl eq_refl eq_refl) as Hsame.
    rewrite Hdetect, Hdetect0 in Hsame. cbn in Hsame. subst r0.
    pose proof (predict_run _ _ _ Hdetect0) as Hcases.
    destruct contacts as [|line rest]; [contradiction|].
    rewrite Hcounts in Hcases. destruct Hcases as (dg0 & Hdg0 & Hcases).
    destruct (detect_keeps _ _ _ Hdetect0)
      as (_ & _ & He0 & _ & Hsc0 & Hel0 & _ & _ & _).
    rewrite He0 in Hcases. cbn in Hcases.
    eexists. split; [reflexivity|]. split; [exact Hcases|].
    cbn. rewrite Hsc0, Hel0. cbn. repeat split; eauto.
Qed.

(** C10, amended.  A failed [predict] leaves the structure, the chain
    groups, the electrostatics energy, the cut-off, the histogram and the
    three scores as they were; when no external contact program is set
    ([cpp_contacts] is [None]) it leaves the whole object as it was. *)
Theorem C10_failed_predict_frame (self self' : ProdigyLig.t) (e : exn) :
  ProdigyLig.predict self = (Raise e, self') ->
  ProdigyLig.structure self' = ProdigyLig.structure self
  /\ ProdigyLig.chains self' = ProdigyLig.chains self
  /\ ProdigyLig.electrostatics self' = ProdigyLig.electrostatics self
  /\ ProdigyLig.cutoff self' = ProdigyLig.cutoff self
  /\ ProdigyLig.dg_score self' = ProdigyLig.dg_score self
  /\ ProdigyLig.dg_elec self' = ProdigyLig.dg_elec self
  /\ ProdigyLig.dg self' = ProdigyLig.dg self
  /\ ProdigyLig.contact_counts self' = ProdigyLig.contact_counts self
  /\ (ProdigyLig.cpp_contacts self = None -> self' = self).
Proof.
  intros Hrun. destruct (predict_raise _ _ _ Hrun) as [r Hdetect].
  exact (detect_keeps _ _ _ Hdetect).
Qed.

End SessionClaims.

(** ** Concrete sessions *)

(** The end-to-end run of the specification: one C-C contact, energy
    -30.5; the histogram is CC = 1 and the three scores are those of the
    formulas. *)
Example predict_near_session :
  exists self',
    ProdigyLig.predict (H := summary_only) near_session = (Ok tt, self')
    /\ ProdigyLig.contact_counts self' = Some (<["CC" := 1%Z]> initial_counts)
    /\ ProdigyLig.dg self' = Some (- 5.1923180999999996)%float
    /\ ProdigyLig.dg_score self' = Some 176.48806999999999%float
    /\ ProdigyLig.dg_elec self' = Some (- 5.4529098999999999)%float.
Proof.
  eexists. split; [vm_compute; reflexivity|].
  repeat split; vm_compute; reflexivity.
Qed.

Lemma C6_no_contacts_no_scores_witness :
  ProdigyLig.predict (H := summary_only) far_session
    = (Raise RuntimeWarning, far_session)
  /\ scored far_session = false
  /\ ProdigyLig.dg far_session = None
  /\ ProdigyLig.dg_score far_session = None
  /\ ProdigyLig.dg_elec far_session = None
  /\ ProdigyLig.contact_counts far_session = None.
Proof.
  apply (C6_no_contacts_no_scores (H := summary_only) example_structure
           ["X"; "Y"] (Some (- 30.5)%float) None (CutoffFloat 5)
           far_session far_session);
    vm_compute; reflexivity.
Defined.

Lemma C8_scores_after_predict_witness :
  is_Some (ProdigyLig.dg (ProdigyLig.predict (H := summary_only) near_session).2)
  /\ (is_Some (ProdigyLig.dg_score
                 (ProdigyLig.predict (H := summary_only) near_session).2)
      <-> is_Some (Some (- 30.5)%float))
  /\ (is_Some (ProdigyLig.dg_elec
                 (ProdigyLig.predict (H := summary_only) near_session).2)
      <-> is_Some (Some (- 30.5)%float)).
Proof.
  apply (C8_scores_after_predict (H := summary_only) pair_structure
           ["A"; "B"] (Some (- 30.5)%float) None (CutoffFloat 10.5) near_session
           (ProdigyLig.predict (H := summary_only) near_session).2);
    vm_compute; reflexivity.
Defined.

(** C10, as the specification has it, fails on the code: with an external
    contact program set, [predict] unwraps [self.cpp_contacts] in place
    before it runs the program, and when the run then ends with the
    no-contacts warning the field holds the path, not the list it held
    before the call. *)
Lemma C10_failed_predict_unwraps_cpp_contacts :
  ProdigyLig.predict (H := summary_only) cpp_session
    = (Raise RuntimeWarning,
       ProdigyLig.set_cpp_contacts (Some (CppStr "contacts")) cpp_session)
  /\ ProdigyLig.cpp_contacts
       (ProdigyLig.predict (H := summary_only) cpp_session).2
     <> ProdigyLig.cpp_contacts cpp_session.
Proof. split; [vm_compute; reflexivity | vm_compute; discriminate]. Qed.

Lemma C10_failed_predict_frame_witness :
  ProdigyLig.contact_counts
    (ProdigyLig.predict (H := summary_only) cpp_session).2 = None
  /\ (ProdigyLig.predict (H := summary_only) far_session).2 = far_session.
Proof.
  split.
  - apply (C10_failed_predict_frame (H := summary_only) cpp_session
             (ProdigyLig.predict (H := summary_only) cpp_session).2
             RuntimeWarning).
    vm_compute; reflexivity.
  - apply (C10_failed_predict_frame (H := summary_only) far_session
             (ProdigyLig.predict (H := summary_only) far_session).2
             RuntimeWarning);
      vm_compute; reflexivity.
Defined.

(** * Further properties *)

(** ** Chain parsing, all lengths *)

Lemma upper_char_idem (c : ascii) :
  PyStr.upper_char (PyStr.upper_char c) = PyStr.upper_char c.
Proof. destruct c as [[] [] [] [] [] [] [] []]; reflexivity. Qed.

Lemma upper_idem (s : string) : PyStr.upper (PyStr.upper s) = PyStr.upper s.
Proof.
  induction s as [|c s IH]; [reflexivity|].
  cbn [PyStr.upper]. rewrite upper_char_idem, IH. reflexivity.
Qed.

Lemma contains_char (s : string) (c : ascii) :
  PyStr.contains s (String c EmptyString) = PyStr.char_in c s.
Proof.
  induction s as [|d s IH]; [reflexivity|].
  cbn [PyStr.contains PyStr.char_in]. rewrite IH.
  change (String.prefix (String c EmptyString) (String d s))
    with (PyStr.startswith (String d s) (String c EmptyString)).
  rewrite startswith_cons, startswith_empty.
  destruct (ascii_dec c d) as [->|Hne].
  - rewrite Ascii.eqb_refl. reflexivity.
  - apply Ascii.eqb_neq in Hne. rewrite Hne. reflexivity.
Qed.

(** What [validate_chain_string] returns is the uppercased string, every
    byte of which is a letter or a comma; what it raises is [RuntimeError]. *)
Lemma validate_chain_string_cases (raw : string) :
  (validate_chain_string raw = Ok (PyStr.upper raw)
   /\ forallb letter_or_comma (PyStr.chars (PyStr.upper raw)) = true)
  \/ validate_chain_string raw = Raise RuntimeError.
Proof.
  unfold validate_chain_string.
  destruct (PyStr.is_ascii (PyStr.upper raw)); cbn [negb]; [|right; reflexivity].
  destruct (Nat.eqb_spec (String.length (PyStr.upper raw)) 1) as [Hone|Hlen].
  - destruct (PyStr.upper raw) as [|c [|d s]] eqn:Hs; try discriminate Hone.
    rewrite contains_char.
    destruct (PyStr.char_in c uppercase) eqn:Hc; cbn [negb];
      [left|right; reflexivity].
    split; [reflexivity|].
    cbn. unfold letter_or_comma. rewrite <- char_in_uppercase, Hc. reflexivity.
  - rewrite check_chain_chars_spec.
    destruct (forallb letter_or_comma (PyStr.chars (PyStr.upper raw)));
      [|right; reflexivity].
    cbn. destruct (_ =? _)%Z; cbn [negb]; [left | right]; auto.
Qed.

Lemma validate_chain_string_upper (raw : string) :
  validate_chain_string (PyStr.upper raw) = validate_chain_string raw.
Proof. unfold validate_chain_string. rewrite upper_idem. reflexivity. Qed.

(** X1.  A specification of one character is accepted exactly when the
    character is an ASCII letter, of either case, and the group is then the
    one uppercase letter; the empty specification is refused. *)
Theorem X1_one_character_spec (c : ascii) :
  _parse_chains [String c EmptyString]
    = (if is_upper_letter (PyStr.upper_char c)
       then Ok [[String (PyStr.upper_char c) EmptyString]]
       else Raise RuntimeError)
  /\ _parse_chains [EmptyString] = Raise RuntimeError.
Proof.
  split; [|reflexivity].
  destruct c as [[] [] [] [] [] [] [] []]; reflexivity.
Qed.

(** The outcome of parsing, string by string. *)
Lemma _parse_chains_outcome (chains : list string) :
  match _parse_chains chains with
  | Ok groups =>
      groups = (fun raw => PyStr.split "," (PyStr.upper raw)) <$> chains
      /\ Forall (fun raw =>
                   validate_chain_string raw = Ok (PyStr.upper raw)
                   /\ forallb letter_or_comma (PyStr.chars (PyStr.upper raw))
                      = true) chains
  | Raise e =>
      e = RuntimeError
      /\ Exists (fun raw => validate_chain_string raw = Raise RuntimeError)
           chains
  end.
Proof.
  induction chains as [|raw rest IH]; [split; [reflexivity | constructor]|].
  rewrite _parse_chains_cons.
  destruct (validate_chain_string_cases raw) as [[Hok Hchars]|Herr].
  - rewrite Hok. destruct (_parse_chains rest) as [groups|e].
    + destruct IH as [-> Hall]. split; [reflexivity|].
      constructor; [split|]; assumption.
    + destruct IH as [-> Hex]. split; [reflexivity|].
      apply Exists_cons_tl, Hex.
  - rewrite Herr. split; [reflexivity|]. apply Exists_cons_hd, Herr.
Qed.

(** X2.  Parsing gives one group per input string, in order: when it
    returns, the groups are the comma-split uppercased strings and every
    string passes validation; when it raises, the exception is
    [RuntimeError] and some input string is refused by validation. *)
Theorem X2_one_group_per_spec (chains : list string) :
  match _parse_chains chains with
  | Ok groups =>
      length groups = length chains
      /\ groups = (fun raw => PyStr.split "," (PyStr.upper raw)) <$> chains
      /\ Forall (fun raw => validate_chain_string raw = Ok (PyStr.upper raw))
           chains
  | Raise e =>
      e = RuntimeError
      /\ Exists (fun raw => validate_chain_string raw = Raise RuntimeError)
           chains
  end.
Proof.
  pose proof (_parse_chains_outcome chains) as Hout.
  destruct (_parse_chains chains) as [groups|e]; [|exact Hout].
  destruct Hout as [-> Hall]. split; [apply length_fmap|].
  split; [reflexivity|].
  eapply Forall_impl; [exact Hall|]. intros raw [Hok _]. exact Hok.
Qed.

Lemma _parse_chains_upper (chains : list string) :
  _parse_chains (PyStr.upper <$> chains) = _parse_chains chains.
Proof.
  induction chains as [|raw rest IH]; [reflexivity|].
  rewrite fmap_cons, !_parse_chains_cons, validate_chain_string_upper, IH.
  reflexivity.
Qed.

Lemma split_by_cons (p : ascii -> bool) (s : string) :
  exists w ws, PyStr.split_by p s = w :: ws.
Proof.
  destruct s as [|c s]; [eexists _, _; reflexivity|].
  cbn [PyStr.split_by]. destruct (p c); [eexists _, _; reflexivity|].
  destruct (PyStr.split_by p s); eexists _, _; reflexivity.
Qed.

Lemma concat_cons_cons (sep x y : string) (l : list string) :
  String.concat sep (x :: y :: l) = x +:+ sep +:+ String.concat sep (y :: l).
Proof. reflexivity. Qed.

(** Joining the pieces of a split with the separator gives the string
    back. *)
Lemma join_split (c : ascii) (s : string) :
  PyStr.join (String c EmptyString) (PyStr.split c s) = s.
Proof.
  unfold PyStr.join, PyStr.split.
  induction s as [|d s IH]; [reflexivity|].
  cbn [PyStr.split_by].
  destruct (split_by_cons (Ascii.eqb c) s) as (w & ws & Hs).
  rewrite Hs in IH |- *.
  destruct (Ascii.eqb_spec c d) as [->|Hne].
  - rewrite concat_cons_cons, IH. reflexivity.
  - destruct ws as [|w' ws].
    + cbn in IH |- *. rewrite IH. reflexivity.
    + rewrite concat_cons_cons in IH |- *. cbn. rewrite <- IH. reflexivity.
Qed.

Lemma length_split (c : ascii) (s : string) :
  length (PyStr.split c s) = S (PyStr.count c s).
Proof.
  unfold PyStr.split. induction s as [|d s IH]; [reflexivity|].
  cbn [PyStr.split_by PyStr.count]. rewrite (Ascii.eqb_sym d c).
  destruct (Ascii.eqb c d); cbn [length]; [rewrite IH; reflexivity|].
  destruct (split_by_cons (Ascii.eqb c) s) as (w & ws & Hs).
  rewrite Hs in IH |- *. cbn [length] in IH |- *. lia.
Qed.

(** No piece of a split holds a separator, and the bytes of the pieces are
    bytes of the string. *)
Lemma split_by_pieces (p q : ascii -> bool) (s : string) :
  forallb q (PyStr.chars s) = true ->
  Forall (fun piece =>
            forallb (fun ch => negb (p ch) && q ch) (PyStr.chars piece) = true)
    (PyStr.split_by p s).
Proof.
  induction s as [|d s IH]; intros Hq; [repeat constructor|].
  change (PyStr.chars (String d s)) with (d :: PyStr.chars s) in Hq.
  cbn [forallb] in Hq. apply andb_true_iff in Hq as [Hd Hq].
  specialize (IH Hq). cbn [PyStr.split_by].
  destruct (p d) eqn:Hp; [constructor; [reflexivity | exact IH]|].
  destruct (PyStr.split_by p s) as [|w ws]; [repeat constructor; cbn; rewrite Hp, Hd; reflexivity|].
  apply Forall_cons in IH as [Hw Hws]. constructor; [|exact Hws].
  change (PyStr.chars (String d w)) with (d :: PyStr.chars w).
  cbn [forallb]. rewrite Hp, Hd, Hw. reflexivity.
Qed.

(** X3.  What every accepted group keeps: its identifiers joined with
    commas are the uppercased specification, there is one identifier more
    than there are commas, and every identifier is made of uppercase letters
    only (none, or several, as well as one). *)
Theorem X3_group_round_trip (chains : list string)
    (groups : list (list string)) :
  _parse_chains chains = Ok groups ->
  Forall2 (fun raw group =>
             PyStr.join "," group = PyStr.upper raw
             /\ length group = S (PyStr.count "," (PyStr.upper raw))
             /\ Forall (fun ident =>
                          forallb is_upper_letter (PyStr.chars ident) = true)
                  group)
    chains groups.
Proof.
  intros Hrun. pose proof (_parse_chains_outcome chains) as Hout.
  rewrite Hrun in Hout. destruct Hout as [-> Hall].
  apply Forall2_fmap_r, Forall_Forall2_diag.
  eapply Forall_impl; [exact Hall|]. intros raw [_ Hchars].
  split; [apply join_split|]. split; [apply length_split|].
  pose proof (split_by_pieces (Ascii.eqb ",") letter_or_comma _ Hchars) as Hp.
  eapply Forall_impl; [exact Hp|]. intros ident Hid.
  apply forallb_forall. intros ch Hch.
  rewrite forallb_forall in Hid. specialize (Hid ch Hch).
  apply andb_true_iff in Hid as [Hsep Hlc].
  unfold letter_or_comma in Hlc. rewrite (Ascii.eqb_sym ch ",") in Hlc.
  destruct (Ascii.eqb "," ch); [discriminate Hsep|].
  rewrite orb_false_r in Hlc. exact Hlc.
Qed.

Lemma X3_group_round_trip_witness :
  Forall2 (fun raw group =>
             PyStr.join "," group = PyStr.upper raw
             /\ length group = S (PyStr.count "," (PyStr.upper raw))
             /\ Forall (fun ident =>
                          forallb is_upper_letter (PyStr.chars ident) = true)
                  group)
    ["a,b"; "AB,"] [["A"; "B"]; ["AB"; ""]].
Proof. apply (X3_group_round_trip ["a,b"; "AB,"]). reflexivity. Defined.

(** X4.  Parsing does not look at the case of the letters: a list of
    specifications and the same list in uppercase have the same outcome. *)
Theorem X4_case_insensitive (chains : list string) :
  _parse_chains (PyStr.upper <$> chains) = _parse_chains chains.
Proof. apply _parse_chains_upper. Qed.

(** ** The histogram, bucket by bucket *)

Lemma count_line_empty (counts : gmap string Z) :
  count_line counts EmptyString = Ok counts.
Proof. reflexivity. Qed.

Lemma count_line_category (counts counts' : gmap string Z) (line : string) :
  line <> EmptyString ->
  count_line counts line = Ok counts' ->
  exists k v, category_of line = Some k /\ counts !! k = Some v
              /\ counts' = <[k := (v + 1)%Z]> counts.
Proof.
  intros Hne Hrun. unfold count_line in Hrun. unfold category_of.
  destruct line as [|c line]; [contradiction|].
  cbn [String.length Nat.eqb] in Hrun.
  destruct (index (PyStr.split_ws (String c line)) 3) as [name_1|e];
    [|discriminate Hrun].
  destruct (index (PyStr.split_ws (String c line)) 7) as [name_2|e];
    [|discriminate Hrun].
  cbn in Hrun. unfold increment, getitem in Hrun.
  destruct (_classify_contact (_classify_atom name_1) (_classify_atom name_2))
    as [k|]; [|discriminate Hrun].
  destruct (counts !! k) as [v|] eqn:Hv; [|discriminate Hrun].
  cbn in Hrun. injection Hrun as <-. exists k, v. auto.
Qed.

Lemma count_lines_lookup (contacts : list string) :
  forall (counts h : gmap string Z) (k : string),
    count_lines counts contacts = Ok h ->
    h !! k
    = (fun v => (v + Z.of_nat (lines_of_category k contacts))%Z)
        <$> counts !! k.
Proof.
  unfold lines_of_category.
  induction contacts as [|line rest IH]; intros counts h k Hrun.
  - injection Hrun as <-. cbn. destruct (counts !! k) as [v|]; cbn;
      [f_equal; lia | reflexivity].
  - cbn [count_lines] in Hrun.
    destruct (count_line counts line) as [counts'|e] eqn:Hline;
      [|discriminate Hrun].
    cbn in Hrun. rewrite (IH counts' h k Hrun). cbn [List.filter].
    destruct line as [|c line].
    + rewrite count_line_empty in Hline. injection Hline as <-. reflexivity.
    + assert (String c line <> EmptyString) as Hne0 by discriminate.
      destruct (count_line_category _ _ _ Hne0 Hline)
        as (k0 & v & Hcat & Hk0 & ->).
      cbn [PyStr.nonempty andb]. rewrite Hcat.
      destruct (decide (k0 = k)) as [->|Hne].
      * rewrite lookup_insert_eq, Hk0, bool_decide_eq_true_2 by reflexivity.
        cbn. f_equal. lia.
      * rewrite lookup_insert_ne by exact Hne.
        rewrite bool_decide_eq_false_2 by congruence. reflexivity.
Qed.

(** X5.  Each bucket of a returned histogram holds the number of
    non-empty contact lines whose pair category, read from the fourth and
    eighth words, is that bucket. *)
Theorem X5_bucket_counts (contacts : list string) (h : gmap string Z)
    (k : string) :
  calculate_contact_counts contacts = Ok h ->
  k ∈ categories ->
  h !! k = Some (Z.of_nat (lines_of_category k contacts)).
Proof.
  intros Hrun Hk.
  rewrite (count_lines_lookup contacts initial_counts h k Hrun).
  rewrite (initial_counts_lookup k Hk). reflexivity.
Qed.

Lemma X5_bucket_counts_witness :
  (calculate_contact_counts example_contacts ≫= fun h => Ok (h !! "CX"))
  = Ok (Some 1%Z).
Proof.
  destruct (calculate_contact_counts example_contacts) as [h|e] eqn:Hrun;
    [|vm_compute in Hrun; discriminate Hrun].
  cbn. f_equal.
  apply (X5_bucket_counts example_contacts h "CX" Hrun).
  unfold categories. repeat constructor.
Defined.

Lemma readable_dec (line : string) : {readable line} + {~ readable line}.
Proof.
  unfold readable. destruct line as [|c line]; [left; left; reflexivity|].
  destruct (le_dec 8 (length (PyStr.split_ws (String c line)))) as [Hle|Hlt].
  - left. right. exact Hle.
  - right. intros [Heq|Hle]; [discriminate Heq | contradiction].
Defined.

Lemma count_line_unreadable (counts : gmap string Z) (line : string) :
  ~ readable line -> count_line counts line = Raise IndexError.
Proof.
  unfold readable, count_line. intros Hnot.
  destruct line as [|c line]; [exfalso; apply Hnot; left; reflexivity|].
  cbn [String.length Nat.eqb]. unfold index.
  destruct (PyStr.split_ws (String c line) !! 3) as [name_1|] eqn:H3;
    [|reflexivity].
  destruct (PyStr.split_ws (String c line) !! 7) as [name_2|] eqn:H7;
    [|reflexivity].
  exfalso. apply Hnot. right. apply lookup_lt_Some in H7. lia.
Qed.

(** The loop returns on readable lines and raises [IndexError] at the
    first line that is not. *)
Lemma count_lines_outcome (contacts : list string) :
  forall counts : gmap string Z,
    dom counts = list_to_set categories ->
    (Forall readable contacts /\ is_ok (count_lines counts contacts) = true)
    \/ (~ Forall readable contacts
        /\ count_lines counts contacts = Raise IndexError).
Proof.
  induction contacts as [|line rest IH]; intros counts Hdom.
  - left. split; [constructor | reflexivity].
  - destruct (readable_dec line) as [Hline|Hline].
    + destruct (count_line_readable counts line Hdom Hline) as [counts' Hrun].
      assert (dom counts' = list_to_set categories) as Hdom'.
      { destruct (count_lines_ok [line] counts counts') as (Hd & _).
        - cbn [count_lines]. rewrite Hrun. reflexivity.
        - rewrite Hd. exact Hdom. }
      cbn [count_lines]. rewrite Hrun. cbn.
      destruct (IH counts' Hdom') as [[Hall Hok]|[Hnot Herr]].
      * left. split; [constructor; assumption | exact Hok].
      * right. split; [|exact Herr].
        intros Hall. apply Hnot. apply Forall_cons in Hall as [_ Hall].
        exact Hall.
    + right. split.
      * intros Hall. apply Forall_cons in Hall as [Hl _]. contradiction.
      * cbn [count_lines]. rewrite (count_line_unreadable counts line Hline).
        reflexivity.
Qed.

(** X6.  Classification returns exactly on the lists whose lines are all
    empty or of at least eight words; on any other list it raises
    [IndexError], and it raises nothing else ([KeyError] in particular never
    escapes). *)
Theorem X6_histogram_errors (contacts : list string) :
  (is_ok (calculate_contact_counts contacts) = true
   <-> Forall readable contacts)
  /\ (forall e, calculate_contact_counts contacts = Raise e -> e = IndexError).
Proof.
  unfold calculate_contact_counts.
  destruct (count_lines_outcome contacts initial_counts initial_counts_dom)
    as [[Hall Hok]|[Hnot Herr]].
  - split; [tauto|]. intros e He. rewrite He in Hok. discriminate Hok.
  - rewrite Herr. split; [|intros e [= <-]; reflexivity].
    split; [discriminate | contradiction].
Qed.

Lemma lines_of_category_perm (k : string) (contacts contacts' : list string) :
  contacts ≡ₚ contacts' ->
  lines_of_category k contacts = lines_of_category k contacts'.
Proof.
  unfold lines_of_category.
  induction 1 as [|x l l' _ IH|x y l|l l' l'' _ IH1 _ IH2]; cbn [List.filter].
  - reflexivity.
  - destruct (_ && _); cbn [length]; rewrite IH; reflexivity.
  - do 2 destruct (_ && _); reflexivity.
  - rewrite IH1. exact IH2.
Qed.

(** X7.  The histogram does not depend on the order of the contact lines:
    a list and any rearrangement of it have the same outcome, the same
    histogram or the same exception. *)
Theorem X7_histogram_order_independent (contacts contacts' : list string) :
  contacts ≡ₚ contacts' ->
  calculate_contact_counts contacts = calculate_contact_counts contacts'.
Proof.
  intros Hperm. unfold calculate_contact_counts.
  destruct (count_lines_outcome contacts initial_counts initial_counts_dom)
    as [[Hall Hok]|[Hnot Herr]];
    destruct (count_lines_outcome contacts' initial_counts initial_counts_dom)
      as [[Hall' Hok']|[Hnot' Herr']].
  - destruct (count_lines initial_counts contacts) as [h|] eqn:Hh;
      [|discriminate Hok].
    destruct (count_lines initial_counts contacts') as [h'|] eqn:Hh';
      [|discriminate Hok'].
    f_equal. apply map_eq. intros k.
    rewrite (count_lines_lookup _ _ _ k Hh), (count_lines_lookup _ _ _ k Hh').
    rewrite (lines_of_category_perm k _ _ Hperm). reflexivity.
  - exfalso. apply Hnot'. rewrite <- Hperm. exact Hall.
  - exfalso. apply Hnot. rewrite Hperm. exact Hall'.
  - rewrite Herr, Herr'. reflexivity.
Qed.

Lemma X7_histogram_order_independent_witness :
  calculate_contact_counts example_contacts
  = calculate_contact_counts (rev example_contacts).
Proof.
  apply (X7_histogram_order_independent example_contacts (rev example_contacts)).
  apply Permutation_rev.
Defined.

(** ** The pair classifier on unexpected classes *)

Lemma known_class_cases (atom : option string) :
  known_class atom
  <-> atom = Some "C" \/ atom = Some "N" \/ atom = Some "O" \/ atom = Some "X".
Proof.
  unfold known_class, atom_classes. split.
  - intros (c & -> & Hc). set_solver.
  - intros [-> | [-> | [-> | ->]]]; eexists; (split; [reflexivity | set_solver]).
Qed.

(** X8.  The pair classifier gives one of the ten categories exactly when
    both of its arguments are among the classes C, N, O and X; on any other
    pair, [None] included, it gives [None]. *)
Theorem X8_pair_classifier_domain (atom_1 atom_2 : option string) :
  (known_class atom_1 /\ known_class atom_2
   /\ exists k, _classify_contact atom_1 atom_2 = Some k /\ k ∈ categories)
  \/ (~ (known_class atom_1 /\ known_class atom_2)
      /\ _classify_contact atom_1 atom_2 = None).
Proof.
  rewrite !known_class_cases.
  unfold _classify_contact, is_class, categories.
  repeat case_bool_decide; subst; cbn [andb orb];
    first [ left; split; [tauto|]; split; [tauto|];
            eexists; split; [reflexivity | set_solver]
          | right; split; [intuition congruence | reflexivity] ].
Qed.

(** ** What the models read *)

Ltac key_in_list := repeat constructor.

(** The counts of a contact list are at most its length, so they are
    within the range of the doubles for every list Python can hold. *)
Lemma contact_counts_fit (contacts : list string) (h : gmap string Z) :
  calculate_contact_counts contacts = Ok h ->
  (Z.of_nat (length contacts) < 2 ^ 63)%Z ->
  counts_fit h.
Proof.
  intros Hrun Hlen k v Hk.
  rewrite (count_lines_lookup contacts initial_counts h k Hrun) in Hk.
  destruct (initial_counts !! k) as [v0|] eqn:Hk0; [|discriminate Hk].
  assert (v0 = 0%Z) as ->.
  { destruct (decide (k ∈ categories)) as [Hin|Hout].
    - rewrite (initial_counts_lookup k Hin) in Hk0. congruence.
    - exfalso. apply Hout. apply (elem_of_list_to_set (C := gset string)).
      rewrite <- initial_counts_dom. apply elem_of_dom. eauto. }
  injection Hk as <-. unfold fits_double, lines_of_category.
  pose proof (List.filter_length_le
                (fun line => PyStr.nonempty line
                             && bool_decide (category_of line = Some k))
                contacts) as Hle.
  assert (2 ^ 63 < 2 ^ 1024 - 2 ^ 970)%Z as Hbig by (vm_compute; reflexivity).
  lia.
Qed.

(** X9.  Each model reads its own buckets and no other: on a histogram
    whose counts are within the range of the doubles, two histograms that
    agree on the buckets of a model give the same result, whatever the other
    entries; the model returns exactly when all of its buckets are present,
    and the only exception it raises is [KeyError]. *)
Theorem X9_models_read_their_buckets (h h' : gmap string Z) (e : float) :
  counts_fit h ->
  ((agree_on score_keys h h' -> calculate_score h e = calculate_score h' e)
   /\ (agree_on dg_keys h h' -> calculate_DG h = calculate_DG h')
   /\ (agree_on dg_elec_keys h h' ->
       calculate_DG_electrostatics h e = calculate_DG_electrostatics h' e))
  /\ ((is_ok (calculate_score h e) = true <-> has_keys score_keys h)
      /\ (is_ok (calculate_DG h) = true <-> has_keys dg_keys h)
      /\ (is_ok (calculate_DG_electrostatics h e) = true
          <-> has_keys dg_elec_keys h))
  /\ (forall x, calculate_score h e = Raise x
                \/ calculate_DG h = Raise x
                \/ calculate_DG_electrostatics h e = Raise x ->
                x = KeyError).
Proof.
  intros _. split; [|split].
  - unfold agree_on, score_keys, dg_keys, dg_elec_keys.
    split; [|split]; intros Hagree;
      unfold calculate_score, calculate_DG, calculate_DG_electrostatics,
        getitem.
    + rewrite (Hagree "CC"), (Hagree "NN"), (Hagree "OO"), (Hagree "XX")
        by key_in_list. reflexivity.
    + rewrite (Hagree "NN"), (Hagree "XX"), (Hagree "CN") by key_in_list.
      reflexivity.
    + rewrite (Hagree "CC"), (Hagree "NN"), (Hagree "XX") by key_in_list.
      reflexivity.
  - unfold has_keys, score_keys, dg_keys, dg_elec_keys.
    unfold calculate_score, calculate_DG, calculate_DG_electrostatics, getitem.
    split; [|split]; (split;
      [ intros Hok k Hk;
        repeat (apply elem_of_cons in Hk as [->|Hk]);
        try (by apply elem_of_nil in Hk);
        destruct (h !! "CC"), (h !! "NN"), (h !! "OO"), (h !! "XX"),
          (h !! "CN"); try discriminate Hok; eauto
      | intros Hkeys;
        try (destruct (Hkeys "CC") as [? ->]; [key_in_list|]);
        try (destruct (Hkeys "NN") as [? ->]; [key_in_list|]);
        try (destruct (Hkeys "OO") as [? ->]; [key_in_list|]);
        try (destruct (Hkeys "XX") as [? ->]; [key_in_list|]);
        try (destruct (Hkeys "CN") as [? ->]; [key_in_list|]);
        reflexivity ]).
  - unfold calculate_score, calculate_DG, calculate_DG_electrostatics, getitem.
    intros x.
    destruct (h !! "CC"), (h !! "NN"), (h !! "OO"), (h !! "XX"), (h !! "CN");
      intros [Hx|[Hx|Hx]]; cbv [mbind mret result_bind result_ret] in Hx;
      first [discriminate Hx | injection Hx as <-; reflexivity].
Qed.

(** The histograms of the examples hold small counts. *)
Lemma small_counts_fit (h : gmap string Z) :
  map_Forall (fun _ v => (Z.abs v <= 1000)%Z) h -> counts_fit h.
Proof.
  intros Hsmall k v Hk. specialize (Hsmall k v Hk). cbn beta in Hsmall.
  unfold fits_double.
  assert (1000 < 2 ^ 1024 - 2 ^ 970)%Z by (vm_compute; reflexivity). lia.
Qed.

Lemma X9_models_read_their_buckets_witness :
  calculate_DG (<["OX" := 7%Z]> example_histogram)
  = calculate_DG example_histogram
  /\ is_ok (calculate_DG (delete "CN" example_histogram)) = false.
Proof.
  destruct (X9_models_read_their_buckets (<["OX" := 7%Z]> example_histogram)
              example_histogram 0%float) as [(_ & Hdg & _) _].
  { apply small_counts_fit. apply (bool_decide_unpack _). vm_compute.
    exact I. }
  destruct (X9_models_read_their_buckets (delete "CN" example_histogram)
              example_histogram 0%float) as (_ & (_ & Hkeys & _) & _).
  { apply small_counts_fit. apply (bool_decide_unpack _). vm_compute.
    exact I. }
  split.
  - apply Hdg. intros k Hk. unfold dg_keys in Hk.
    repeat (apply elem_of_cons in Hk as [->|Hk]); try reflexivity.
    by apply elem_of_nil in Hk.
  - destruct (is_ok (calculate_DG (delete "CN" example_histogram))) eqn:Hok;
      [|reflexivity].
    destruct (proj1 Hkeys eq_refl "CN") as [v Hv]; [key_in_list|].
    discriminate Hv.
Defined.

(** ** The two buckets of the in-process detector *)

Section BucketProperties.
Context `{Platform}.

Lemma in_group_app (chain : string) (g g' : list string) :
  in_group chain (g ++ g') = in_group chain g || in_group chain g'.
Proof.
  unfold in_group.
  destruct (bool_decide_reflect (chain ∈ g)) as [Hg|Hg];
    destruct (bool_decide_reflect (chain ∈ g')) as [Hg'|Hg'];
    cbn [orb]; [apply bool_decide_eq_true_2 .. | apply bool_decide_eq_false_2];
    rewrite elem_of_app; tauto.
Qed.

Lemma in_group_nil (chain : string) : in_group chain [] = false.
Proof. apply bool_decide_eq_false_2. apply not_elem_of_nil. Qed.

(** One turn of the reading loop, for two groups. *)
Lemma read_line_two_groups (g0 g1 : list string)
    (b0 b1 : list coord_object) (line : string) :
  read_line [g0; g1] (b0, b1) line =
    match _process_coord_line line with
    | Raise e => Raise e
    | Ok None => Ok (b0, b1)
    | Ok (Some c) =>
        if in_group (cl_chain c) g0 then Ok (b0 ++ [atom_of c], b1)
        else if in_group (cl_chain c) g1 then Ok (b0, b1 ++ [atom_of c])
        else Ok (b0, b1)
    end.
Proof.
  unfold read_line.
  destruct (_process_coord_line line) as [[c|]|e]; try reflexivity.
  cbn [mbind result_bind concat]. rewrite !in_group_app, in_group_nil.
  rewrite orb_false_r. cbn [fmap list_fmap index_of_true].
  destruct (in_group (cl_chain c) g0); [reflexivity|].
  destruct (in_group (cl_chain c) g1); reflexivity.
Qed.

Lemma read_lines_two_groups (g0 g1 : list string) (lines : list string) :
  forall b0 b1,
    read_lines [g0; g1] (b0, b1) lines =
      cls ← mapM _process_coord_line lines;
      mret (b0 ++ bucket_0 g0 cls, b1 ++ bucket_1 g0 g1 cls).
Proof.
  unfold bucket_0, bucket_1.
  induction lines as [|line rest IH]; intros b0 b1.
  - cbn. rewrite !app_nil_r. reflexivity.
  - cbn [read_lines mapM]. rewrite read_line_two_groups.
    destruct (_process_coord_line line) as [[c|]|e]; cbn [mbind result_bind];
      [| |reflexivity].
    + destruct (in_group (cl_chain c) g0) eqn:H0;
        [|destruct (in_group (cl_chain c) g1) eqn:H1];
        cbn [mbind result_bind];
        rewrite IH; destruct (mapM _process_coord_line rest) as [cls|e];
        cbn [mbind result_bind mret result_ret omap list_omap
             List.filter];
        try reflexivity; rewrite ?H0, ?H1; cbn [negb andb fmap list_fmap];
        rewrite <- ?app_assoc; reflexivity.
    + rewrite IH. destruct (mapM _process_coord_line rest) as [cls|e];
        reflexivity.
Qed.

End BucketProperties.

(** X10.  For two chain groups, the in-process detector reads every line.
    If some line is a malformed coordinate line it raises that line's
    exception; otherwise bucket 0 holds, in file order, the atoms whose
    chain is in group 0, and bucket 1 those whose chain is in group 1 and not
    in group 0.  Atoms of other chains, and lines that are no coordinate
    lines, are left out. *)
Theorem X10_bucket_partition `{Platform} (g0 g1 : list string)
    (lines : list string) :
  read_lines [g0; g1] ([], []) lines =
    cls ← mapM _process_coord_line lines;
    mret (bucket_0 g0 cls, bucket_1 g0 g1 cls).
Proof. apply read_lines_two_groups. Qed.

(** ** Splitting and joining *)

Lemma one_char_append (c : ascii) (s : string) :
  String c EmptyString +:+ s = String c s.
Proof. reflexivity. Qed.

Lemma split_by_free (p : ascii -> bool) (s : string) :
  free_of p s = true -> PyStr.split_by p s = [s].
Proof.
  unfold free_of. induction s as [|c s IH]; [reflexivity|].
  change (PyStr.chars (String c s)) with (c :: PyStr.chars s).
  cbn [forallb]. intros Hfree. apply andb_true_iff in Hfree as [Hc Hs].
  cbn [PyStr.split_by]. apply negb_true_iff in Hc. rewrite Hc, (IH Hs).
  reflexivity.
Qed.

Lemma split_by_app (p : ascii -> bool) (s1 s2 : string) (c : ascii) :
  free_of p s1 = true -> p c = true ->
  PyStr.split_by p (s1 +:+ String c s2) = s1 :: PyStr.split_by p s2.
Proof.
  unfold free_of. intros Hfree Hc. induction s1 as [|d s1 IH].
  - change (EmptyString +:+ String c s2) with (String c s2).
    cbn [PyStr.split_by]. rewrite Hc. reflexivity.
  - change (PyStr.chars (String d s1)) with (d :: PyStr.chars s1) in Hfree.
    cbn [forallb] in Hfree. apply andb_true_iff in Hfree as [Hd Hs].
    apply negb_true_iff in Hd.
    change (String d s1 +:+ String c s2) with (String d (s1 +:+ String c s2)).
    cbn [PyStr.split_by]. rewrite Hd, (IH Hs). reflexivity.
Qed.

(** Fields without white space, none of them empty, are what [split()]
    gives back from their tab-separated line. *)
Lemma split_ws_join (fields : list string) :
  Forall (fun f => PyStr.nonempty f && free_of PyStr.isspace f = true) fields ->
  PyStr.split_ws (PyStr.join tab fields) = fields.
Proof.
  unfold PyStr.split_ws, PyStr.join.
  induction 1 as [|f rest Hf Hrest IH]; [reflexivity|].
  apply andb_true_iff in Hf as [Hne Hfree].
  destruct rest as [|g rest].
  - cbn [String.concat]. rewrite (split_by_free _ _ Hfree).
    cbn [List.filter]. rewrite Hne. reflexivity.
  - rewrite concat_cons_cons. unfold tab at 1.
    change (f +:+ String "009" EmptyString +:+ String.concat tab (g :: rest))
      with (f +:+ String "009" (String.concat tab (g :: rest))).
    rewrite (split_by_app PyStr.isspace f _ "009" Hfree eq_refl).
    cbn [List.filter]. rewrite Hne, IH. reflexivity.
Qed.

Section LineProperties.
Context `{Platform}.

Lemma contacts_between_nil_r (refs : list coord_object)
    (cutoff : cutoff_value) :
  contacts_between refs [] cutoff = Ok [].
Proof.
  induction refs as [|r rest IH]; [reflexivity|].
  cbn [contacts_between contacts_with]. rewrite IH. reflexivity.
Qed.

Lemma contacts_with_length (ref_atom : coord_object) (cutoff : cutoff_value)
    (mobs : list coord_object) :
  forall lines, contacts_with ref_atom mobs cutoff = Ok lines ->
                (length lines <= length mobs)%nat.
Proof.
  induction mobs as [|m rest IH]; intros lines Hrun.
  - injection Hrun as <-. reflexivity.
  - cbn [contacts_with] in Hrun.
    destruct (_calc_dist ref_atom m) as [d|e]; [|discriminate Hrun].
    cbn in Hrun.
    destruct (dist_le d cutoff).
    + destruct (contact_line ref_atom m d) as [line|e]; [|discriminate Hrun].
      cbn in Hrun.
      destruct (contacts_with ref_atom rest cutoff) as [more|e];
        [|discriminate Hrun].
      cbn in Hrun. injection Hrun as <-. specialize (IH more eq_refl).
      cbn [length app]. lia.
    + cbn in Hrun.
      destruct (contacts_with ref_atom rest cutoff) as [more|e];
        [|discriminate Hrun].
      cbn in Hrun. injection Hrun as <-. specialize (IH more eq_refl).
      cbn [length app]. lia.
Qed.

Lemma contacts_between_length (mobs : list coord_object) (cutoff : cutoff_value)
    (refs : list coord_object) :
  forall lines, contacts_between refs mobs cutoff = Ok lines ->
                (length lines <= length refs * length mobs)%nat.
Proof.
  induction refs as [|r rest IH]; intros lines Hrun.
  - injection Hrun as <-. cbn. lia.
  - cbn [contacts_between] in Hrun.
    destruct (contacts_with r mobs cutoff) as [here|e] eqn:Hhere;
      [|discriminate Hrun].
    cbn in Hrun.
    destruct (contacts_between rest mobs cutoff) as [more|e];
      [|discriminate Hrun].
    cbn in Hrun. injection Hrun as <-.
    pose proof (contacts_with_length _ _ _ _ Hhere).
    specialize (IH more eq_refl). rewrite length_app. cbn [length]. lia.
Qed.

(** The name the detector builds for an atom splits back into its four
    fields when none of them holds an underscore. *)
Lemma split_fullname (c : coord_line) :
  forallb (free_of (Ascii.eqb "_")) (name_fields c) = true ->
  PyStr.split "_" (format_fullname c)
  = [cl_resname c; cl_resid c; cl_name c; cl_chain c].
Proof.
  unfold name_fields. cbn [forallb]. rewrite !andb_true_iff.
  intros (Hrn & Hri & Hn & Hc & _).
  unfold PyStr.split, format_fullname.
  rewrite !(one_char_append "_").
  rewrite (split_by_app (Ascii.eqb "_") _ _ "_" Hrn eq_refl).
  rewrite (split_by_app (Ascii.eqb "_") _ _ "_" Hri eq_refl).
  rewrite (split_by_app (Ascii.eqb "_") _ _ "_" Hn eq_refl).
  rewrite (split_by_free _ _ Hc). reflexivity.
Qed.

Lemma contact_line_fields (r m : coord_line) (d : float) :
  forallb (free_of (Ascii.eqb "_")) (name_fields r) = true ->
  forallb (free_of (Ascii.eqb "_")) (name_fields m) = true ->
  contact_line (atom_of r) (atom_of m) d
  = Ok (PyStr.join tab (contact_fields r m d)).
Proof.
  intros Hr Hm. unfold contact_line, atom_of. cbn [fullname].
  rewrite (split_fullname r Hr), (split_fullname m Hm). reflexivity.
Qed.

End LineProperties.

(** ** Fewer than two groups, empty buckets *)

Section FewGroups.
Context `{Platform}.

Lemma read_line_few_groups (chains : list (list string))
    (b0 b1 b0' b1' : list coord_object) (line : string) :
  (length chains <= 1)%nat ->
  read_line chains (b0, b1) line = Ok (b0', b1') -> b1' = b1.
Proof.
  intros Hlen. unfold read_line.
  destruct (_process_coord_line line) as [[c|]|e]; cbn [mbind result_bind];
    [|intros [= _ <-]; reflexivity | discriminate].
  destruct chains as [|g0 [|g1 rest]]; [| |cbn in Hlen; lia].
  - cbn [concat]. rewrite in_group_nil. intros [= _ <-]. reflexivity.
  - cbn [concat]. rewrite in_group_app, in_group_nil, orb_false_r.
    cbn [fmap list_fmap index_of_true].
    destruct (in_group (cl_chain c) g0); cbn; intros [= _ <-]; reflexivity.
Qed.

Lemma read_lines_few_groups (chains : list (list string))
    (lines : list string) :
  (length chains <= 1)%nat ->
  forall b0 b1 b0' b1',
    read_lines chains (b0, b1) lines = Ok (b0', b1') -> b1' = b1.
Proof.
  intros Hlen. induction lines as [|line rest IH]; intros b0 b1 b0' b1' Hrun.
  - injection Hrun as _ <-. reflexivity.
  - cbn [read_lines] in Hrun.
    destruct (read_line chains (b0, b1) line) as [[c0 c1]|e] eqn:Hline;
      [|discriminate Hrun].
    cbn in Hrun. rewrite (IH _ _ _ _ Hrun).
    exact (read_line_few_groups _ _ _ _ _ _ Hlen Hline).
Qed.

(** With no external program set, [detect] is the in-process detector and
    assigns nothing. *)
Lemma detect_python (self : ProdigyLig.t) :
  ProdigyLig.cpp_contacts self = None ->
  ProdigyLig.detect self
  = (calc_atomic_contacts_python (ProdigyLig.structure self)
       (ProdigyLig.chains self) (ProdigyLig.cutoff self), self).
Proof.
  intros Hcpp.
  cbv [ProdigyLig.detect ProdigyLig.bind ProdigyLig.lift ProdigyLig.read].
  rewrite Hcpp. reflexivity.
Qed.

End FewGroups.

(** X11.  With fewer than two chain groups the in-process detector never
    finds a contact: whenever it returns, it returns the empty list, and a
    session without external program that has fewer than two groups never
    gets scored. *)
Theorem X11_fewer_than_two_groups `{Platform} (chains : list (list string)) :
  (length chains <= 1)%nat ->
  (forall structure cutoff lines,
     calc_atomic_contacts_python structure chains cutoff = Ok lines ->
     lines = [])
  /\ (forall self self',
        ProdigyLig.chains self = chains ->
        ProdigyLig.cpp_contacts self = None ->
        ProdigyLig.predict self <> (Ok tt, self')).
Proof.
  intros Hlen.
  assert (forall structure cutoff lines,
            calc_atomic_contacts_python structure chains cutoff = Ok lines ->
            lines = []) as Hnone.
  { intros structure cutoff lines Hrun.
    unfold calc_atomic_contacts_python in Hrun.
    destruct (read_lines chains ([], []) (saved_lines structure))
      as [[b0 b1]|e] eqn:Hread; [|discriminate Hrun].
    cbn in Hrun.
    rewrite (read_lines_few_groups _ _ Hlen _ _ _ _ Hread) in Hrun.
    rewrite contacts_between_nil_r in Hrun. injection Hrun as <-.
    reflexivity. }
  split; [exact Hnone|].
  intros self self' Hchains Hcpp Hrun.
  destruct (predict_return _ _ Hrun)
    as (contacts & self1 & h & dg & Hdetect & Hne & _).
  rewrite (detect_python self Hcpp), Hchains in Hdetect.
  injection Hdetect as Hdetect _. apply Hne. exact (Hnone _ _ _ Hdetect).
Qed.

Lemma X11_fewer_than_two_groups_witness :
  calc_atomic_contacts_python (H := summary_only) example_structure [["X"]]
    (CutoffFloat 10.5) = Ok []
  /\ (ProdigyLig.predict (H := summary_only)
        (ProdigyLig.Build example_structure [["X"]] None None (CutoffFloat 10.5)
           None None None None)).1 = Raise RuntimeWarning.
Proof.
  destruct (X11_fewer_than_two_groups (H := summary_only) [["X"]])
    as [Hnone _]; [cbn; lia|].
  split; [|vm_compute; reflexivity].
  destruct (calc_atomic_contacts_python (H := summary_only) example_structure
              [["X"]] (CutoffFloat 10.5)) as [lines|e] eqn:Hrun;
    [|vm_compute in Hrun; discriminate Hrun].
  rewrite (Hnone _ _ _ Hrun). reflexivity.
Defined.

(** X12.  When either bucket is empty the pair loop returns no contact,
    and in general it returns at most one line per pair of a bucket-0 atom
    and a bucket-1 atom. *)
Theorem X12_contact_count_bound `{Platform} (refs mobs : list coord_object)
    (cutoff : cutoff_value) :
  contacts_between [] mobs cutoff = Ok []
  /\ contacts_between refs [] cutoff = Ok []
  /\ (forall lines, contacts_between refs mobs cutoff = Ok lines ->
                    (length lines <= length refs * length mobs)%nat).
Proof.
  split; [reflexivity|]. split; [apply contacts_between_nil_r|].
  apply contacts_between_length.
Qed.

(** ** From the detector to the classifier *)

(** X13.  The line written for a pair of atoms holds, tab-separated, the
    residue name, chain, residue number and atom name of the first atom,
    the same four of the second, and the printed distance, provided no
    residue name, residue number, atom name or chain holds an underscore
    (the detector carries them in one underscore-joined name). *)
Theorem X13_contact_line_fields `{Platform} (r m : coord_line) (d : float) :
  forallb (free_of (Ascii.eqb "_")) (name_fields r) = true ->
  forallb (free_of (Ascii.eqb "_")) (name_fields m) = true ->
  PyStr.split "_" (fullname (atom_of r)) = name_fields r
  /\ contact_line (atom_of r) (atom_of m) d
     = Ok (PyStr.join tab (contact_fields r m d)).
Proof.
  intros Hr Hm. split; [exact (split_fullname r Hr)|].
  exact (contact_line_fields r m d Hr Hm).
Qed.

Lemma X13_contact_line_fields_witness :
  contact_line (H := summary_only) example_ref example_mob 10.5%float
  = Ok example_line.
Proof.
  apply (X13_contact_line_fields (H := summary_only)
           example_coord_ref example_coord_mob 10.5%float);
    reflexivity.
Defined.

Lemma clean_fields_split (c : coord_line) :
  forallb clean_field (name_fields c) = true ->
  forallb (free_of (Ascii.eqb "_")) (name_fields c) = true
  /\ Forall (fun f => PyStr.nonempty f && free_of PyStr.isspace f = true)
       (name_fields c).
Proof.
  unfold name_fields, clean_field. cbn [forallb].
  rewrite !andb_true_iff. intros (Hrn & Hri & Hn & Hc & _).
  split; [tauto|].
  repeat constructor; apply andb_true_iff; tauto.
Qed.

(** X14.  The two detectors and the classifier fit together on clean
    fields: when the residue names, residue numbers, atom names and chains of
    two atoms are not empty and hold neither underscore nor white space, and
    the printed distance is one word, the line the in-process detector writes
    splits into its nine fields, so that the classifier reads the two atom
    names at words four and eight and counts the pair in their category. *)
Theorem X14_detector_line_is_classified `{Platform} (r m : coord_line)
    (d : float) (counts : gmap string Z) :
  forallb clean_field (name_fields r) = true ->
  forallb clean_field (name_fields m) = true ->
  PyStr.nonempty (str_of_float d)
    && free_of PyStr.isspace (str_of_float d) = true ->
  exists line,
    contact_line (atom_of r) (atom_of m) d = Ok line
    /\ PyStr.split_ws line = contact_fields r m d
    /\ readable line
    /\ count_line counts line
       = increment counts
           (_classify_contact (_classify_atom (cl_name r))
              (_classify_atom (cl_name m))).
Proof.
  intros Hr Hm Hd.
  destruct (clean_fields_split r Hr) as [Hur Hwr].
  destruct (clean_fields_split m Hm) as [Hum Hwm].
  exists (PyStr.join tab (contact_fields r m d)).
  assert (PyStr.split_ws (PyStr.join tab (contact_fields r m d))
          = contact_fields r m d) as Hwords.
  { apply split_ws_join. unfold contact_fields, name_fields in *.
    repeat (apply Forall_cons in Hwr as [? Hwr]).
    repeat (apply Forall_cons in Hwm as [? Hwm]).
    repeat constructor; assumption. }
  split; [exact (contact_line_fields r m d Hur Hum)|].
  split; [exact Hwords|]. split.
  - right. rewrite Hwords. cbn. lia.
  - apply count_line_words.
    + intros Hempty. rewrite Hempty in Hwords. discriminate Hwords.
    + rewrite Hwords. reflexivity.
    + rewrite Hwords. reflexivity.
Qed.

Lemma X14_detector_line_is_classified_witness :
  exists line,
    contact_line (H := summary_only) example_ref example_mob 10.5%float
      = Ok line
    /\ count_line initial_counts line
       = Ok (<["CN" := 1%Z]> initial_counts).
Proof.
  destruct (X14_detector_line_is_classified (H := summary_only)
              example_coord_ref example_coord_mob 10.5%float initial_counts)
    as (line & Hline & _ & _ & Hcount); [reflexivity .. |].
  exists line. split; [exact Hline|]. rewrite Hcount. reflexivity.
Defined.

(** ** The filter of the external detector *)

Lemma chains_are_acceptable_two (g0 g1 : list string) (chain1 chain2 : string) :
  chains_are_acceptable [g0; g1] chain1 chain2
  = Ok ((in_group chain1 g0 && in_group chain2 g1)
        || (in_group chain1 g1 && in_group chain2 g0)).
Proof.
  unfold chains_are_acceptable, index. cbn.
  destruct (in_group chain1 g0), (in_group chain2 g1), (in_group chain1 g1),
    (in_group chain2 g0); reflexivity.
Qed.

Lemma chain_words (line : string) :
  match index (PyStr.split_ws line) 1, index (PyStr.split_ws line) 5 with
  | Ok _, Ok _ => has_chain_words line = true
  | Ok _, Raise e => has_chain_words line = false /\ e = IndexError
  | Raise e, _ => has_chain_words line = false /\ e = IndexError
  end.
Proof.
  unfold has_chain_words, index.
  destruct (PyStr.split_ws line !! 1) as [w1|] eqn:H1;
    destruct (PyStr.split_ws line !! 5) as [w5|] eqn:H5.
  - apply lookup_lt_Some in H5. apply Nat.leb_le. lia.
  - apply lookup_ge_None in H5. split; [apply Nat.leb_gt; lia | reflexivity].
  - apply lookup_ge_None in H1. split; [apply Nat.leb_gt; lia | reflexivity].
  - apply lookup_ge_None in H1. split; [apply Nat.leb_gt; lia | reflexivity].
Qed.

Lemma _filter_two_groups (g0 g1 : list string) (contacts : list string) :
  _filter_contacts_by_chain contacts [g0; g1]
  = if forallb has_chain_words contacts
    then Ok (List.filter (acceptable g0 g1) contacts)
    else Raise IndexError.
Proof.
  induction contacts as [|line rest IH]; [reflexivity|].
  cbn [_filter_contacts_by_chain forallb List.filter]. unfold acceptable at 1.
  pose proof (chain_words line) as Hw.
  destruct (index (PyStr.split_ws line) 1) as [w1|e1];
    [|destruct Hw as [-> ->]; reflexivity].
  destruct (index (PyStr.split_ws line) 5) as [w5|e5];
    [|destruct Hw as [-> ->]; reflexivity].
  rewrite Hw. cbn [fmap result_fmap mbind result_bind andb].
  rewrite chains_are_acceptable_two. cbn [mbind result_bind]. rewrite IH.
  destruct (forallb has_chain_words rest); [|reflexivity].
  cbn. destruct (_ || _); reflexivity.
Qed.

Lemma acceptable_swap (g0 g1 : list string) (line : string) :
  acceptable g0 g1 line = acceptable g1 g0 line.
Proof.
  unfold acceptable.
  destruct (index (PyStr.split_ws line) 1); [|reflexivity].
  destruct (index (PyStr.split_ws line) 5); [|reflexivity].
  apply orb_comm.
Qed.

Lemma filter_ext_bool {A} (f g : A -> bool) (l : list A) :
  (forall x, f x = g x) -> List.filter f l = List.filter g l.
Proof.
  intros Hfg. induction l as [|x l IH]; [reflexivity|].
  cbn [List.filter]. rewrite Hfg, IH. reflexivity.
Qed.

(** X15.  For two chain groups the filter of the external detector raises
    [IndexError] when some line has fewer than six words, and otherwise
    returns, in their order, exactly the lines whose two chains (the second
    and sixth words, uppercased) are one in each group, in either
    orientation. *)
Theorem X15_filter_by_chain (g0 g1 : list string) (contacts : list string) :
  _filter_contacts_by_chain contacts [g0; g1]
  = if forallb has_chain_words contacts
    then Ok (List.filter (acceptable g0 g1) contacts)
    else Raise IndexError.
Proof.
  rewrite _filter_two_groups.
  destruct (forallb has_chain_words contacts); reflexivity.
Qed.

(** X16.  The filter of the external detector does not depend on which of
    the two groups comes first, and filtering its own output changes
    nothing. *)
Theorem X16_filter_symmetric_idempotent (g0 g1 : list string)
    (contacts : list string) :
  _filter_contacts_by_chain contacts [g0; g1]
  = _filter_contacts_by_chain contacts [g1; g0]
  /\ (forall kept, _filter_contacts_by_chain contacts [g0; g1] = Ok kept ->
                   _filter_contacts_by_chain kept [g0; g1] = Ok kept).
Proof.
  split.
  - rewrite !_filter_two_groups.
    rewrite (filter_ext_bool _ _ contacts (acceptable_swap g0 g1)).
    reflexivity.
  - intros kept. rewrite !_filter_two_groups.
    destruct (forallb has_chain_words contacts) eqn:Hall; [|discriminate].
    intros [= <-].
    assert (forallb has_chain_words
              (List.filter (acceptable g0 g1) contacts) = true) as ->.
    { rewrite forallb_forall in Hall |- *. intros line Hin.
      apply filter_In in Hin as [Hin _]. exact (Hall line Hin). }
    f_equal. induction contacts as [|line rest IH]; [reflexivity|].
    cbn [forallb] in Hall. apply andb_true_iff in Hall as [_ Hall].
    cbn [List.filter]. destruct (acceptable g0 g1 line) eqn:Hacc.
    + cbn [List.filter]. rewrite Hacc, (IH Hall). reflexivity.
    + exact (IH Hall).
Qed.

Section ExternalDetector.
Context `{Platform}.

Lemma filter_few_groups (chains : list (list string)) (line : string)
    (rest : list string) :
  (length chains <= 1)%nat -> has_chain_words line = true ->
  _filter_contacts_by_chain (line :: rest) chains = Raise IndexError.
Proof.
  intros Hlen Hwords. cbn [_filter_contacts_by_chain].
  pose proof (chain_words line) as Hw.
  destruct (index (PyStr.split_ws line) 1) as [w1|e1];
    [|destruct Hw as [Hw _]; congruence].
  destruct (index (PyStr.split_ws line) 5) as [w5|e5];
    [|destruct Hw as [Hw _]; congruence].
  cbn [fmap result_fmap mbind result_bind].
  destruct chains as [|g0 [|g1 more]]; [reflexivity| |cbn in Hlen; lia].
  unfold chains_are_acceptable, index. cbn.
  destruct (in_group (PyStr.upper w1) g0); reflexivity.
Qed.

Lemma removelast_snoc {A} (l : list A) (x : A) : removelast (l ++ [x]) = l.
Proof. apply removelast_last. Qed.

End ExternalDetector.

(** X17.  The external detector drops the last line its program prints
    without looking at it and filters the lines before it; when the program
    prints nothing it raises [IndexError], and when the program cannot be
    run its exception is passed on. *)
Theorem X17_last_line_dropped `{Platform} (contact_executable : string)
    (pdb_file : Structure) (chains : list (list string))
    (cutoff : cutoff_value) :
  (forall lines last,
     run_executable contact_executable (str_of_cutoff cutoff)
       (saved_lines pdb_file) = Ok (lines ++ [last]) ->
     calc_atomic_contacts_cpp contact_executable pdb_file chains cutoff
     = _filter_contacts_by_chain lines chains)
  /\ (run_executable contact_executable (str_of_cutoff cutoff)
        (saved_lines pdb_file) = Ok [] ->
      calc_atomic_contacts_cpp contact_executable pdb_file chains cutoff
      = Raise IndexError)
  /\ (forall e,
        run_executable contact_executable (str_of_cutoff cutoff)
          (saved_lines pdb_file) = Raise e ->
        calc_atomic_contacts_cpp contact_executable pdb_file chains cutoff
        = Raise e).
Proof.
  unfold calc_atomic_contacts_cpp. split; [|split].
  - intros lines last ->. cbn [mbind result_bind]. unfold del_last.
    destruct (lines ++ [last]) as [|x l] eqn:Hl.
    + destruct lines; discriminate Hl.
    + rewrite <- Hl, removelast_snoc. reflexivity.
  - intros ->. reflexivity.
  - intros e ->. reflexivity.
Qed.

(** X18.  With fewer than two chain groups the filter of the external
    detector raises [IndexError] as soon as the program's first line has its
    six words: the two detectors differ there, the in-process one returns
    the empty list. *)
Theorem X18_filter_needs_two_groups (chains : list (list string))
    (line : string) (rest : list string) :
  (length chains <= 1)%nat -> has_chain_words line = true ->
  _filter_contacts_by_chain (line :: rest) chains = Raise IndexError.
Proof.
  intros Hlen Hwords. exact (filter_few_groups chains line rest Hlen Hwords).
Qed.

Lemma X18_filter_needs_two_groups_witness :
  _filter_contacts_by_chain [example_line] [["X"]] = Raise IndexError.
Proof.
  apply (X18_filter_needs_two_groups [["X"]] example_line []).
  - cbn. lia.
  - reflexivity.
Defined.

Lemma X17_last_line_dropped_witness :
  calc_atomic_contacts_cpp (H := ExamplePlatform.platform
                                   (Ok [example_line; "Total contacts: 1"]))
    "contacts" example_structure [["X"]; ["Y"]] (CutoffFloat 10.5)
  = Ok [example_line].
Proof.
  destruct (X17_last_line_dropped
              (H := ExamplePlatform.platform
                      (Ok [example_line; "Total contacts: 1"]))
              "contacts" example_structure [["X"]; ["Y"]] (CutoffFloat 10.5))
    as [Hdrop _].
  rewrite (Hdrop [example_line] "Total contacts: 1" eq_refl). reflexivity.
Defined.

Lemma X16_filter_symmetric_idempotent_witness :
  _filter_contacts_by_chain [example_line] [["Y"]; ["X"]] = Ok [example_line]
  /\ _filter_contacts_by_chain [example_line] [["X"]; ["Y"]] = Ok [example_line].
Proof.
  destruct (X16_filter_symmetric_idempotent ["Y"] ["X"] [example_line])
    as [Hswap Hidem].
  split; [|rewrite <- Hswap]; apply Hidem; reflexivity.
Defined.

Lemma X12_contact_count_bound_witness :
  (length [example_line] <= 1 * 1)%nat.
Proof.
  destruct (X12_contact_count_bound (H := summary_only)
              [example_ref] [example_mob] (CutoffFloat 10.5))
    as (_ & _ & Hbound).
  apply (Hbound [example_line]). vm_compute. reflexivity.
Defined.

Lemma X6_histogram_errors_witness :
  calculate_contact_counts ["ALA A 1 CA"] = Raise IndexError.
Proof.
  destruct (X6_histogram_errors ["ALA A 1 CA"]) as [_ Herr].
  destruct (calculate_contact_counts ["ALA A 1 CA"]) as [h|e] eqn:Hrun;
    [vm_compute in Hrun; discriminate Hrun|].
  rewrite (Herr e eq_refl). reflexivity.
Defined.

(** ** More on predict *)

Lemma scored_state_fields (self : ProdigyLig.t) (h : gmap string Z)
    (scores : option (float * float)) (dg : float) :
  ProdigyLig.structure (scored_state self h scores dg)
    = ProdigyLig.structure self
  /\ ProdigyLig.chains (scored_state self h scores dg) = ProdigyLig.chains self
  /\ ProdigyLig.electrostatics (scored_state self h scores dg)
     = ProdigyLig.electrostatics self
  /\ ProdigyLig.cpp_contacts (scored_state self h scores dg)
     = ProdigyLig.cpp_contacts self
  /\ ProdigyLig.cutoff (scored_state self h scores dg) = ProdigyLig.cutoff self
  /\ ProdigyLig.contact_counts (scored_state self h scores dg) = Some h
  /\ ProdigyLig.dg (scored_state self h scores dg) = Some dg.
Proof. destruct scores as [[score dge]|]; repeat split; reflexivity. Qed.

Lemma scored_state_idem (self : ProdigyLig.t) (h : gmap string Z)
    (scores : option (float * float)) (dg : float) :
  scored_state (scored_state self h scores dg) h scores dg
  = scored_state self h scores dg.
Proof. destruct self, scores as [[score dge]|]; reflexivity. Qed.

Section PredictMore.
Context `{Platform}.

(** Where [predict] leaves the object: as [detect] left it, or in the
    scored state over the histogram of the contacts found. *)
Lemma predict_state (self self' : ProdigyLig.t) (r : result unit) :
  ProdigyLig.predict self = (r, self') ->
  exists rd self1,
    ProdigyLig.detect self = (rd, self1)
    /\ (self' = self1
        \/ exists h scores dg, self' = scored_state self1 h scores dg).
Proof.
  intros Hrun. destruct (ProdigyLig.detect self) as [rd self1] eqn:Hdetect.
  exists rd, self1. split; [reflexivity|].
  pose proof (predict_run self self1 rd Hdetect) as Hcases.
  destruct rd as [[|line rest]|e].
  - rewrite Hcases in Hrun. injection Hrun as _ <-. left. reflexivity.
  - destruct (calculate_contact_counts (line :: rest)) as [h|e].
    + destruct Hcases as (dg & _ & Hcases).
      destruct (ProdigyLig.electrostatics self1).
      * destruct Hcases as (score & dge & _ & _ & Hcases).
        rewrite Hcases in Hrun. injection Hrun as _ <-. right. eauto.
      * rewrite Hcases in Hrun. injection Hrun as _ <-. right. eauto.
    + rewrite Hcases in Hrun. injection Hrun as _ <-. left. reflexivity.
  - rewrite Hcases in Hrun. injection Hrun as _ <-. left. reflexivity.
Qed.

(** With an external program set, [detect] unwraps the setting, stores
    the result and runs the program it names. *)
Lemma detect_cpp (self : ProdigyLig.t) (v : cpp_value) :
  ProdigyLig.cpp_contacts self = Some v ->
  ProdigyLig.detect self
  = match item0 v with
    | Ok exe =>
        (calc_atomic_contacts_cpp exe (ProdigyLig.structure self)
           (ProdigyLig.chains self) (ProdigyLig.cutoff self),
         ProdigyLig.set_cpp_contacts (Some (CppStr exe)) self)
    | Raise e => (Raise e, self)
    end.
Proof.
  intros Hcpp.
  cbv [ProdigyLig.detect ProdigyLig.bind ProdigyLig.lift ProdigyLig.read
       ProdigyLig.assign].
  rewrite Hcpp. destruct (item0 v); reflexivity.
Qed.

End PredictMore.

(** X19.  After a successful [predict] the stored results belong
    together, on any session: the histogram has the ten keys, [dg] is the
    low-refinement model of that histogram, and with an energy [dg_score] and
    [dg_elec] are the two electrostatics models of it; without an energy
    those two fields keep whatever they held before the call. *)
Theorem X19_stored_scores_consistent `{Platform} (self self' : ProdigyLig.t) :
  ProdigyLig.predict self = (Ok tt, self') ->
  exists h dg,
    ProdigyLig.contact_counts self' = Some h
    /\ dom h = list_to_set categories
    /\ calculate_DG h = Ok dg
    /\ ProdigyLig.dg self' = Some dg
    /\ match ProdigyLig.electrostatics self with
       | Some e =>
           exists score dge,
             calculate_score h e = Ok score
             /\ calculate_DG_electrostatics h e = Ok dge
             /\ ProdigyLig.dg_score self' = Some score
             /\ ProdigyLig.dg_elec self' = Some dge
       | None =>
           ProdigyLig.dg_score self' = ProdigyLig.dg_score self
           /\ ProdigyLig.dg_elec self' = ProdigyLig.dg_elec self
       end.
Proof.
  intros Hrun.
  destruct (predict_return _ _ Hrun)
    as (contacts & self1 & h & dg & Hdetect & _ & Hcounts & Hdg & Hstate).
  destruct (detect_keeps _ _ _ Hdetect)
    as (_ & _ & He & _ & Hsc & Hel & _ & _ & _).
  destruct (count_lines_ok _ _ _ Hcounts) as (Hdom & _).
  rewrite initial_counts_dom in Hdom. rewrite He in Hstate.
  exists h, dg.
  destruct (ProdigyLig.electrostatics self) as [e|].
  - destruct Hstate as (score & dge & Hs & Hde & ->).
    repeat split; try assumption. exists score, dge. repeat split; assumption.
  - subst self'. repeat split; assumption.
Qed.

Lemma X19_stored_scores_consistent_witness :
  exists h dg,
    ProdigyLig.contact_counts
      (ProdigyLig.predict (H := summary_only) near_session).2 = Some h
    /\ calculate_DG h = Ok dg
    /\ ProdigyLig.dg (ProdigyLig.predict (H := summary_only) near_session).2
       = Some dg.
Proof.
  destruct (X19_stored_scores_consistent (H := summary_only) near_session
              (ProdigyLig.predict (H := summary_only) near_session).2)
    as (h & dg & Hh & _ & Hdg & Hsdg & _); [vm_compute; reflexivity|].
  exists h, dg. split; [exact Hh|]. split; [exact Hdg | exact Hsdg].
Defined.

(** X20.  With the in-process detector, [predict] can be called again:
    a second call on the object the first one left has the same outcome and
    leaves the object as it is. *)
Theorem X20_predict_repeatable `{Platform} (self self1 : ProdigyLig.t)
    (r : result unit) :
  ProdigyLig.cpp_contacts self = None ->
  ProdigyLig.predict self = (r, self1) ->
  ProdigyLig.predict self1 = (r, self1).
Proof.
  intros Hcpp Hrun.
  pose proof (predict_run self self _ (detect_python self Hcpp)) as Hcases.
  destruct (calc_atomic_contacts_python (ProdigyLig.structure self)
              (ProdigyLig.chains self) (ProdigyLig.cutoff self))
    as [[|line rest]|e] eqn:Hcalc.
  - rewrite Hcases in Hrun. injection Hrun as <- <-. exact Hcases.
  - destruct (calculate_contact_counts (line :: rest)) as [h|e] eqn:Hcounts.
    + destruct Hcases as (dg & Hdg & Hcases).
      assert (forall scores,
                ProdigyLig.electrostatics self
                = ProdigyLig.electrostatics (scored_state self h scores dg)
                /\ ProdigyLig.detect (scored_state self h scores dg)
                   = (Ok (line :: rest), scored_state self h scores dg))
        as Hagain.
      { intros scores.
        destruct (scored_state_fields self h scores dg)
          as (Hs & Hc & He & Hp & Hcut & _).
        split; [symmetry; exact He|].
        rewrite detect_python by (rewrite Hp; exact Hcpp).
        rewrite Hs, Hc, Hcut, Hcalc. reflexivity. }
      destruct (ProdigyLig.electrostatics self) as [e|] eqn:He.
      * destruct Hcases as (score & dge & Hs & Hde & Hcases).
        rewrite Hcases in Hrun. injection Hrun as <- <-.
        destruct (Hagain (Some (score, dge))) as [He' Hdetect].
        pose proof (predict_run _ _ _ Hdetect) as Hcases'.
        cbv beta iota in Hcases'. rewrite Hcounts, <- He' in Hcases'.
        destruct Hcases' as (dg' & Hdg' & score' & dge' & Hs' & Hde' & ->).
        rewrite Hdg in Hdg'. rewrite Hs in Hs'. rewrite Hde in Hde'.
        injection Hdg' as <-. injection Hs' as <-. injection Hde' as <-.
        rewrite scored_state_idem. reflexivity.
      * rewrite Hcases in Hrun. injection Hrun as <- <-.
        destruct (Hagain None) as [He' Hdetect].
        pose proof (predict_run _ _ _ Hdetect) as Hcases'.
        cbv beta iota in Hcases'. rewrite Hcounts, <- He' in Hcases'.
        destruct Hcases' as (dg' & Hdg' & ->).
        rewrite Hdg in Hdg'. injection Hdg' as <-.
        rewrite scored_state_idem. reflexivity.
    + rewrite Hcases in Hrun. injection Hrun as <- <-. exact Hcases.
  - rewrite Hcases in Hrun. injection Hrun as <- <-. exact Hcases.
Qed.

Lemma X20_predict_repeatable_witness :
  ProdigyLig.predict (H := summary_only)
    (ProdigyLig.predict (H := summary_only) near_session).2
  = ProdigyLig.predict (H := summary_only) near_session.
Proof.
  rewrite (X20_predict_repeatable (H := summary_only) near_session
             (ProdigyLig.predict (H := summary_only) near_session).2
             (ProdigyLig.predict (H := summary_only) near_session).1);
    [| reflexivity | destruct (ProdigyLig.predict near_session); reflexivity].
  destruct (ProdigyLig.predict near_session); reflexivity.
Defined.

(** X21.  With an external program set as the one-element list of the
    command line, a session is single-use: whatever the outcome of the first
    [predict], the field [cpp_contacts] then holds the bare path, and a
    second call unwraps it again, so that it runs the program named by the
    first byte of the path (or raises [IndexError] on an empty path). *)
Theorem X21_second_predict_runs_first_byte `{Platform}
    (self self1 : ProdigyLig.t) (r : result unit) (path : string)
    (more : list string) :
  ProdigyLig.cpp_contacts self = Some (CppList (path :: more)) ->
  ProdigyLig.predict self = (r, self1) ->
  ProdigyLig.cpp_contacts self1 = Some (CppStr path)
  /\ ProdigyLig.detect self1
     = match PyStr.at_index path 0 with
       | Ok first =>
           (calc_atomic_contacts_cpp first (ProdigyLig.structure self)
              (ProdigyLig.chains self) (ProdigyLig.cutoff self),
            ProdigyLig.set_cpp_contacts (Some (CppStr first)) self1)
       | Raise e => (Raise e, self1)
       end.
Proof.
  intros Hcpp Hrun.
  destruct (predict_state _ _ _ Hrun) as (rd & s1 & Hdetect & Hstate).
  rewrite (detect_cpp self _ Hcpp) in Hdetect. cbn in Hdetect.
  injection Hdetect as _ <-.
  assert (ProdigyLig.cpp_contacts self1 = Some (CppStr path)
          /\ ProdigyLig.structure self1 = ProdigyLig.structure self
          /\ ProdigyLig.chains self1 = ProdigyLig.chains self
          /\ ProdigyLig.cutoff self1 = ProdigyLig.cutoff self)
    as (Hp & Hs & Hc & Hcut).
  { destruct Hstate as [->|(h & scores & dg & ->)].
    - repeat split; reflexivity.
    - destruct (scored_state_fields
                  (ProdigyLig.set_cpp_contacts (Some (CppStr path)) self)
                  h scores dg) as (Hs & Hc & _ & Hp & Hcut & _).
      rewrite Hs, Hc, Hp, Hcut. repeat split; reflexivity. }
  split; [exact Hp|].
  rewrite (detect_cpp self1 _ Hp). cbn [item0].
  rewrite Hs, Hc, Hcut. reflexivity.
Qed.

Lemma X21_second_predict_runs_first_byte_witness :
  ProdigyLig.cpp_contacts
    (ProdigyLig.predict (H := summary_only) cpp_session).2
  = Some (CppStr "contacts")
  /\ ProdigyLig.cpp_contacts
       (ProdigyLig.predict (H := summary_only)
          (ProdigyLig.predict (H := summary_only) cpp_session).2).2
     = Some (CppStr "c").
Proof.
  destruct (X21_second_predict_runs_first_byte (H := summary_only) cpp_session
              (ProdigyLig.predict (H := summary_only) cpp_session).2
              (ProdigyLig.predict (H := summary_only) cpp_session).1
              "contacts" [])
    as [Hfirst _];
    [reflexivity | destruct (ProdigyLig.predict cpp_session); reflexivity |].
  split; [exact Hfirst | vm_compute; reflexivity].
Defined.

(** X22.  Once the detector has returned, [predict] returns if and only if
    the contact list is not empty and each of its lines is empty or has at
    least eight words; nothing else can make it raise, the scoring step in
    particular never does. *)
Theorem X22_predict_returns_iff `{Platform} (self self1 : ProdigyLig.t)
    (contacts : list string) :
  ProdigyLig.detect self = (Ok contacts, self1) ->
  (exists self', ProdigyLig.predict self = (Ok tt, self'))
  <-> contacts <> [] /\ Forall readable contacts.
Proof.
  intros Hdetect.
  pose proof (predict_run self self1 _ Hdetect) as Hcases.
  cbv beta iota in Hcases.
  destruct contacts as [|line rest].
  - rewrite Hcases. split; [intros [self' [=]] | intros [Hne _]; contradiction].
  - unfold calculate_contact_counts in Hcases.
    destruct (count_lines_outcome (line :: rest) initial_counts
                initial_counts_dom) as [[Hall Hok]|[Hnot Herr]].
    + destruct (count_lines initial_counts (line :: rest)) as [h|e];
        [|discriminate Hok].
      split; [intros _; split; [discriminate | exact Hall]|].
      intros _. destruct Hcases as (dg & _ & Hcases).
      destruct (ProdigyLig.electrostatics self1).
      * destruct Hcases as (score & dge & _ & _ & Hcases). eauto.
      * eauto.
    + rewrite Herr in Hcases. rewrite Hcases.
      split; [intros [self' [=]] | intros [_ Hall]; contradiction].
Qed.

Lemma X22_predict_returns_iff_witness :
  exists self',
    ProdigyLig.predict (H := summary_only) near_session = (Ok tt, self').
Proof.
  apply (X22_predict_returns_iff (H := summary_only) near_session near_session
           [PyStr.join tab ["ALA"; "A"; "1"; "CA"; "LIG"; "B"; "2"; "C1";
                            "3.0"]]);
    [vm_compute; reflexivity|].
  split; [discriminate|].
  apply Forall_cons; split; [right; vm_compute; lia | constructor].
Defined.

(** ** Reading the electrostatics energy *)

Lemma prefix_append (s t : string) : String.prefix s (s +:+ t) = true.
Proof.
  induction s as [|c s IH]; [destruct t; reflexivity|].
  change (String c s +:+ t) with (String c (s +:+ t)).
  change (String.prefix (String c s) (String c (s +:+ t)))
    with (PyStr.startswith (String c (s +:+ t)) (String c s)).
  rewrite startswith_cons. destruct (ascii_dec c c); [exact IH | contradiction].
Qed.

Lemma replace_go_skip (old new s1 s2 : string) :
  PyStrMore.replace_go old new (String.length s1) (s1 +:+ s2)
  = PyStrMore.replace_go old new 0 s2.
Proof.
  induction s1 as [|c s1 IH]; [reflexivity|].
  change (String c s1 +:+ s2) with (String c (s1 +:+ s2)).
  cbn [String.length PyStrMore.replace_go]. exact IH.
Qed.

Lemma replace_go_absent (old new s : string) :
  PyStr.contains s old = false -> PyStrMore.replace_go old new 0 s = s.
Proof.
  induction s as [|c s IH]; [reflexivity|].
  cbn [PyStr.contains PyStrMore.replace_go]. intros Habs.
  apply orb_false_iff in Habs as [-> Hrest]. rewrite (IH Hrest). reflexivity.
Qed.

(** Removing a leading [old] from a string that holds no other. *)
Lemma replace_leading (c : ascii) (old' body : string) :
  PyStr.contains body (String c old') = false ->
  PyStrMore.replace (String c old') EmptyString (String c old' +:+ body) = body.
Proof.
  intros Habs. unfold PyStrMore.replace.
  change (String c old' +:+ body) with (String c (old' +:+ body)).
  cbn [PyStrMore.replace_go].
  change (String c (old' +:+ body)) with (String c old' +:+ body).
  rewrite prefix_append.
  replace (String.length (String c old') - 1) with (String.length old')
    by (cbn [String.length]; lia).
  rewrite replace_go_skip. exact (replace_go_absent _ _ _ Habs).
Qed.

(** Fields that hold no separator come back from their joined string. *)
Lemma split_join (c : ascii) (fields : list string) :
  fields <> [] ->
  Forall (fun f => free_of (Ascii.eqb c) f = true) fields ->
  PyStr.split c (PyStr.join (String c EmptyString) fields) = fields.
Proof.
  unfold PyStr.split, PyStr.join. intros Hne Hall.
  induction Hall as [|f rest Hf Hrest IH]; [contradiction|].
  destruct rest as [|g rest].
  - cbn [String.concat]. exact (split_by_free _ _ Hf).
  - rewrite concat_cons_cons, one_char_append.
    rewrite (split_by_app (Ascii.eqb c) f _ c Hf (Ascii.eqb_refl c)).
    rewrite IH by discriminate. reflexivity.
Qed.

Section ElectrostaticsProperties.
Context `{Platform}.

Lemma extract_passes_over (pre rest : list string) :
  forallb passed_over pre = true ->
  extract_electrostatics (pre ++ rest) = extract_electrostatics rest.
Proof.
  induction pre as [|line pre IH]; [reflexivity|].
  cbn [forallb]. intros Hpre. apply andb_true_iff in Hpre as [Hline Hpre].
  unfold passed_over, energies_line, atom_line in Hline.
  apply andb_true_iff in Hline as [He Ha].
  apply negb_true_iff in He, Ha.
  cbn [app extract_electrostatics]. rewrite He, Ha. exact (IH Hpre).
Qed.

Lemma extract_decided (line : string) (rest : list string) :
  passed_over line = false ->
  extract_electrostatics (line :: rest) = extract_electrostatics [line].
Proof.
  unfold passed_over, energies_line, atom_line. intros Hline.
  cbn [extract_electrostatics].
  destruct (PyStr.startswith line "REMARK energies"); [reflexivity|].
  destruct (PyStr.startswith line "ATOM"); [reflexivity | discriminate Hline].
Qed.

Lemma atom_line_not_energies (line : string) :
  atom_line line = true -> energies_line line = false.
Proof.
  unfold atom_line, energies_line. destruct line as [|c line]; [reflexivity|].
  rewrite !startswith_cons.
  destruct (ascii_dec "A" c) as [<-|]; [|discriminate].
  intros _. destruct (ascii_dec "R" "A"); [discriminate | reflexivity].
Qed.

Lemma extract_atom_first (line : string) (rest : list string) :
  atom_line line = true -> extract_electrostatics (line :: rest) = Ok None.
Proof.
  intros Ha. pose proof (atom_line_not_energies line Ha) as He.
  unfold atom_line, energies_line in *.
  cbn [extract_electrostatics]. rewrite He, Ha. reflexivity.
Qed.

End ElectrostaticsProperties.

(** X23.  The scan for the energy is decided by the first line that starts
    with [REMARK energies] or with [ATOM]: the lines before it are passed
    over, those after it are not read; a file with no such line, or with an
    [ATOM] line first, has no energy.  A [HETATM] line does not end the
    scan. *)
Theorem X23_first_decisive_line `{Platform} (pre : list string) :
  forallb passed_over pre = true ->
  extract_electrostatics pre = Ok None
  /\ (forall line rest, passed_over line = false ->
        extract_electrostatics (pre ++ line :: rest)
        = extract_electrostatics [line])
  /\ (forall line rest, atom_line line = true ->
        extract_electrostatics (pre ++ line :: rest) = Ok None)
  /\ (forall line, PyStr.startswith line "HETATM" = true ->
        passed_over line = true).
Proof.
  intros Hpre. split; [|split; [|split]].
  - rewrite <- (app_nil_r pre). rewrite (extract_passes_over pre [] Hpre).
    reflexivity.
  - intros line rest Hline. rewrite (extract_passes_over pre _ Hpre).
    exact (extract_decided line rest Hline).
  - intros line rest Ha. rewrite (extract_passes_over pre _ Hpre).
    exact (extract_atom_first line rest Ha).
  - intros line Hhet. unfold passed_over, energies_line, atom_line.
    destruct line as [|c line]; [discriminate Hhet|].
    rewrite startswith_cons in Hhet. rewrite !startswith_cons.
    destruct (ascii_dec "H" c) as [<-|]; [|discriminate Hhet].
    destruct (ascii_dec "R" "H"); [discriminate|].
    destruct (ascii_dec "A" "H"); [discriminate | reflexivity].
Qed.

Lemma X23_first_decisive_line_witness :
  extract_electrostatics (H := summary_only) example_file
  = extract_electrostatics (H := summary_only) [example_remark].
Proof.
  destruct (X23_first_decisive_line (H := summary_only)
              ["REMARK FILENAME=complex_1w.pdb" +:+ newline])
    as (_ & Hdecided & _); [reflexivity|].
  exact (Hdecided example_remark _ eq_refl).
Defined.

(** X24.  On a line that, without its trailing white space, is
    [REMARK energies: ] followed by comma-separated fields, the energy is
    the number read from the seventh field; with fewer than seven fields the
    call raises [IndexError], and a seventh field that is no number makes it
    raise what [float] raises. *)
Theorem X24_seventh_field `{Platform} (line : string) (rest : list string)
    (fields : list string) :
  energies_line line = true ->
  PyStr.rstrip line = "REMARK energies: " +:+ PyStr.join "," fields ->
  Forall (fun f => free_of (Ascii.eqb ",") f = true) fields ->
  PyStr.contains (PyStr.join "," fields) "REMARK energies: " = false ->
  extract_electrostatics (line :: rest)
  = match fields !! 6 with
    | Some field => Some <$> float_of_str field
    | None => Raise IndexError
    end.
Proof.
  intros He Hline Hfree Habs. unfold energies_line in He.
  cbn [extract_electrostatics]. rewrite He, Hline.
  rewrite (replace_leading "R" "EMARK energies: " _ Habs).
  destruct fields as [|f fs]; [reflexivity|].
  rewrite (split_join "," (f :: fs)) by (discriminate || exact Hfree).
  unfold index. destruct ((f :: fs) !! 6) as [field|]; [|reflexivity].
  cbn. destruct (float_of_str field); reflexivity.
Qed.

Lemma X24_seventh_field_witness :
  extract_electrostatics (H := summary_only) example_file
  = Ok (Some (- 30.5)%float).
Proof.
  change example_file
    with (["REMARK FILENAME=complex_1w.pdb" +:+ newline]
            ++ example_remark :: skipn 2 example_file).
  rewrite (extract_passes_over (H := summary_only)
             ["REMARK FILENAME=complex_1w.pdb" +:+ newline] _ eq_refl).
  rewrite (X24_seventh_field (H := summary_only) example_remark _
             ["-283.961"; " -225.764"; " -32.0"; " 0.0"; " 0.0"; " 0.0";
              " -30.5"; " 12.25"]).
  - vm_compute. reflexivity.
  - reflexivity.
  - reflexivity.
  - repeat constructor.
  - reflexivity.
Defined.

(** ** The energy handed to the session, and the report *)

(** X25.  The energy of the command line is used when it is not zero, or
    when the file is an mmCIF file; otherwise, also for an energy of 0.0 or
    -0.0 given on the command line, the energy is the one the file holds,
    which is none when the file has an [ATOM] line before any energies
    remark. *)
Theorem X25_zero_energy_is_dropped `{Platform} (arg : option float)
    (s_ext : string) (in_file : list string) :
  (truthy arg = true \/ s_ext = ".cif" ->
   main_electrostatics arg s_ext in_file = Ok arg)
  /\ (truthy arg = false -> s_ext <> ".cif" ->
      main_electrostatics arg s_ext in_file = extract_electrostatics in_file)
  /\ (forall v, arg = Some v -> (v =? 0)%float = true -> s_ext <> ".cif" ->
        forall line rest, in_file = line :: rest -> atom_line line = true ->
        main_electrostatics arg s_ext in_file = Ok None).
Proof.
  unfold main_electrostatics. split; [|split].
  - intros [->| ->]; [reflexivity|]. rewrite orb_true_r. reflexivity.
  - intros -> Hext. apply String.eqb_neq in Hext. rewrite Hext. reflexivity.
  - intros v -> Hzero Hext line rest -> Ha. apply String.eqb_neq in Hext.
    cbn [truthy]. rewrite Hzero, Hext. cbn [negb orb].
    exact (extract_atom_first line rest Ha).
Qed.

Lemma X25_zero_energy_is_dropped_witness :
  main_electrostatics (H := summary_only) (Some 0%float) ".pdb"
    (saved_lines example_structure) = Ok None
  /\ main_electrostatics (H := summary_only) (Some (- 0)%float) ".pdb"
       example_file = Ok (Some (- 30.5)%float).
Proof.
  split.
  - destruct (X25_zero_energy_is_dropped (H := summary_only) (Some 0%float)
                ".pdb" (saved_lines example_structure)) as (_ & _ & Hnone).
    apply (Hnone 0%float eq_refl eq_refl) with
      (line := "ATOM      1  CA  ALA X   1       0.000   0.000   0.000  1.00  0.00           C")
      (rest := skipn 1 (saved_lines example_structure));
      [discriminate | reflexivity | reflexivity].
  - destruct (X25_zero_energy_is_dropped (H := summary_only)
                (Some (- 0)%float) ".pdb" example_file) as (_ & Hfile & _).
    rewrite Hfile; [vm_compute; reflexivity | reflexivity | discriminate].
Defined.

Lemma append_assoc (s1 s2 s3 : string) :
  s1 +:+ (s2 +:+ s3) = (s1 +:+ s2) +:+ s3.
Proof.
  induction s1 as [|c s1 IH]; [reflexivity|].
  change (String c (s1 +:+ (s2 +:+ s3)) = String c ((s1 +:+ s2) +:+ s3)).
  rewrite IH. reflexivity.
Qed.

(** The structure of a session is the one given to the constructor. *)
Lemma init_structure `{Platform} (structure : Structure)
    (chains : list string) (electrostatics : option float)
    (cpp_contacts : option cpp_value) (cutoff : cutoff_value)
    (self : ProdigyLig.t) :
  ProdigyLig.__init__ structure chains electrostatics cpp_contacts cutoff
    = Ok self ->
  ProdigyLig.structure self = structure.
Proof.
  unfold ProdigyLig.__init__.
  destruct (_parse_chains chains) as [parsed|e]; [|discriminate].
  intros [= <-]. reflexivity.
Qed.

(** A run of the two writes whose texts are there is a delivery. *)
Lemma report_is_delivery `{Files} (outfile header row : string) :
  let handle := if PyStr.nonempty outfile then Some outfile else None in
  let opened := if PyStr.nonempty outfile then open_w outfile else Ok tt in
  let run :=
    write_next handle (Ok row) (write_next handle (Ok header) ([], opened)) in
  (handle, (close_next handle run).1, (close_next handle run).2)
  = deliver outfile [header; row].
Proof.
  unfold deliver.
  destruct (PyStr.nonempty outfile);
    [destruct (open_w outfile) as [[]|e0]|];
    unfold write_next, close_next; cbn [fst snd write_all app];
    try reflexivity;
    destruct (write _ [] header) as [[]|e1]; cbn [fst snd app];
    try reflexivity;
    destruct (write _ [header] row) as [[]|e2]; reflexivity.
Qed.

(** X26.  On a session as the constructor leaves it the report never
    returns, whether [predict] would succeed or not: it raises what opening
    the file or writing the header raises, and when these two succeed the
    header is written and formatting the missing score raises [ValueError].
    After a successful [predict] formatting cannot fail, and the report is
    the delivery of a header and one row to the file named or, for an empty
    name, to the standard output: it ends as opening, the two writes and
    closing end.  A file that cannot be opened makes either report raise
    the error of [open], with nothing written. *)
Theorem X26_report_after_predict `{Platform} `{Formatting} `{Files}
    (structure : Structure) (chains : list string)
    (electrostatics : option float) (cpp_contacts : option cpp_value)
    (cutoff : cutoff_value) (self : ProdigyLig.t) (outfile : string) :
  ProdigyLig.__init__ structure chains electrostatics cpp_contacts cutoff
    = Ok self ->
  ((exists e, (print_prediction self outfile).2 = Raise e)
   /\ (length (print_prediction self outfile).1.2 <= 1)%nat
   /\ (takes_header outfile ->
       (print_prediction self outfile).2 = Raise ValueError
       /\ length (print_prediction self outfile).1.2 = 1%nat))
  /\ (forall self', ProdigyLig.predict self = (Ok tt, self') ->
        exists scores,
          report_scores self' = Some <$> scores
          /\ print_prediction self' outfile
             = deliver outfile
                 [table_row (report_columns electrostatics);
                  table_row (id structure :: (format_2f <$> scores))])
  /\ (forall (session : ProdigyLig.t) e,
        PyStr.nonempty outfile = true -> open_w outfile = Raise e ->
        print_prediction session outfile = (Some outfile, [], Raise e)).
Proof.
  intros Hinit.
  destruct (init_fields _ _ _ _ _ _ Hinit) as (He & _ & Hsc & Hel & Hdg & _).
  split; [|split].
  - unfold print_prediction, takes_header. rewrite Hsc, Hel, Hdg.
    destruct (PyStr.nonempty outfile);
      [destruct (open_w outfile) as [[]|e0]|];
      destruct (ProdigyLig.electrostatics self);
      unfold write_next, close_next; cbn [fst snd];
      try (destruct (write _ [] _) as [[]|e1] eqn:Hw);
      cbn [fst snd length app];
      (split; [eexists; reflexivity|]); (split; [lia|]);
      intros [Hopen Hwrite];
      try (specialize (Hopen eq_refl); discriminate Hopen);
      try (rewrite Hwrite in Hw; discriminate Hw);
      try (split; reflexivity).
  - intros self' Hrun.
    destruct (predict_return _ _ Hrun)
      as (contacts & self1 & h & dg & Hdetect & _ & _ & _ & Hstate).
    destruct (detect_keeps _ _ _ Hdetect) as (Hst1 & _ & He1 & _).
    rewrite (init_structure _ _ _ _ _ _ Hinit) in Hst1.
    rewrite He in He1. rewrite He1 in Hstate.
    destruct electrostatics as [en|].
    + destruct Hstate as (score & dge & _ & _ & ->).
      exists [dge; score]. unfold report_scores, print_prediction. cbn.
      rewrite He1, Hst1. split; [reflexivity|].
      rewrite <- report_is_delivery. unfold table_row, PyStr.join.
      cbn [String.concat fmap list_fmap].
      rewrite <- !append_assoc. reflexivity.
    + subst self'. exists [dg]. unfold report_scores, print_prediction. cbn.
      rewrite He1, Hst1. split; [reflexivity|].
      rewrite <- report_is_delivery. unfold table_row, PyStr.join.
      cbn [String.concat fmap list_fmap].
      rewrite <- !append_assoc. reflexivity.
  - intros session e Hname Hopen. unfold print_prediction.
    rewrite Hname, Hopen.
    destruct (ProdigyLig.electrostatics session); reflexivity.
Qed.

Lemma X26_report_after_predict_witness :
  (print_prediction (H := two_decimals) (H0 := plain_files) near_session "").2
  = Raise ValueError
  /\ print_prediction (H := two_decimals) (H0 := plain_files)
       (ProdigyLig.predict (H := summary_only) near_session).2 ""
     = (None,
        ["Job name" +:+ tab +:+ "DGprediction (Kcal/mol)" +:+ tab
           +:+ "DGscore" +:+ newline;
         "pair" +:+ tab +:+ "-5.45" +:+ tab +:+ "176.49" +:+ newline],
        Ok tt)
  /\ print_prediction (H := two_decimals) (H0 := plain_files)
       (ProdigyLig.predict (H := summary_only) near_session).2 "/"
     = (Some "/", [], Raise IOError).
Proof.
  destruct (X26_report_after_predict (H := summary_only) (H0 := two_decimals)
              (H1 := plain_files)
              pair_structure ["A"; "B"] (Some (- 30.5)%float) None
              (CutoffFloat 10.5) near_session "")
    as [(_ & _ & Hbefore) _]; [vm_compute; reflexivity|].
  destruct (X26_report_after_predict (H := summary_only) (H0 := two_decimals)
              (H1 := plain_files)
              pair_structure ["A"; "B"] (Some (- 30.5)%float) None
              (CutoffFloat 10.5) near_session "/")
    as (_ & _ & Hopen); [vm_compute; reflexivity|].
  split; [apply Hbefore; split; [discriminate | reflexivity]|].
  split; [vm_compute; reflexivity|].
  apply Hopen; reflexivity.
Defined.

(** ** Identifiers that select nothing *)

Lemma in_group_one_byte (ch : ascii) (group : list string) :
  in_group (String ch EmptyString) group
  = in_group (String ch EmptyString) (one_byte_ids group).
Proof.
  unfold in_group, one_byte_ids. apply bool_decide_ext.
  rewrite !list_elem_of_In, filter_In. split; [|tauto].
  intros Hin. split; [exact Hin | reflexivity].
Qed.

Lemma filter_ext_Forall {A} (P : A -> Prop) (f g : A -> bool) (l : list A) :
  Forall P l -> (forall x, P x -> f x = g x) ->
  List.filter f l = List.filter g l.
Proof.
  intros Hall Hfg. induction Hall as [|x l Hx _ IH]; [reflexivity|].
  cbn [List.filter]. rewrite (Hfg x Hx), IH. reflexivity.
Qed.

Section OneByteChains.
Context `{Platform}.

(** The chain of a coordinate line is one byte, the twenty-second. *)
Lemma process_coord_line_chain (line : string) (c : coord_line) :
  _process_coord_line line = Ok (Some c) ->
  exists ch, cl_chain c = String ch EmptyString.
Proof.
  unfold _process_coord_line, PyStr.at_index.
  destruct (_ || _); [|discriminate].
  destruct (String.get 21 line) as [ch|]; [|discriminate].
  cbn [mbind result_bind].
  destruct (float_of_str (PyStr.slice 30 38 line)); [|discriminate].
  destruct (float_of_str (PyStr.slice 38 46 line)); [|discriminate].
  destruct (float_of_str (PyStr.slice 46 54 line)); [|discriminate].
  cbn. intros [= <-]. exists ch. reflexivity.
Qed.

Lemma mapM_process_chains (lines : list string) :
  forall cls, mapM _process_coord_line lines = Ok cls ->
  Forall (fun c => exists ch, cl_chain c = String ch EmptyString)
    (omap (fun c => c) cls).
Proof.
  induction lines as [|line rest IH]; intros cls Hrun.
  - injection Hrun as <-. constructor.
  - cbn [mapM] in Hrun.
    destruct (_process_coord_line line) as [oc|e] eqn:Hline;
      [|discriminate Hrun].
    cbn [mbind result_bind] in Hrun.
    destruct (mapM _process_coord_line rest) as [cls'|e];
      [|discriminate Hrun].
    cbn in Hrun. injection Hrun as <-. specialize (IH cls' eq_refl).
    destruct oc as [c|]; cbn [omap list_omap]; [|exact IH].
    constructor; [exact (process_coord_line_chain line c Hline) | exact IH].
Qed.

End OneByteChains.

(** X27.  The in-process detector compares the one-byte chain of an atom
    with the identifiers of the groups, so an identifier that is not one
    byte long (such as the ["AB"] and the empty identifier that parsing lets
    through) selects no atom: the buckets are those of the groups with such
    identifiers removed. *)
Theorem X27_long_identifiers_select_nothing `{Platform} (g0 g1 : list string)
    (lines : list string) :
  read_lines [g0; g1] ([], []) lines
  = read_lines [one_byte_ids g0; one_byte_ids g1] ([], []) lines.
Proof.
  rewrite !read_lines_two_groups.
  destruct (mapM _process_coord_line lines) as [cls|e] eqn:Hrun;
    [|reflexivity].
  pose proof (mapM_process_chains lines cls Hrun) as Hchains.
  cbn [mbind result_bind mret result_ret]. unfold bucket_0, bucket_1.
  rewrite (filter_ext_Forall _ _
             (fun c => in_group (cl_chain c) (one_byte_ids g0)) _ Hchains)
    by (intros c [ch ->]; apply in_group_one_byte).
  rewrite (filter_ext_Forall _
             (fun c => negb (in_group (cl_chain c) g0)
                       && in_group (cl_chain c) g1)
             (fun c => negb (in_group (cl_chain c) (one_byte_ids g0))
                       && in_group (cl_chain c) (one_byte_ids g1))
             _ Hchains)
    by (intros c [ch ->]; rewrite <- !in_group_one_byte; reflexivity).
  reflexivity.
Qed.
